(** * TransformiX CRM node service: CSV ingestion, schema inference, dynamic
    table materialisation and pagination.

    A shallow embedding of the JavaScript sources.  The repository holds
    five successive rewrites of one Express server; the last one (the
    Neon / raw-SQL server that is exported for production) is embedded at
    top level, the earlier Sequelize server in [Module Sequelize].

    Conventions of the embedding

    - A JavaScript string is a Rocq [string]; one [ascii] stands for one
      code unit (exact on ASCII text).
    - A plain data object (a CSV row) is an association list in the
      enumeration order of [Object.keys]; reading a key that the row does
      not own follows the prototype chain to [Object.prototype].
    - The built-ins of the JavaScript runtime whose results depend on
      IEEE-754 doubles with a fraction, on the engine's date parser or on
      the methods of an object are the fields of the class [JsRuntime];
      every general theorem holds for every runtime.  The doubles of the
      pagination reader, whose values are integers, are computed here.
    - [throw] is the constructor [Throw] of [result]; the external
      collaborators of a request handler (blob store, analysis service,
      CSV parser) answer through the fields of a request record.
    - The SQL engine reads the text of the statements it is sent: their
      column lists, tuples, offsets and limits are parsed back from the
      text.  Whether it accepts the types of a statement is an answer of
      the request record. *)

From Stdlib Require Import List String Ascii Bool ZArith Lia.
From Stdlib Require Import DecimalString DecimalPos DecimalZ Permutation.
Import ListNotations.
Local Open Scope string_scope.
Local Open Scope Z_scope.

(* ================================================================== *)
(** ** Strings *)

(** The double quote and the line feed, which SQL text is full of. *)
Definition dq : string := String "034"%char EmptyString.
Definition nl : string := String "010"%char EmptyString.
Definition apostrophe : ascii := "039"%char.

(** [`"${s}"`] *)
Definition quoted (s : string) : string := dq ++ s ++ dq.

(** The character class [[a-zA-Z0-9_]]. *)
Definition isIdentChar (c : ascii) : bool :=
  let n := nat_of_ascii c in
  ((48 <=? n) && (n <=? 57) || (65 <=? n) && (n <=? 90)
   || (97 <=? n) && (n <=? 122) || (n =? 95))%nat.

(** [s.replace(/[^a-zA-Z0-9_]/g, '_')] *)
Fixpoint sanitize (s : string) : string :=
  match s with
  | EmptyString => EmptyString
  | String c s' => String (if isIdentChar c then c else "_"%char) (sanitize s')
  end.

(** [s.replace(/'/g, "''")] *)
Fixpoint escapeQuotes (s : string) : string :=
  match s with
  | EmptyString => EmptyString
  | String c s' =>
      if Ascii.eqb c apostrophe
      then String apostrophe (String apostrophe (escapeQuotes s'))
      else String c (escapeQuotes s')
  end.

(** [`'${s}'`] *)
Definition sqlQuoted (s : string) : string :=
  String apostrophe s ++ String apostrophe EmptyString.

Definition lowerChar (c : ascii) : ascii :=
  let n := nat_of_ascii c in
  if ((65 <=? n) && (n <=? 90))%nat then ascii_of_nat (n + 32) else c.

(** [s.toLowerCase()], on the ASCII letters.  The sources only compare the
    result with ['true'] and ['false'], and no character outside ASCII
    lower-cases to a letter of these two words. *)
Fixpoint toLowerCase (s : string) : string :=
  match s with
  | EmptyString => EmptyString
  | String c s' => String (lowerChar c) (toLowerCase s')
  end.

(** [xs.join(sep)] *)
Definition join (sep : string) (xs : list string) : string := String.concat sep xs.

(* ================================================================== *)
(** ** The JavaScript runtime *)

(** What the sources ask of the runtime: numbers, dates, objects, and the
    conversions between them and strings. *)
Class JsRuntime : Type := {
  (** IEEE-754 doubles *)
  number : Type;
  NaN : number;
  number_of_Z : Z -> number;
  isNaN : number -> bool;
  isNaN_NaN : isNaN NaN = true;
  isNaN_of_Z : forall z, isNaN (number_of_Z z) = false;
  (** [Number(s)] and [parseFloat(s)] on a string *)
  Number_of_string : string -> number;
  parseFloat : string -> number;
  (** [String(n)] and [Boolean(n)] on a number *)
  String_of_number : number -> string;
  Boolean_of_number : number -> bool;
  (** [new Date(n).getTime()]: the time value, [None] for [NaN] *)
  TimeClip : number -> option Z;
  (** [new Date(s).getTime()] on a string *)
  Date_parse : string -> option Z;
  (** [String(d)] on a Date, and [d.toISOString()] on a valid time value *)
  String_of_Date : option Z -> string;
  toISOString : Z -> string;
  (** Objects: the plain objects and arrays of nested CSV headers and of
      JSON cells, and the functions a plain object inherits.  [String(o)],
      [Number(o)] and [new Date(o).getTime()] first convert the object to
      a primitive through its [toString] and [valueOf]; when neither is
      callable and gives a primitive (the JSON cell [{"toString": 1}])
      the conversion throws a [TypeError]: [None]. *)
  object : Type;
  String_of_object : object -> option string;
  Number_of_object : object -> option number;
  Date_of_object : object -> option (option Z);
  (** [Object.prototype[k]]: what [o[k]] is on a plain object [o] that
      does not own [k] ([constructor], [toString], ...); [None] when the
      prototype has no such property either *)
  inherited : string -> option object
}.

(** The error objects the sources can throw. *)
Inductive exn : Type :=
| Error (message : string)
| RangeError (message : string)
| TypeError (message : string).

Inductive result (A : Type) : Type :=
| Ok (a : A)
| Throw (e : exn).
Arguments Ok {A} a.
Arguments Throw {A} e.

Definition bind {A B : Type} (m : result A) (k : A -> result B) : result B :=
  match m with
  | Ok a => k a
  | Throw e => Throw e
  end.

Notation "x <- m ;; k" := (bind m (fun x => k))
  (at level 61, m at next level, right associativity).

(** [xs.map(f)] where [f] may throw: the first exception escapes. *)
Fixpoint mapM {A B : Type} (f : A -> result B) (xs : list A) : result (list B) :=
  match xs with
  | [] => Ok []
  | x :: xs' => y <- f x ;; ys <- mapM f xs' ;; Ok (y :: ys)
  end.

(** The error of a conversion to a primitive that finds no method. *)
Definition cannotConvert : exn := TypeError "Cannot convert object to primitive value".

Definition primitive {A : Type} (converted : option A) : result A :=
  match converted with
  | Some a => Ok a
  | None => Throw cannotConvert
  end.

Section Values.
Context {rt : JsRuntime}.

(** The values a parsed CSV cell can hold, and [Date], which the sources
    test for. *)
Inductive jsval : Type :=
| JNull
| JUndefined
| JString (s : string)
| JNumber (n : number)
| JBoolean (b : bool)
| JDate (t : option Z)
| JObject (o : object).

Definition row : Type := list (string * jsval).

(** [Object.keys(r)] *)
Definition keys (r : row) : list string := map fst r.

(** [r[k]]: the own property, else the inherited one, else [undefined]. *)
Fixpoint get (r : row) (k : string) : jsval :=
  match r with
  | [] => match inherited k with
          | Some o => JObject o
          | None => JUndefined
          end
  | (k', v) :: r' => if String.eqb k' k then v else get r' k
  end.

(** [value === null || value === undefined || value === ''] *)
Definition isEmptyValue (v : jsval) : bool :=
  match v with
  | JNull | JUndefined => true
  | JString s => String.eqb s ""
  | _ => false
  end.

(** [Number(v)] *)
Definition Number (v : jsval) : result number :=
  match v with
  | JNull => Ok (number_of_Z 0)
  | JUndefined => Ok NaN
  | JString s => Ok (Number_of_string s)
  | JNumber n => Ok n
  | JBoolean b => Ok (number_of_Z (if b then 1 else 0))
  | JDate (Some t) => Ok (number_of_Z t)
  | JDate None => Ok NaN
  | JObject o => primitive (Number_of_object o)
  end.

(** [String(v)] *)
Definition String_ (v : jsval) : result string :=
  match v with
  | JNull => Ok "null"
  | JUndefined => Ok "undefined"
  | JString s => Ok s
  | JNumber n => Ok (String_of_number n)
  | JBoolean b => Ok (if b then "true" else "false")
  | JDate t => Ok (String_of_Date t)
  | JObject o => primitive (String_of_object o)
  end.

(** [Boolean(v)] *)
Definition Boolean (v : jsval) : bool :=
  match v with
  | JNull | JUndefined => false
  | JString s => negb (String.eqb s "")
  | JNumber n => Boolean_of_number n
  | JBoolean b => b
  | JDate _ | JObject _ => true
  end.

(** [new Date(v).getTime()], [None] for [NaN] (an Invalid Date) *)
Definition newDate (v : jsval) : result (option Z) :=
  match v with
  | JNull => Ok (Some 0)
  | JUndefined => Ok None
  | JString s => Ok (Date_parse s)
  | JNumber n => Ok (TimeClip n)
  | JBoolean b => Ok (Some (if b then 1 else 0))
  | JDate t => Ok t
  | JObject o => primitive (Date_of_object o)
  end.

(* ================================================================== *)
(** ** Type inference *)

(** The four locals [hasString], [hasNumber], [hasBoolean], [hasDate]. *)
Record flags : Type := mkFlags {
  hasString : bool;
  hasNumber : bool;
  hasBoolean : bool;
  hasDate : bool
}.

Definition noFlags : flags := mkFlags false false false false.

(** One iteration of [for (const row of data)], on [row[columnName]]. *)
Definition scanValue (f : flags) (value : jsval) : flags :=
  if isEmptyValue value then f
  else
    match value with
    | JString s =>
        let f := mkFlags true (hasNumber f) (hasBoolean f) (hasDate f) in
        if negb (isNaN (Number_of_string s)) && negb (isNaN (parseFloat s)) then
          mkFlags (hasString f) true (hasBoolean f) (hasDate f)
        else if String.eqb (toLowerCase s) "true" || String.eqb (toLowerCase s) "false" then
          mkFlags (hasString f) (hasNumber f) true (hasDate f)
        else if match Date_parse s with Some _ => true | None => false end then
          mkFlags (hasString f) (hasNumber f) (hasBoolean f) true
        else f
    | JNumber _ => mkFlags (hasString f) true (hasBoolean f) (hasDate f)
    | JBoolean _ => mkFlags (hasString f) (hasNumber f) true (hasDate f)
    | JDate _ => mkFlags (hasString f) (hasNumber f) (hasBoolean f) true
    | _ => f
    end.

(** The scanning loop shared, word for word, by [inferSqlType] and
    [inferSequelizeType]. *)
Definition scanColumn (columnName : string) (data : list row) : flags :=
  fold_left (fun f r => scanValue f (get r columnName)) data noFlags.

(** [inferSqlType] of the raw-SQL server. *)
Definition inferSqlType (columnName : string) (data : list row) : string :=
  let f := scanColumn columnName data in
  if hasNumber f && negb (hasString f) && negb (hasDate f) && negb (hasBoolean f) then "NUMERIC"
  else if hasDate f && negb (hasString f) && negb (hasNumber f) && negb (hasBoolean f) then "TIMESTAMP WITH TIME ZONE"
  else if hasBoolean f && negb (hasString f) && negb (hasNumber f) && negb (hasDate f) then "BOOLEAN"
  else if hasString f then "VARCHAR(255)"
  else if hasNumber f then "NUMERIC"
  else if hasBoolean f then "BOOLEAN"
  else if hasDate f then "TIMESTAMP WITH TIME ZONE"
  else "VARCHAR(255)".


(* ================================================================== *)
(** ** The decision table of the specification *)

(** The four semantic types of the type inferencer. *)
Inductive SemType : Type := Numeric | Boolean_ | Timestamp | Text.

(** The nine rules of the specification, in their priority order, over
    [sawString], [sawNumber], [sawBoolean], [sawDate]. *)
Definition specDecisionTable (sawString sawNumber sawBoolean sawDate : bool) : SemType :=
  if sawNumber && negb sawString then Numeric
  else if sawDate && negb (sawString || sawNumber || sawBoolean) then Timestamp
  else if sawBoolean && negb (sawString || sawNumber || sawDate) then Boolean_
  else if sawString && sawNumber then Text
  else if sawString then Text
  else if sawNumber then Numeric
  else if sawBoolean then Boolean_
  else if sawDate then Timestamp
  else Text.

(** The native PostgreSQL type [inferSqlType] names for a semantic type. *)
Definition sqlTypeOf (t : SemType) : string :=
  match t with
  | Numeric => "NUMERIC"
  | Boolean_ => "BOOLEAN"
  | Timestamp => "TIMESTAMP WITH TIME ZONE"
  | Text => "VARCHAR(255)"
  end.

(* ================================================================== *)
(** ** The DDL generator *)

Definition createdAtColumn : string :=
  quoted "createdAt" ++ " TIMESTAMP WITH TIME ZONE DEFAULT CURRENT_TIMESTAMP".
Definition updatedAtColumn : string :=
  quoted "updatedAt" ++ " TIMESTAMP WITH TIME ZONE DEFAULT CURRENT_TIMESTAMP".

(** The array [columns] of [generateDynamicCreateTableSql] once the three
    groups of [push] are done. *)
Definition ddlColumns (firstRow : row) (userData : list row)
    (inferSqlTypeFunction : string -> list row -> string) : list string :=
  (quoted "id" ++ " SERIAL PRIMARY KEY")
  :: List.app
       (map (fun feature =>
               let sanitizedFeature := sanitize feature in
               let sqlType := inferSqlTypeFunction feature userData in
               quoted sanitizedFeature ++ " " ++ sqlType ++ " ")
            (keys firstRow))
       [createdAtColumn; updatedAtColumn].

(** [generateDynamicCreateTableSql].  A missing ([undefined], [null])
    argument takes the branch of the empty one. *)
Definition generateDynamicCreateTableSql (tableName : string) (userData : list row)
    (inferSqlTypeFunction : string -> list row -> string) : result string :=
  if String.eqb tableName "" then Throw (Error "Table name must be provided.")
  else
    match userData with
    | [] => Throw (Error "User data is empty, cannot infer schema for dynamic table creation.")
    | firstRow :: _ =>
        let columns := ddlColumns firstRow userData inferSqlTypeFunction in
        Ok ("CREATE TABLE IF NOT EXISTS " ++ quoted tableName ++ " (" ++ nl ++ "    "
            ++ join ("," ++ nl ++ "    ") columns ++ nl ++ ");")
    end.

(* ================================================================== *)
(** ** The bulk-insert generator *)

(** The callback of [columnNames.map] on [record[column]]; the last
    branch is the fallback [String(value)], which an object reaches. *)
Definition renderValue (value : jsval) : result string :=
  if isEmptyValue value then Ok "NULL"
  else
    match value with
    | JString s => Ok (sqlQuoted (escapeQuotes s))
    | JNumber _ | JBoolean _ => String_ value
    | JDate (Some t) => Ok (sqlQuoted (toISOString t))
    | JDate None => Throw (RangeError "Invalid time value")
    | _ => text <- String_ value ;; Ok (sqlQuoted (escapeQuotes text))
    end.

(** The callback of [userData.map]: one parenthesised tuple per record. *)
Definition valuesClause (columnNames : list string) (record : row) : result string :=
  values <- mapM (fun column => renderValue (get record column)) columnNames ;;
  Ok ("(" ++ join ", " values ++ ", CURRENT_TIMESTAMP, CURRENT_TIMESTAMP)").

(** [sanitizedColumnNames] after the [push] of the two audit columns. *)
Definition insertColumnList (columnNames : list string) : list string :=
  List.app (map (fun name => quoted (sanitize name)) columnNames)
           [quoted "createdAt"; quoted "updatedAt"].

(** [generateDynamicInsertSql] *)
Definition generateDynamicInsertSql (tableName : string) (userData : list row) : result string :=
  if String.eqb tableName "" then Throw (Error "Table name must be provided.")
  else
    match userData with
    | [] => Ok ""
    | firstRecord :: _ =>
        let columnNames := keys firstRecord in
        let sanitizedColumnNames := insertColumnList columnNames in
        valuesClauses <- mapM (valuesClause columnNames) userData ;;
        Ok ("INSERT INTO " ++ quoted tableName ++ " (" ++ join ", " sanitizedColumnNames ++ ")"
            ++ nl ++ "VALUES" ++ nl ++ join ("," ++ nl) valuesClauses ++ ";")
    end.

(** The values the generator has no literal for: an Invalid Date, whose
    [toISOString] raises, and an object that cannot be converted to a
    string. *)
Definition unprintable (value : jsval) : bool :=
  match value with
  | JDate None => true
  | JObject o => match String_of_object o with Some _ => false | None => true end
  | _ => false
  end.

(** The literal the specification asks for: [NULL] for a missing value,
    a quoted text with its quotes doubled, a bare number or boolean, a
    quoted ISO-8601 timestamp; an object is written as its text.  The
    specification names no literal for the values that are
    [unprintable]: they are given the empty text here, and the theorems
    on [specLiteral] leave them out. *)
Definition specLiteral (value : jsval) : string :=
  match value with
  | JNull | JUndefined => "NULL"
  | JString s => if String.eqb s "" then "NULL" else sqlQuoted (escapeQuotes s)
  | JNumber n => String_of_number n
  | JBoolean b => if b then "true" else "false"
  | JDate (Some t) => sqlQuoted (toISOString t)
  | JDate None => ""
  | JObject o =>
      match String_of_object o with
      | Some text => sqlQuoted (escapeQuotes text)
      | None => ""
      end
  end.

(** A record without the keys that are not among [columnNames]. *)
Definition withoutStrayKeys (columnNames : list string) (record : row) : row :=
  filter (fun cell => existsb (String.eqb (fst cell)) columnNames) record.

End Values.

(* ================================================================== *)
(** ** Numbers of the pagination reader *)

(** Page numbers, page sizes and offsets are IEEE-754 doubles.  The
    reader only makes doubles whose value is an integer, [NaN] or an
    infinity: they are computed here, an integer that has no double being
    rounded to the nearest one. *)
Inductive double : Type :=
| NotANumber
| Infinite (negative : bool)
| Integer (z : Z).

Definition double_eqb (x y : double) : bool :=
  match x, y with
  | NotANumber, NotANumber => true
  | Infinite s, Infinite s' => Bool.eqb s s'
  | Integer a, Integer b => a =? b
  | _, _ => false
  end.

(** The double nearest to an integer: 53 significant bits, ties to the
    even significand, and an infinity from 2^1024 on. *)
Definition roundToDouble (z : Z) : double :=
  let a := Z.abs z in
  if a <? 2 ^ 53 then Integer z
  else
    let e := Z.log2 a - 52 in
    let m := Z.shiftr a e in
    let r := a - Z.shiftl m e in
    let half := 2 ^ (e - 1) in
    let m' := if (half <? r) || ((r =? half) && Z.odd m) then m + 1 else m in
    let v := Z.shiftl m' e in
    if 2 ^ 1024 <=? v then Infinite (z <? 0) else Integer (Z.sgn z * v).

(** The decimal digits of an integer, with a minus sign before those of a
    negative one. *)
Definition string_of_Z (z : Z) : string := NilZero.string_of_int (Z.to_int z).

(** White space that [parseInt] skips. *)
Definition isWhiteSpace (c : ascii) : bool :=
  let n := nat_of_ascii c in
  ((n =? 32) || (9 <=? n) && (n <=? 13))%nat.

Fixpoint trimStart (s : string) : string :=
  match s with
  | String c s' => if isWhiteSpace c then trimStart s' else s
  | EmptyString => EmptyString
  end.

Definition digitValue (radix : Z) (c : ascii) : option Z :=
  let n := Z.of_nat (nat_of_ascii c) in
  let v := if (48 <=? n) && (n <=? 57) then n - 48
           else if (97 <=? n) && (n <=? 122) then n - 87
           else if (65 <=? n) && (n <=? 90) then n - 55
           else radix in
  if v <? radix then Some v else None.

(** The value of the longest prefix of digits, [None] when it is empty. *)
Fixpoint leadingDigits (radix : Z) (acc : option Z) (s : string) : option Z :=
  match s with
  | EmptyString => acc
  | String c s' =>
      match digitValue radix c with
      | Some v => leadingDigits radix (Some (radix * match acc with Some a => a | None => 0 end + v)) s'
      | None => acc
      end
  end.

(** [parseInt(x)] on a query parameter; an absent parameter is
    [undefined], which reads as the text "undefined".  The integer that
    the digits spell is rounded to a double (as V8 does; the standard
    also allows an implementation to read the decimal digits after the
    twentieth as zeros). *)
Definition parseInt (x : option string) : double :=
  match x with
  | None => NotANumber
  | Some s =>
      let s := trimStart s in
      let (sign, s) :=
        match s with
        | String "-"%char s' => (-1, s')
        | String "+"%char s' => (1, s')
        | _ => (1, s)
        end in
      let (radix, s) :=
        match s with
        | String "0"%char (String "x"%char s') => (16, s')
        | String "0"%char (String "X"%char s') => (16, s')
        | _ => (10, s)
        end in
      match leadingDigits radix None s with
      | Some n => roundToDouble (sign * n)
      | None => NotANumber
      end
  end.

(** [n || d]: [NaN] and [0] are falsy. *)
Definition orDefault (n : double) (d : Z) : double :=
  match n with
  | NotANumber | Integer 0 => Integer d
  | _ => n
  end.

(** [x - 1] and [x * y]: the exact result, rounded. *)
Definition minusOne (x : double) : double :=
  match x with
  | Integer z => roundToDouble (z - 1)
  | _ => x
  end.

Definition times (x y : double) : double :=
  match x, y with
  | NotANumber, _ | _, NotANumber => NotANumber
  | Integer a, Integer b => roundToDouble (a * b)
  | Infinite s, Integer b | Integer b, Infinite s =>
      if b =? 0 then NotANumber else Infinite (xorb s (b <? 0))
  | Infinite s, Infinite s' => Infinite (xorb s s')
  end.

Definition isNegative (x : double) : bool :=
  match x with
  | Integer z => z <? 0
  | Infinite negative => negative
  | NotANumber => false
  end.

(** The ceiling of the exact quotient of two integers, for [limit] other than
    [0]. *)
Definition ceilDiv (count limit : Z) : Z := - ((- count) / limit).

(** The fraction [n / d] scaled by [2^(-e)], as a fraction. *)
Definition scaled (n d e : Z) : Z * Z :=
  if e <? 0 then (n * 2 ^ (- e), d) else (n, d * 2 ^ e).

(** The integer nearest to [a / b], the even one of two that are as
    near. *)
Definition nearestEven (a b : Z) : Z :=
  let q := a / b in
  let r := a mod b in
  if (b <? 2 * r) || ((2 * r =? b) && Z.odd q) then q + 1 else q.

(** The quotient of two positive integers rounded to a double: the
    significand [m], of 53 bits, and the exponent [e] of the double
    [m * 2^e].  (A quotient below 2^-1022 has fewer bits; it is below 1
    either way.) *)
Definition roundQuotient (n d : Z) : Z * Z :=
  let e0 := Z.log2 n - Z.log2 d - 52 in
  let (a0, b0) := scaled n d e0 in
  let e := if a0 <? 2 ^ 52 * b0 then e0 - 1 else e0 in
  let (a, b) := scaled n d e in
  (nearestEven a b, e).

(** [Math.ceil] and [Math.floor] of [m * 2^e]. *)
Definition ceilScaled (m e : Z) : Z := if e <? 0 then - ((- m) / 2 ^ (- e)) else m * 2 ^ e.
Definition floorScaled (m e : Z) : Z := if e <? 0 then m / 2 ^ (- e) else m * 2 ^ e.

(** [Math.ceil(count / limit)]: the engine gives the count as the
    decimal text of a [bigint]; the division converts it to a double,
    rounds the quotient of the two doubles, and [Math.ceil] takes the
    ceiling of the rounded quotient.  The sign of a zero is not kept. *)
Definition ceilQuotient (count : Z) (limit : double) : double :=
  match roundToDouble count, limit with
  | NotANumber, _ | _, NotANumber => NotANumber
  | Infinite _, Infinite _ => NotANumber
  | Infinite s, Integer l => Infinite (xorb s (l <? 0))
  | Integer _, Infinite _ => Integer 0
  | Integer c, Integer l =>
      if l =? 0 then (if c =? 0 then NotANumber else Infinite (c <? 0))
      else if c =? 0 then Integer 0
      else
        let (m, e) := roundQuotient (Z.abs c) (Z.abs l) in
        if Bool.eqb (c <? 0) (l <? 0) then Integer (ceilScaled m e)
        else Integer (- floorScaled m e)
  end.

(** *** [String(x)] on a double whose value is an integer *)

Definition zeros (n : Z) : string := String.concat "" (repeat "0" (Z.to_nat n)).

Fixpoint firstSome {A B : Type} (f : A -> option B) (xs : list A) : option B :=
  match xs with
  | [] => None
  | x :: xs' => match f x with
                | Some b => Some b
                | None => firstSome f xs'
                end
  end.

(** A decimal [s * 10^(n - k)] of [k] digits that rounds to the double
    [a], if there is one: the nearest to [a], the even one of two that
    are as near. *)
Definition shortestAt (a n k : Z) : option Z :=
  let p := 10 ^ (n - k) in
  let q := a / p in
  let r := a mod p in
  let rounds := fun s =>
    (10 ^ (k - 1) <=? s) && (s <? 10 ^ k) && double_eqb (roundToDouble (s * p)) (Integer a) in
  find rounds (if (2 * r <? p) || ((2 * r =? p) && Z.even q) then [q; q + 1] else [q + 1; q]).

(** The digits [s] and the exponent [n] of [Number::toString] on a
    positive double [a] above 2^53: the shortest [s] such that
    [s * 10^(n - k)], [k] the number of digits of [s], rounds to [a].
    Seventeen digits always do. *)
Definition shortestDigits (a : Z) : Z * Z :=
  let n := Z.of_nat (String.length (string_of_Z a)) in
  if double_eqb (roundToDouble (10 ^ n)) (Integer a) then (1, n + 1)
  else
    match firstSome (shortestAt a n) (map Z.of_nat (seq 1 17)) with
    | Some s => (s, n)
    | None => (a, n)
    end.

Definition showShortest (a : Z) : string :=
  let (s, n) := shortestDigits a in
  let digits := string_of_Z s in
  if n <=? 21 then digits ++ zeros (n - Z.of_nat (String.length digits))
  else
    match digits with
    | String d EmptyString => String d ("e+" ++ string_of_Z (n - 1))
    | String d fraction => String d ("." ++ fraction ++ "e+" ++ string_of_Z (n - 1))
    | EmptyString => EmptyString
    end.

(** [`${x}`]: up to 2^53 every integer is a double and all its digits
    are printed; a larger double is printed with the shortest digits that
    read back as it, followed by zeros below 10^21 and by an exponent
    from there on. *)
Definition showDouble (x : double) : string :=
  match x with
  | NotANumber => "NaN"
  | Infinite negative => if negative then "-Infinity" else "Infinity"
  | Integer z =>
      if Z.abs z <=? 2 ^ 53 then string_of_Z z
      else (if z <? 0 then "-" else "") ++ showShortest (Z.abs z)
  end.

(* ================================================================== *)
(** ** The SQL engine's reading of a statement *)

(** The engine is sent text.  What it makes of the statements of this
    server is read back from the text: the lines of a statement, the
    quoted identifiers, the integer literals, and the tuples of values of
    an [INSERT]. *)

Definition isDigit (c : ascii) : bool :=
  let n := nat_of_ascii c in ((48 <=? n) && (n <=? 57))%nat.

Fixpoint allDigits (s : string) : bool :=
  match s with
  | EmptyString => true
  | String c s' => isDigit c && allDigits s'
  end.

(** The text after a keyword, when the text starts with it. *)
Fixpoint expect (keyword text : string) : option string :=
  match keyword, text with
  | EmptyString, _ => Some text
  | String c keyword', String d text' =>
      if Ascii.eqb c d then expect keyword' text' else None
  | String _ _, EmptyString => None
  end.

(** The lines of a text. *)
Fixpoint lines (text : string) : list string :=
  match text with
  | EmptyString => [EmptyString]
  | String c text' =>
      if Ascii.eqb c "010"%char then EmptyString :: lines text'
      else
        match lines text' with
        | line :: rest => String c line :: rest
        | [] => [String c EmptyString]
        end
  end.

(** A list of quoted identifiers, separated by commas and spaces: the
    identifiers, and the text from the first character that belongs to
    none.  [partial] is the identifier being read, [read] the ones that
    were, last first. *)
Fixpoint identifierList (text : string) (partial : option string) (read : list string)
    : option (list string * string) :=
  match text with
  | EmptyString =>
      match partial with
      | None => Some (rev read, EmptyString)
      | Some _ => None
      end
  | String c text' =>
      match partial with
      | Some name =>
          if Ascii.eqb c "034"%char then identifierList text' None (name :: read)
          else identifierList text' (Some (name ++ String c EmptyString)) read
      | None =>
          if Ascii.eqb c "034"%char then identifierList text' (Some EmptyString) read
          else if Ascii.eqb c ","%char || Ascii.eqb c " "%char then identifierList text' None read
          else Some (rev read, text)
      end
  end.

(** An unsigned integer literal: decimal digits and nothing else. *)
Definition integerLiteral (token : string) : option Z :=
  match NilZero.uint_of_string token with
  | Some digits => Some (Z.of_uint digits)
  | None => None
  end.

(** The largest [bigint], which [OFFSET] and [LIMIT] are read as. *)
Definition bigintMax : Z := 2 ^ 63 - 1.

(** [SELECT columns FROM table ORDER BY "id" ASC OFFSET offset LIMIT limit],
    one clause per line as the reader writes it: the columns, the table,
    the offset and the limit. *)
Definition parseRowsQuery (text : string) : option (list string * string * Z * Z) :=
  match lines text with
  | [blank; selectLine; fromLine; orderLine; offsetLine; limitLine] =>
      match expect "    SELECT " selectLine, expect "    FROM " fromLine,
            expect "    OFFSET " offsetLine, expect "    LIMIT " limitLine with
      | Some selectClause, Some tableClause, Some offsetToken, Some limitToken =>
          match identifierList selectClause None [], identifierList tableClause None [],
                integerLiteral offsetToken, integerLiteral limitToken with
          | Some (columns, EmptyString), Some ([tableName], EmptyString), Some offset, Some limit =>
              if String.eqb blank ""
                 && String.eqb orderLine ("    ORDER BY " ++ quoted "id" ++ " ASC")
              then Some (columns, tableName, offset, limit)
              else None
          | _, _, _, _ => None
          end
      | _, _, _, _ => None
      end
  | _ => None
  end.

(** The column of a line of a [CREATE TABLE]: a quoted name, then its
    type. *)
Definition columnOfDefinition (line : string) : option string :=
  match expect "    " line with
  | Some definition =>
      match identifierList definition None [] with
      | Some ([name], _) => Some name
      | _ => None
      end
  | None => None
  end.

(** The columns of the lines after the first, up to the closing line. *)
Fixpoint columnsOfDefinitions (definitions : list string) : option (list string) :=
  match definitions with
  | [] => None
  | [closing] => if String.eqb closing ");" then Some [] else None
  | line :: rest =>
      match columnOfDefinition line, columnsOfDefinitions rest with
      | Some name, Some names => Some (name :: names)
      | _, _ => None
      end
  end.

(** [CREATE TABLE IF NOT EXISTS table ( definitions );], one definition
    per line: the table and its columns, in order. *)
Definition parseCreateTable (text : string) : option (string * list string) :=
  match lines text with
  | first :: definitions =>
      match expect "CREATE TABLE IF NOT EXISTS " first with
      | Some tableClause =>
          match identifierList tableClause None [], columnsOfDefinitions definitions with
          | Some ([tableName], "("), Some columns => Some (tableName, columns)
          | _, _ => None
          end
      | None => None
      end
  | [] => None
  end.

(** The tokens of the tuples of an [INSERT]. *)
Inductive token : Type :=
| Open
| Close
| Comma
| Semicolon
| Quoted (text : string)
| Word (w : string).

(** Where the scanner is: between tokens, in a bare word, in a string
    constant, or just after a quote inside one (the end of the constant,
    unless a second quote follows). *)
Inductive scanning : Type :=
| Between
| InWord (w : string)
| InString (s : string)
| AfterQuote (s : string).

(** What the scanner does with a character between tokens. *)
Definition scanStart (c : ascii) : list token * scanning :=
  if Ascii.eqb c apostrophe then ([], InString EmptyString)
  else if Ascii.eqb c "("%char then ([Open], Between)
  else if Ascii.eqb c ")"%char then ([Close], Between)
  else if Ascii.eqb c ","%char then ([Comma], Between)
  else if Ascii.eqb c ";"%char then ([Semicolon], Between)
  else if isWhiteSpace c then ([], Between)
  else ([], InWord (String c EmptyString)).

Definition endsWord (c : ascii) : bool :=
  Ascii.eqb c apostrophe || Ascii.eqb c "("%char || Ascii.eqb c ")"%char
  || Ascii.eqb c ","%char || Ascii.eqb c ";"%char || isWhiteSpace c.

Definition scanChar (state : scanning) (c : ascii) : list token * scanning :=
  match state with
  | Between => scanStart c
  | InWord w =>
      if endsWord c then (Word w :: fst (scanStart c), snd (scanStart c))
      else ([], InWord (w ++ String c EmptyString))
  | InString s =>
      if Ascii.eqb c apostrophe then ([], AfterQuote s)
      else ([], InString (s ++ String c EmptyString))
  | AfterQuote s =>
      if Ascii.eqb c apostrophe then ([], InString (s ++ String apostrophe EmptyString))
      else (Quoted s :: fst (scanStart c), snd (scanStart c))
  end.

Fixpoint scan (text : string) (state : scanning) : list token * scanning :=
  match text with
  | EmptyString => ([], state)
  | String c text' =>
      let (tokens, state') := scanChar state c in
      let (tokens', final) := scan text' state' in
      (List.app tokens tokens', final)
  end.

(** The tokens of a text; a string constant must be closed. *)
Definition tokensOf (text : string) : option (list token) :=
  match scan text Between with
  | (tokens, Between) => Some tokens
  | (tokens, InWord w) => Some (List.app tokens [Word w])
  | (tokens, AfterQuote s) => Some (List.app tokens [Quoted s])
  | (_, InString _) => None
  end.

(** A value of a tuple, as it is written. *)
Inductive literal : Type :=
| SqlNull
| SqlText (text : string)
| SqlWord (w : string).

(** A bare word: [NULL], or a number, a boolean, an expression. *)
Definition wordLiteral (w : string) : literal :=
  if String.eqb w "NULL" then SqlNull else SqlWord w.

Definition literalOf (t : token) : option literal :=
  match t with
  | Quoted text => Some (SqlText text)
  | Word w => Some (wordLiteral w)
  | _ => None
  end.

(** Where the reader of tuples is. *)
Inductive reading : Type :=
| BeforeTuple
| BeforeValue (values : list literal)
| AfterValue (values : list literal)
| AfterTuple
| Finished.

(** [( v, ..., v ), ..., ( v, ..., v );]: the tuples, in order. *)
Fixpoint tuplesOf (tokens : list token) (state : reading) (read : list (list literal))
    : option (list (list literal)) :=
  match tokens with
  | [] =>
      match state with
      | Finished => Some (rev read)
      | _ => None
      end
  | t :: tokens' =>
      match state, t with
      | BeforeTuple, Open => tuplesOf tokens' (BeforeValue []) read
      | BeforeValue values, (Quoted _ | Word _) =>
          match literalOf t with
          | Some value => tuplesOf tokens' (AfterValue (value :: values)) read
          | None => None
          end
      | AfterValue values, Comma => tuplesOf tokens' (BeforeValue values) read
      | AfterValue values, Close => tuplesOf tokens' AfterTuple (rev values :: read)
      | AfterTuple, Comma => tuplesOf tokens' BeforeTuple read
      | AfterTuple, Semicolon => tuplesOf tokens' Finished read
      | _, _ => None
      end
  end.

(** [INSERT INTO table ( columns ) VALUES tuples ;]: the table, the
    columns and the tuples. *)
Definition parseInsert (text : string)
    : option (string * list string * list (list literal)) :=
  match expect "INSERT INTO " text with
  | Some afterInto =>
      match identifierList afterInto None [] with
      | Some ([tableName], afterTable) =>
          match expect "(" afterTable with
          | Some columnList =>
              match identifierList columnList None [] with
              | Some (columns, afterColumns) =>
                  match expect (")" ++ nl ++ "VALUES" ++ nl) afterColumns with
                  | Some tuples =>
                      match tokensOf tuples with
                      | Some tokens =>
                          match tuplesOf tokens BeforeTuple [] with
                          | Some values => Some (tableName, columns, values)
                          | None => None
                          end
                      | None => None
                      end
                  | None => None
                  end
              | None => None
              end
          | None => None
          end
      | _ => None
      end
  | None => None
  end.

(* ================================================================== *)
(** ** The durable world of the raw-SQL server *)

Section Server.
Context {rt : JsRuntime}.

(** A row of the metadata table ["UploadedFile"]. *)
Record UploadedFileRow : Type := mkUploadedFile {
  publicId : string;
  secureUrl : string;
  originalFilename : string
}.

(** A cell of the table ["data"]: a key the engine generated, the
    literal an [INSERT] wrote (how the engine casts it to the type of
    its column, and how the driver gives it back, is theirs), or the
    value a Sequelize model bound. *)
Inductive cell : Type :=
| Generated (id : Z)
| Written (value : literal)
| Bound (value : jsval).

Definition record : Type := list (string * cell).

(** [record.column] of a stored record; a column it has no cell for is
    [NULL]. *)
Fixpoint cellOf (r : record) (column : string) : cell :=
  match r with
  | [] => Written SqlNull
  | (name, value) :: r' => if String.eqb name column then value else cellOf r' column
  end.

(** The table ["data"]: its columns as the catalog lists them, and its
    records in the order of their generated [id]. *)
Record Table : Type := mkTable {
  columnNames : list string;
  records : list record
}.

(** A statement sent to the SQL engine. *)
Inductive query : Type :=
| SelectUploadedFile
| SelectTableExists
| DropTableIfExists
| DeleteUploadedFile
| InsertUploadedFile (f : UploadedFileRow)
| SelectColumnNames (tableName : string)
| RawQuery (text : string).

(** What outlives a request: the metadata table, the ["data"] table when
    the catalog has one, the blob store (by public id), and the journal
    of the statements the engine has received. *)
Record World : Type := mkWorld {
  uploadedFile : list UploadedFileRow;
  dataTable : option Table;
  blobs : list string;
  journal : list query
}.

Definition emptyWorld : World := mkWorld [] None [] [].

(** The failures of the collaborators. *)
Inductive failure : Type :=
| Thrown (e : exn)
| DatabaseError (statement : string)
| StorageError
| UpstreamError.

(** A handler step: it answers or fails, and leaves a world behind. *)
Definition M (A : Type) : Type := World -> (A + failure) * World.

Definition ret {A : Type} (a : A) : M A := fun w => (inl a, w).
Definition fail {A : Type} (e : failure) : M A := fun w => (inr e, w).
Definition bindM {A B : Type} (m : M A) (k : A -> M B) : M B :=
  fun w =>
    match m w with
    | (inl a, w') => k a w'
    | (inr e, w') => (inr e, w')
    end.
Definition lift {A : Type} (r : result A) : M A :=
  match r with
  | Ok a => ret a
  | Throw e => fail (Thrown e)
  end.

Notation "x <~ m ;; k" := (bindM m (fun x => k))
  (at level 61, m at next level, right associativity).
Notation "m >> k" := (bindM m (fun _ => k))
  (at level 61, right associativity).

(** [try { body } catch (error) { handler }] around a whole route. *)
Definition tryCatch {A : Type} (body : M A) (handler : failure -> A) (w : World) : A * World :=
  match body w with
  | (inl a, w') => (a, w')
  | (inr e, w') => (handler e, w')
  end.

(** The same durable state, with another journal. *)
Definition withJournal (w : World) (j : list query) : World :=
  mkWorld (uploadedFile w) (dataTable w) (blobs w) j.

Definition sent (q : query) : M unit :=
  fun w => (inl tt, withJournal w (List.app (journal w) [q])).

(** The SQL engine, one definition per statement of the server. *)

Definition isDataCsv (f : UploadedFileRow) : bool := String.eqb (publicId f) "data.csv".

Definition selectUploadedFile : M (list UploadedFileRow) :=
  sent SelectUploadedFile >>
  fun w => (inl (filter isDataCsv (uploadedFile w)), w).

Definition selectTableExists : M bool :=
  sent SelectTableExists >>
  fun w => (inl (match dataTable w with Some _ => true | None => false end), w).

Definition dropTableIfExists : M unit :=
  sent DropTableIfExists >>
  fun w => (inl tt, mkWorld (uploadedFile w) None (blobs w) (journal w)).

Definition deleteUploadedFile : M unit :=
  sent DeleteUploadedFile >>
  fun w => (inl tt, mkWorld (filter (fun f => negb (isDataCsv f)) (uploadedFile w))
                            (dataTable w) (blobs w) (journal w)).

(** ["publicId"] is declared [UNIQUE]. *)
Definition insertUploadedFile (f : UploadedFileRow) : M unit :=
  sent (InsertUploadedFile f) >>
  fun w =>
    if existsb (fun g => String.eqb (publicId g) (publicId f)) (uploadedFile w)
    then (inr (DatabaseError "INSERT INTO UploadedFile"), w)
    else (inl tt, mkWorld (List.app (uploadedFile w) [f]) (dataTable w) (blobs w) (journal w)).

(** [information_schema.columns] for a table name, in ordinal order. *)
Definition selectColumnNames (tableName : string) : M (list string) :=
  sent (SelectColumnNames tableName) >>
  fun w => (inl (match dataTable w with
                 | Some t => if String.eqb tableName "data" then columnNames t else []
                 | None => []
                 end), w).

Definition hasColumn (t : Table) (column : string) : bool :=
  existsb (String.eqb column) (columnNames t).

(** [await sql.query(createTableSql)]: a statement the engine cannot read
    or does not accept changes nothing; an accepted one creates the
    table unless the catalog has it. *)
Definition executeCreateTable (accepts : string -> bool) (text : string) : M unit :=
  sent (RawQuery text) >>
  fun w =>
    match parseCreateTable text with
    | Some (tableName, columns) =>
        if accepts text && String.eqb tableName "data" then
          match dataTable w with
          | Some _ => (inl tt, w)
          | None => (inl tt, mkWorld (uploadedFile w) (Some (mkTable columns []))
                                     (blobs w) (journal w))
          end
        else (inr (DatabaseError text), w)
    | None => (inr (DatabaseError text), w)
    end.

(** The records of the tuples of an [INSERT], numbered by the sequence of
    the key from [next] on. *)
Fixpoint numbered (next : Z) (tuples : list record) : list record :=
  match tuples with
  | [] => []
  | tuple :: rest => (("id", Generated next) :: tuple) :: numbered (next + 1) rest
  end.

Definition written (columns : list string) (values : list literal) : record :=
  combine columns (map Written values).

(** [await sql.query(insertSql)]: the statement names columns of the
    table and gives one value per column in every tuple; it is atomic,
    so a rejected one adds no record. *)
Definition executeInsert (accepts : string -> bool) (text : string) : M unit :=
  sent (RawQuery text) >>
  fun w =>
    match dataTable w, parseInsert text with
    | Some t, Some (tableName, columns, tuples) =>
        if accepts text && String.eqb tableName "data"
           && forallb (hasColumn t) columns
           && forallb (fun values => (List.length values =? List.length columns)%nat) tuples
        then
          let fresh := numbered (Z.of_nat (List.length (records t)) + 1)
                                (map (written columns) tuples) in
          (inl tt, mkWorld (uploadedFile w)
                           (Some (mkTable (columnNames t) (List.app (records t) fresh)))
                           (blobs w) (journal w))
        else (inr (DatabaseError text), w)
    | _, _ => (inr (DatabaseError text), w)
    end.

(** [SELECT COUNT( * ) FROM "data"]; the count comes as the decimal text
    of a [bigint]. *)
Definition selectCount (text : string) : M Z :=
  sent (RawQuery text) >>
  fun w =>
    match dataTable w with
    | Some t =>
        if String.eqb text ("SELECT COUNT(*) FROM " ++ quoted "data")
        then (inl (Z.of_nat (List.length (records t))), w)
        else (inr (DatabaseError text), w)
    | None => (inr (DatabaseError text), w)
    end.

(** The cells of the selected columns. *)
Definition project (columns : list string) (r : record) : record :=
  map (fun column => (column, cellOf r column)) columns.

(** The rows query: the engine reads the columns, the offset and the
    limit from the text.  It refuses a statement it cannot read, a
    column the table does not have (the sort key ["id"] included), and
    an offset or a limit that is not an unsigned [bigint]. *)
Definition selectPage (text : string) : M (list record) :=
  sent (RawQuery text) >>
  fun w =>
    match dataTable w, parseRowsQuery text with
    | Some t, Some (columns, tableName, offset, limit) =>
        if String.eqb tableName "data"
           && negb (match columns with [] => true | _ => false end)
           && forallb (hasColumn t) columns && hasColumn t "id"
           && (offset <=? bigintMax) && (limit <=? bigintMax)
        then (inl (map (project columns)
                       (firstn (Z.to_nat limit) (skipn (Z.to_nat offset) (records t)))), w)
        else (inr (DatabaseError text), w)
    | _, _ => (inr (DatabaseError text), w)
    end.

(** The blob store. *)
Definition cloudinaryDestroy (resolves : bool) (id : string) : M unit :=
  fun w =>
    if resolves then
      (inl tt, mkWorld (uploadedFile w) (dataTable w)
                       (filter (fun b => negb (String.eqb b id)) (blobs w)) (journal w))
    else (inr StorageError, w).

Definition cloudinaryUpload (answer : option (string * string)) : M (string * string) :=
  fun w =>
    match answer with
    | Some (public_id, secure_url) =>
        (inl (public_id, secure_url),
         mkWorld (uploadedFile w) (dataTable w)
                 (public_id :: filter (fun b => negb (String.eqb b public_id)) (blobs w))
                 (journal w))
    | None => (inr StorageError, w)
    end.

(** [axios.get] and [axios.post]: they answer or reject. *)
Definition axios {A : Type} (answer : option A) : M A :=
  match answer with
  | Some a => ret a
  | None => fail UpstreamError
  end.

(* ================================================================== *)
(** ** Responses *)

Inductive body : Type :=
| Message (message : string)
| ErrorText (error : string)
| ErrorObject (error : failure)
| Status (status : bool)
| Page (data : list record) (lastPage : double) (totalCount : Z)
| Analysis (data : string).

Record response : Type := mkResponse {
  code : Z;
  payload : body
}.

(* ================================================================== *)
(** ** The pagination reader *)

Definition columnsToExclude : list string := ["createdAt"; "updatedAt"].

(** The columns the reader selects: all but the audit ones. *)
Definition desiredColumnsOf (columnsData : list string) : list string :=
  filter (fun col => negb (existsb (String.eqb col) columnsToExclude)) columnsData.

(** The template literals [selectClause], [countQuery] and [rowsQuery]. *)
Definition selectClauseOf (desiredColumns : list string) : string :=
  join ", " (map (fun col => quoted (sanitize col)) desiredColumns).

Definition countQueryOf (tableName : string) : string :=
  "SELECT COUNT(*) FROM " ++ quoted tableName.

Definition rowsQueryOf (selectClause tableName : string) (offset limit : double) : string :=
  nl ++ "    SELECT " ++ selectClause
  ++ nl ++ "    FROM " ++ quoted tableName
  ++ nl ++ "    ORDER BY " ++ quoted "id" ++ " ASC"
  ++ nl ++ "    OFFSET " ++ showDouble offset
  ++ nl ++ "    LIMIT " ++ showDouble limit.

(** [generatePaginatedDataQuery(sql, tableName, offset, limit)]; the
    engine always answers the catalog query with an array, so the
    [Array.isArray] guard never fires. *)
Definition generatePaginatedDataQuery (tableName : string) (offset limit : double)
    : M (Z * list record) :=
  if String.eqb tableName "" then fail (Thrown (Error "Table name must be provided."))
  else
    columnsData <~ selectColumnNames tableName ;;
    let desiredColumns := desiredColumnsOf columnsData in
    match desiredColumns with
    | [] => fail (Thrown (Error ("No selectable columns found for table " ++ quoted tableName
                                   ++ " after exclusion.")))
    | _ =>
        let selectClause := selectClauseOf desiredColumns in
        let countQuery := countQueryOf tableName in
        count <~ selectCount countQuery ;;
        let rowsQuery := rowsQueryOf selectClause tableName offset limit in
        rows <~ selectPage rowsQuery ;;
        ret (count, rows)
    end.

(** [req.query] of [GET /api/data] *)
Record PageQuery : Type := mkPageQuery {
  page : option string;
  limit : option string
}.

(** [app.get("/api/data", ...)] *)
Definition api_data (q : PageQuery) : World -> response * World :=
  tryCatch
    (dataTable_exists <~ selectTableExists ;;
     if negb dataTable_exists then
       ret (mkResponse 404 (ErrorText "Data table not found. Please upload a CSV first."))
     else
       let page := orDefault (parseInt (page q)) 1 in
       let limit := orDefault (parseInt (limit q)) 10 in
       let offset := times (minusOne page) limit in
       r <~ generatePaginatedDataQuery "data" offset limit ;;
       let (count, rows) := r in
       let lastPage := ceilQuotient count limit in
       ret (mkResponse 200 (Page rows lastPage count)))
    (fun error => mkResponse 500 (ErrorObject error)).

(** [app.get("/api/check-table", ...)] *)
Definition api_check_table : World -> response * World :=
  tryCatch
    (uploaded <~ selectUploadedFile ;;
     if (0 <? Z.of_nat (List.length uploaded)) then ret (mkResponse 200 (Status true))
     else ret (mkResponse 200 (Status false)))
    (fun error => mkResponse 500 (ErrorObject error)).

(* ================================================================== *)
(** ** The dataset lifecycle *)

(** [req.file] *)
Record File : Type := mkFile {
  originalname : string;
  mimetype : string;
  buffer : string
}.

(** An upload request, with the answers of the collaborators it meets:
    the blob store, the CSV parser ([csv({ checkType: true })] on the
    buffer), the fetch of the stored blob, the analysis service, and
    whether the SQL engine accepts the types of a generated statement. *)
Record UploadRequest : Type := mkUploadRequest {
  file : option File;
  destroyResolves : bool;
  uploadAnswer : option (string * string);
  parsedRows : list row;
  blobAnswer : option string;
  analysisAnswer : option string;
  engineAccepts : string -> bool
}.

(** [app.post('/api/upload', ...)] *)
Definition api_upload (req : UploadRequest) : World -> response * World :=
  tryCatch
    (match file req with
     | None => ret (mkResponse 400 (Message "No CSV file uploaded"))
     | Some f =>
         existingFile <~ selectUploadedFile ;;
         (match existingFile with
          | [] => ret tt
          | existing :: _ =>
              dataTable_exists <~ selectTableExists ;;
              (if dataTable_exists then dropTableIfExists else ret tt) >>
              cloudinaryDestroy (destroyResolves req) (publicId existing) >>
              deleteUploadedFile
          end) >>
         cloudinaryUploadResult <~ cloudinaryUpload (uploadAnswer req) ;;
         insertUploadedFile (mkUploadedFile (fst cloudinaryUploadResult)
                                            (snd cloudinaryUploadResult)
                                            (originalname f)) >>
         selected <~ selectUploadedFile ;;
         let userData := parsedRows req in
         match selected with
         | [] => fail (Thrown (TypeError "Cannot read properties of undefined (reading 'secureUrl')"))
         | newUploadedFile :: _ =>
             csvDataBuffer <~ axios (blobAnswer req) ;;
             response <~ axios (analysisAnswer req) ;;
             createTableSql <~ lift (generateDynamicCreateTableSql "data" userData inferSqlType) ;;
             executeCreateTable (engineAccepts req) createTableSql >>
             insertSql <~ lift (generateDynamicInsertSql "data" userData) ;;
             executeInsert (engineAccepts req) insertSql >>
             ret (mkResponse 200 (Analysis response))
         end
     end)
    (fun error => mkResponse 500 (ErrorObject error)).

(** [app.delete("/api/table", ...)]; [destroys] is the blob store's answer. *)
Definition api_delete_table (destroys : bool) : World -> response * World :=
  tryCatch
    (dropTableIfExists >>
     uploaded <~ selectUploadedFile ;;
     (match uploaded with
      | [] => ret tt
      | f :: _ => deleteUploadedFile >> cloudinaryDestroy destroys (publicId f)
      end) >>
     ret (mkResponse 200 (Message ("Table " ++ quoted "data"
                                     ++ " and uploaded file data deleted successfully."))))
    (fun error => mkResponse 500 (ErrorObject error)).

(** A request of the server. *)
Inductive request : Type :=
| PostUpload (req : UploadRequest)
| DeleteTable (destroys : bool)
| GetCheckTable
| GetData (q : PageQuery).

Definition serve (r : request) : World -> response * World :=
  match r with
  | PostUpload req => api_upload req
  | DeleteTable destroys => api_delete_table destroys
  | GetCheckTable => api_check_table
  | GetData q => api_data q
  end.

(** The worlds the server can be in: what a sequence of requests makes of
    the empty world. *)
Inductive reachable : World -> Prop :=
| reachable_empty : reachable emptyWorld
| reachable_serve (r : request) (w : World) :
    reachable w -> reachable (snd (serve r w)).

End Server.

Notation "x <~ m ;; k" := (bindM m (fun x => k))
  (at level 61, m at next level, right associativity).
Notation "m >> k" := (bindM m (fun _ => k))
  (at level 61, right associativity).

(* ================================================================== *)
(** ** The Sequelize server: inference and coercion *)

Module Sequelize.
Section Coercion.
Context {rt : JsRuntime}.

(** The members of [DataTypes] the server names. *)
Inductive DataType : Type := STRING | TEXT | DECIMAL | BOOLEAN | BIGINT | DATE.

(** [inferSequelizeType] *)
Definition inferSequelizeType (columnName : string) (data : list row) : DataType :=
  let f := scanColumn columnName data in
  if hasNumber f && negb (hasString f) then DECIMAL
  else if hasDate f && negb (hasString f) && negb (hasNumber f) && negb (hasBoolean f) then DATE
  else if hasBoolean f && negb (hasString f) && negb (hasNumber f) && negb (hasDate f) then BOOLEAN
  else if hasString f && hasNumber f then TEXT
  else if hasString f then STRING
  else if hasNumber f then DECIMAL
  else if hasBoolean f then BOOLEAN
  else if hasDate f then DATE
  else STRING.

(** The semantic type a Sequelize data type stands for. *)
Definition semTypeOf (t : DataType) : SemType :=
  match t with
  | DECIMAL | BIGINT => Numeric
  | BOOLEAN => Boolean_
  | DATE => Timestamp
  | STRING | TEXT => Text
  end.

(** The body of [for (const feature in row)] in [processedUserData]: what
    [newRow[feature]] is set to, from [value] and [inferredType].  The
    calls [Number(value)], [new Date(value)] and [String(value)] throw on
    an object that cannot be converted. *)
Definition coerce (inferredType : DataType) (value : jsval) : result jsval :=
  if isEmptyValue value then Ok JNull
  else
    match inferredType with
    | DECIMAL =>
        numValue <- Number value ;;
        Ok (if isNaN numValue then JNull else JNumber numValue)
    | BOOLEAN =>
        match value with
        | JString s => Ok (JBoolean (String.eqb (toLowerCase s) "true"))
        | _ => Ok (JBoolean (Boolean value))
        end
    | DATE =>
        dateValue <- newDate value ;;
        Ok (match dateValue with
            | None => JNull
            | Some t => JDate (Some t)
            end)
    | _ => text <- String_ value ;; Ok (JString text)
    end.

(** [processedUserData = userData.map(row => ...)] *)
Definition processedUserData (userData : list row) : result (list row) :=
  mapM (fun r : row =>
          mapM (fun cell : string * jsval =>
                  let (feature, value) := cell in
                  let inferredType := inferSequelizeType feature userData in
                  coerced <- coerce inferredType value ;;
                  Ok (feature, coerced))
               r)
       userData.

(** A coerced cell is in the canonical form of its column type. *)
Definition canonical (t : DataType) (v : jsval) : bool :=
  match t, v with
  | DECIMAL, JNumber n => negb (isNaN n)
  | BOOLEAN, JBoolean _ => true
  | DATE, JDate (Some _) => true
  | (STRING | TEXT | BIGINT), JString _ => true
  | _, _ => false
  end.

(** The conversion that [coerce] asks of a value under a type throws. *)
Definition conversionThrows (t : DataType) (v : jsval) : bool :=
  match v with
  | JObject o =>
      match t with
      | DECIMAL => match Number_of_object o with Some _ => false | None => true end
      | BOOLEAN => false
      | DATE => match Date_of_object o with Some _ => false | None => true end
      | STRING | TEXT | BIGINT => match String_of_object o with Some _ => false | None => true end
      end
  | _ => false
  end.

End Coercion.

Section Handlers.
Context {rt : JsRuntime}.

(** The module-level [let DataTable;]: the model handle of the running
    process, [None] until an upload defines it (and after a restart). *)
Record Process : Type := mkProcess {
  DataTable : option (list string)
}.

Definition freshProcess : Process := mkProcess None.

(** [DataTable.findAndCountAll({ offset, limit, attributes })]: the
    engine refuses an offset or a limit that is not an unsigned
    [bigint]. *)
Definition findAndCountAll (offset limit : double) : M (Z * list record) :=
  fun w =>
    match dataTable w, offset, limit with
    | Some t, Integer o, Integer l =>
        if (0 <=? o) && (o <=? bigintMax) && (0 <=? l) && (l <=? bigintMax)
        then (inl (Z.of_nat (List.length (records t)),
                   firstn (Z.to_nat l) (skipn (Z.to_nat o) (records t))), w)
        else (inr (DatabaseError "findAndCountAll"), w)
    | _, _, _ => (inr (DatabaseError "findAndCountAll"), w)
    end.

(** [app.get("/api/data", ...)] of the Sequelize server. *)
Definition api_data (proc : Process) (q : PageQuery) : World -> response * World :=
  tryCatch
    (match DataTable proc with
     | None => ret (mkResponse 404 (ErrorText "Data table not found. Please upload a CSV first."))
     | Some _ =>
         let page := orDefault (parseInt (page q)) 1 in
         let limit := orDefault (parseInt (limit q)) 10 in
         let offset := times (minusOne page) limit in
         r <~ findAndCountAll offset limit ;;
         let (count, rows) := r in
         let lastPage := ceilQuotient count limit in
         ret (mkResponse 200 (Page rows lastPage count))
     end)
    (fun error => mkResponse 500 (ErrorText "Failed to fetch data")).

(** An upload to the Sequelize server: whether a file came, the parsed
    rows, and the answers of the analysis service and of the engine to
    [sync] and [bulkCreate]. *)
Record UploadRequest : Type := mkUploadRequest {
  hasFile : bool;
  parsedRows : list row;
  analysisAnswer : option string;
  syncResolves : bool;
  bulkCreateResolves : bool
}.

(** [await sequelize.sync()]: creates the table of the defined model
    unless the catalog has it. *)
Definition sync (resolves : bool) (attributes : list string) : M unit :=
  fun w =>
    if resolves then
      match dataTable w with
      | Some _ => (inl tt, w)
      | None => (inl tt, mkWorld (uploadedFile w)
                                 (Some (mkTable ("id" :: List.app attributes ["createdAt"; "updatedAt"]) []))
                                 (blobs w) (journal w))
      end
    else (inr (DatabaseError "sync"), w).

(** The record of a row given to the model. *)
Definition bound (r : row) : record := map (fun c => (fst c, Bound (snd c))) r.

(** [await DataTable.bulkCreate(processedUserData)] *)
Definition bulkCreate (resolves : bool) (rows : list row) : M unit :=
  fun w =>
    match dataTable w with
    | Some t =>
        if resolves then
          (inl tt, mkWorld (uploadedFile w)
                           (Some (mkTable (columnNames t) (List.app (records t) (map bound rows))))
                           (blobs w) (journal w))
        else (inr (DatabaseError "bulkCreate"), w)
    | None => (inr (DatabaseError "bulkCreate"), w)
    end.

(** [await DataTable.drop()] *)
Definition drop : M unit :=
  fun w => (inl tt, mkWorld (uploadedFile w) None (blobs w) (journal w)).

(** [app.post('/api/upload', ...)] of the Sequelize server; it answers
    with the new value of [DataTable] beside the response.  An exception
    of the pre-processing is caught by the outer [catch], after
    [DataTable] was assigned and the table created. *)
Definition api_upload (proc : Process) (req : UploadRequest)
    : World -> (response * Process) * World :=
  tryCatch
    (if negb (hasFile req) then ret (mkResponse 400 (Message "No CSV file uploaded"), proc)
     else
       let userData := parsedRows req in
       response <~ axios (analysisAnswer req) ;;
       match userData with
       | [] => fail (Thrown (TypeError "Cannot convert undefined or null to object"))
       | firstRow :: _ =>
           let proc' := mkProcess (Some (keys firstRow)) in
           fun w =>
             match sync (syncResolves req) (keys firstRow) w with
             | (inr error, w1) => (inl (mkResponse 500 (ErrorObject error), proc'), w1)
             | (inl _, w1) =>
                 match processedUserData userData with
                 | Throw error => (inl (mkResponse 500 (ErrorObject (Thrown error)), proc'), w1)
                 | Ok processed =>
                     match bulkCreate (bulkCreateResolves req) processed w1 with
                     | (inr error, w2) =>
                         match drop w2 with
                         | (_, w3) => (inl (mkResponse 500 (ErrorObject error), proc'), w3)
                         end
                     | (inl _, w2) => (inl (mkResponse 200 (Analysis response), proc'), w2)
                     end
                 end
             end
       end)
    (fun error => (mkResponse 500 (ErrorObject error), proc)).

End Handlers.
End Sequelize.

(* ================================================================== *)
(** ** A runtime for worked examples: Node on a host in UTC *)

(** The built-ins as Node computes them, on the fragment the worked
    examples are drawn from: numbers are integers, numeric strings are
    integer literals, date strings are calendar dates [YYYY-MM-DD], and
    the objects are the empty plain object, a plain object with a
    property [toString] that is not a function, and what a plain object
    inherits.  The general theorems do not depend on it. *)
Module Node.

Fixpoint reverse (s : string) : string :=
  match s with
  | EmptyString => EmptyString
  | String c s' => reverse s' ++ String c EmptyString
  end.

Definition trim (s : string) : string := reverse (trimStart (reverse (trimStart s))).

Definition unsigned (s : string) : Z * string :=
  match s with
  | String "-"%char s' => (-1, s')
  | String "+"%char s' => (1, s')
  | _ => (1, s)
  end.

(** [Number(s)]: white space is trimmed, the empty string is [0]. *)
Definition readNumber (s : string) : option Z :=
  let s := trim s in
  if String.eqb s "" then Some 0
  else
    let (sign, digits) := unsigned s in
    if allDigits digits then
      match leadingDigits 10 None digits with
      | Some n => Some (sign * n)
      | None => None
      end
    else None.

(** [readFloat(s)]: the longest numeric prefix. *)
Definition readFloat (s : string) : option Z :=
  let (sign, digits) := unsigned (trimStart s) in
  match leadingDigits 10 None digits with
  | Some n => Some (sign * n)
  | None => None
  end.

Definition showNumber (n : option Z) : string :=
  match n with
  | Some z => string_of_Z z
  | None => "NaN"
  end.

Definition truthyNumber (n : option Z) : bool :=
  match n with
  | Some z => negb (z =? 0)
  | None => false
  end.

Definition clipTime (n : option Z) : option Z :=
  match n with
  | Some z => if Z.abs z <=? 8640000000000000 then Some z else None
  | None => None
  end.

(** Days since 1970-01-01 of a date of the proleptic Gregorian calendar. *)
Definition daysFromCivil (y m d : Z) : Z :=
  let y := if m <=? 2 then y - 1 else y in
  let era := y / 400 in
  let yoe := y - era * 400 in
  let doy := (153 * (if 2 <? m then m - 3 else m + 9) + 2) / 5 + d - 1 in
  let doe := yoe * 365 + yoe / 4 - yoe / 100 + doy in
  era * 146097 + doe - 719468.

(** Year, month and day of a number of days since 1970-01-01. *)
Definition civilFromDays (z : Z) : Z * Z * Z :=
  let z := z + 719468 in
  let era := z / 146097 in
  let doe := z - era * 146097 in
  let yoe := (doe - doe / 1460 + doe / 36524 - doe / 146096) / 365 in
  let doy := doe - (365 * yoe + yoe / 4 - yoe / 100) in
  let mp := (5 * doy + 2) / 153 in
  let d := doy - (153 * mp + 2) / 5 + 1 in
  let m := if mp <? 10 then mp + 3 else mp - 9 in
  let y := yoe + era * 400 in
  (if m <=? 2 then y + 1 else y, m, d).

Definition msPerDay : Z := 86400000.

(** [new Date("YYYY-MM-DD").getTime()]: midnight UTC of a calendar date. *)
Definition readDate (s : string) : option Z :=
  match s with
  | String y1 (String y2 (String y3 (String y4 (String "-"%char
      (String m1 (String m2 (String "-"%char (String d1 (String d2 EmptyString))))))))) =>
      let ys := String y1 (String y2 (String y3 (String y4 EmptyString))) in
      let ms := String m1 (String m2 EmptyString) in
      let ds := String d1 (String d2 EmptyString) in
      if allDigits ys && allDigits ms && allDigits ds then
        match leadingDigits 10 None ys, leadingDigits 10 None ms, leadingDigits 10 None ds with
        | Some y, Some m, Some d =>
            let days := daysFromCivil y m d in
            if (1 <=? m) && (m <=? 12) && (1 <=? d)
               && (let '(y', m', d') := civilFromDays days in (y' =? y) && (m' =? m) && (d' =? d))
            then Some (days * msPerDay) else None
        | _, _, _ => None
        end
      else None
  | _ => None
  end.

(** A non-negative number in at least [width] digits. *)
Definition padded (width : nat) (z : Z) : string :=
  let s := string_of_Z z in
  String.concat "" (repeat "0" (width - String.length s)) ++ s.

Definition yearText (y : Z) : string :=
  if (0 <=? y) && (y <=? 9999) then padded 4 y
  else if y <? 0 then "-" ++ padded 6 (- y)
  else "+" ++ padded 6 y.

(** [d.toISOString()] on a valid time value. *)
Definition isoString (t : Z) : string :=
  let '(y, m, d) := civilFromDays (t / msPerDay) in
  let r := t mod msPerDay in
  yearText y ++ "-" ++ padded 2 m ++ "-" ++ padded 2 d
  ++ "T" ++ padded 2 (r / 3600000) ++ ":" ++ padded 2 (r / 60000 mod 60)
  ++ ":" ++ padded 2 (r / 1000 mod 60) ++ "." ++ padded 3 (r mod 1000) ++ "Z".

Definition dayName (n : Z) : string :=
  nth (Z.to_nat n) ["Sun"; "Mon"; "Tue"; "Wed"; "Thu"; "Fri"; "Sat"] "".

Definition monthName (m : Z) : string :=
  nth (Z.to_nat (m - 1))
      ["Jan"; "Feb"; "Mar"; "Apr"; "May"; "Jun"; "Jul"; "Aug"; "Sep"; "Oct"; "Nov"; "Dec"] "".

(** [String(d)] on a Date, for a host in UTC. *)
Definition showDate (t : option Z) : string :=
  match t with
  | None => "Invalid Date"
  | Some t =>
      let days := t / msPerDay in
      let '(y, m, d) := civilFromDays days in
      let r := t mod msPerDay in
      dayName ((days + 4) mod 7) ++ " " ++ monthName m ++ " " ++ padded 2 d ++ " "
      ++ (if y <? 0 then "-" ++ padded 6 (- y) else padded 4 y) ++ " "
      ++ padded 2 (r / 3600000) ++ ":" ++ padded 2 (r / 60000 mod 60) ++ ":"
      ++ padded 2 (r / 1000 mod 60) ++ " GMT+0000 (Coordinated Universal Time)"
  end.

(** The objects of the worked examples: [{}]; [{"toString": 1}], which
    the CSV parser makes of a cell that holds this JSON text and which no
    conversion can print; a function of [Object.prototype], by name; and
    [Object.prototype] itself, which [__proto__] reads. *)
Inductive plainObject : Type :=
| EmptyObject
| ToStringIsNumber
| BuiltIn (name : string)
| ObjectPrototype.

(** [toString()]: of a plain object, and of a native function. *)
Definition showObject (o : plainObject) : option string :=
  match o with
  | EmptyObject | ObjectPrototype => Some "[object Object]"
  | ToStringIsNumber => None
  | BuiltIn name => Some ("function " ++ name ++ "() { [native code] }")
  end.

(** None of these texts is a number or a date. *)
Definition numberOfObject (o : plainObject) : option (option Z) :=
  match showObject o with
  | Some _ => Some None
  | None => None
  end.

(** The properties of [Object.prototype]; [constructor] is the function
    [Object]. *)
Definition prototypeMethods : list string :=
  ["__defineGetter__"; "__defineSetter__"; "hasOwnProperty"; "__lookupGetter__";
   "__lookupSetter__"; "isPrototypeOf"; "propertyIsEnumerable"; "toString"; "valueOf";
   "toLocaleString"].

Definition prototypeProperty (k : string) : option plainObject :=
  if String.eqb k "constructor" then Some (BuiltIn "Object")
  else if String.eqb k "__proto__" then Some ObjectPrototype
  else if existsb (String.eqb k) prototypeMethods then Some (BuiltIn k)
  else None.

#[export] Instance runtime : JsRuntime := {|
  number := option Z;
  NaN := None;
  number_of_Z := Some;
  isNaN := fun n => match n with Some _ => false | None => true end;
  isNaN_NaN := eq_refl;
  isNaN_of_Z := fun _ => eq_refl;
  Number_of_string := readNumber;
  parseFloat := readFloat;
  String_of_number := showNumber;
  Boolean_of_number := truthyNumber;
  TimeClip := clipTime;
  Date_parse := readDate;
  String_of_Date := showDate;
  toISOString := isoString;
  object := plainObject;
  String_of_object := showObject;
  Number_of_object := numberOfObject;
  Date_of_object := numberOfObject;
  inherited := prototypeProperty
|}.

(** An upload whose file parses to one boolean column, with every
    collaborator answering; [destroys] is the blob store's answer to the
    removal of a previous blob. *)
Definition flagUpload {rt : JsRuntime} (destroys : bool) : UploadRequest :=
  mkUploadRequest (Some (mkFile "flags.csv" "text/csv" ("ok" ++ nl ++ "true")))
                  destroys
                  (Some ("data.csv", "https://res.cloudinary.com/demo/raw/upload/data.csv"))
                  [[("ok", JBoolean true)]]
                  (Some ("ok" ++ nl ++ "true"))
                  (Some "{}")
                  (fun _ => true).

(** An upload whose only column holds a boolean and then a number, as
    the CSV parser types the cells [true] and [5]: the column is inferred
    [NUMERIC], and PostgreSQL refuses the boolean literal of the first
    tuple.  The engine accepts the [CREATE TABLE] and rejects the
    [INSERT]. *)
Definition mixedUpload {rt : JsRuntime} : UploadRequest :=
  mkUploadRequest (Some (mkFile "mixed.csv" "text/csv" ("a" ++ nl ++ "true" ++ nl ++ "5")))
                  true
                  (Some ("data.csv", "https://res.cloudinary.com/demo/raw/upload/data.csv"))
                  [[("a", JBoolean true)]; [("a", JNumber (number_of_Z 5))]]
                  (Some ("a" ++ nl ++ "true" ++ nl ++ "5"))
                  (Some "{}")
                  (fun text => String.prefix "CREATE TABLE" text).

End Node.

(* ================================================================== *)
(** ** The routes that forward the stored file *)

Section Forwarding.
Context {rt : JsRuntime}.

(** What [GET /api/display-cards] sends: the fixed summary of an absent
    dataset, the answer of the analysis service, or an error message. *)
Inductive cards : Type :=
| EmptySummary
| Forwarded (data : string)
| CardsError (error : failure).

(** [app.get("/api/display-cards", ...)] of the raw-SQL server;
    [blobAnswer] and [analysisAnswer] are the answers of [axios.get] on
    the stored URL and of [axios.post] to the analysis service. *)
Definition api_display_cards (blobAnswer analysisAnswer : option string)
    : World -> (Z * cards) * World :=
  tryCatch
    (uploaded <~ selectUploadedFile ;;
     match uploaded with
     | [] => ret (200, EmptySummary)
     | _ :: _ =>
         csvDataBuffer <~ axios blobAnswer ;;
         response <~ axios analysisAnswer ;;
         ret (200, Forwarded response)
     end)
    (fun error => (500, CardsError error)).

(** [app.post("/api/smart-question-examples", ...)] and
    [app.post("/api/question-answer", ...)]: the same steps with no
    [try]; [secureUrl] is read from [uploadedFile[0]], which is
    [undefined] when the selection is empty.  A failure is a rejected
    promise: no response is sent. *)
Definition forwardStoredFile (blobAnswer analysisAnswer : option string) : M response :=
  uploaded <~ selectUploadedFile ;;
  match uploaded with
  | [] => fail (Thrown (TypeError "Cannot read properties of undefined (reading 'secureUrl')"))
  | _ :: _ =>
      csvDataBuffer <~ axios blobAnswer ;;
      response <~ axios analysisAnswer ;;
      ret (mkResponse 200 (Analysis response))
  end.

Definition api_smart_question_examples := forwardStoredFile.

(** [req.body.question] is forwarded with the file; the service's answer
    to it is [analysisAnswer]. *)
Definition api_question_answer (question : string) := forwardStoredFile.

End Forwarding.

(* ================================================================== *)
(** ** Vocabulary of the properties *)

(** Every single quote is followed by a second one: read as the body of
    an SQL string constant, the text has no quote that ends it. *)
Fixpoint quotesPaired (s : string) : bool :=
  match s with
  | EmptyString => true
  | String c s' =>
      if Ascii.eqb c apostrophe then
        match s' with
        | String c' s'' => Ascii.eqb c' apostrophe && quotesPaired s''
        | EmptyString => false
        end
      else quotesPaired s'
  end.

(** No character of the text satisfies [p]. *)
Fixpoint noneOf (p : ascii -> bool) (s : string) : bool :=
  match s with
  | EmptyString => true
  | String c s' => negb (p c) && noneOf p s'
  end.

Definition isNewline (c : ascii) : bool := Ascii.eqb c "010"%char.
Definition isDoubleQuote (c : ascii) : bool := Ascii.eqb c "034"%char.

(** Where a list of identifiers ends: at the end of the text, or at a
    character that is no quote, comma or space. *)
Definition endsList (rest : string) : bool :=
  match rest with
  | EmptyString => true
  | String c _ =>
      negb (Ascii.eqb c "034"%char || Ascii.eqb c ","%char || Ascii.eqb c " "%char)
  end.

(** A column definition as the engine can read it: a name without a
    double quote, and a type that does not start with a quote, a comma or a space; neither spans
    lines. *)
Definition readableColumn (column : string * string) : Prop :=
  noneOf isDoubleQuote (fst column) = true /\ noneOf isNewline (fst column) = true
  /\ noneOf isNewline (snd column) = true /\ endsList (snd column) = true
  /\ snd column <> "".

(** The token that the scanner holds back until the next character. *)
Definition pending (state : scanning) : list token :=
  match state with
  | Between | InString _ => []
  | InWord w => [Word w]
  | AfterQuote s => [Quoted s]
  end.

(** A delimiter: a character that ends a word and opens no string. *)
Definition isDelimiter (c : ascii) : bool := endsWord c && negb (Ascii.eqb c apostrophe).

(** The value of the two audit columns in every tuple. *)
Definition auditLiteral : literal := SqlWord "CURRENT_TIMESTAMP".

(** A bare word of SQL: not empty, and no character that ends a word. *)
Definition isWord (w : string) : bool :=
  negb (String.eqb w "") && noneOf endsWord w.

(** The integers that are doubles and whose neighbours are: the
    arithmetic of doubles is exact on them. *)
Definition safeInteger (z : Z) : Prop := Z.abs z < 2 ^ 53.

Section Vocabulary.
Context {rt : JsRuntime}.

(** The kinds of cell the scanning loop tells apart. *)
Definition isStringCell (v : jsval) : bool :=
  match v with JString s => negb (String.eqb s "") | _ => false end.
Definition isNumberCell (v : jsval) : bool :=
  match v with JNumber _ => true | _ => false end.
Definition isBooleanCell (v : jsval) : bool :=
  match v with JBoolean _ => true | _ => false end.
Definition isDateCell (v : jsval) : bool :=
  match v with JDate _ => true | _ => false end.

(** The flags as the specification sets them, cell by cell: a non-empty
    string sets [sawString] ([isStringCell]) and then the flag of the
    first test it passes (numeric parse, boolean literal, date parse); a
    typed number, boolean or date sets the flag of its type; an empty
    value and any other value set nothing. *)
Definition looksNumeric (s : string) : bool :=
  negb (isNaN (Number_of_string s)) && negb (isNaN (parseFloat s)).
Definition looksBoolean (s : string) : bool :=
  String.eqb (toLowerCase s) "true" || String.eqb (toLowerCase s) "false".
Definition looksDate (s : string) : bool :=
  match Date_parse s with Some _ => true | None => false end.

Definition setsNumber (value : jsval) : bool :=
  match value with
  | JNumber _ => true
  | JString s => negb (String.eqb s "") && looksNumeric s
  | _ => false
  end.
Definition setsBoolean (value : jsval) : bool :=
  match value with
  | JBoolean _ => true
  | JString s => negb (String.eqb s "") && negb (looksNumeric s) && looksBoolean s
  | _ => false
  end.
Definition setsDate (value : jsval) : bool :=
  match value with
  | JDate _ => true
  | JString s =>
      negb (String.eqb s "") && negb (looksNumeric s) && negb (looksBoolean s) && looksDate s
  | _ => false
  end.

(** A flag of a column: some row holds a cell that sets it. *)
Definition saw (sets : jsval -> bool) (columnName : string) (rows : list row) : bool :=
  existsb (fun r => sets (get r columnName)) rows.

(** The literal that the [INSERT] writes for a value. *)
Definition writtenFor (value : jsval) : literal :=
  match value with
  | JNull | JUndefined => SqlNull
  | JString s => if String.eqb s "" then SqlNull else SqlText s
  | JNumber n => wordLiteral (String_of_number n)
  | JBoolean b => SqlWord (if b then "true" else "false")
  | JDate (Some t) => SqlText (toISOString t)
  | JDate None => SqlNull
  | JObject o =>
      match String_of_object o with
      | Some text => SqlText text
      | None => SqlNull
      end
  end.

(** The values whose literal reads back as it was meant: the text of a
    number is a bare word, the ISO-8601 text of a Date has no quote (the
    generator does not escape it), and the value is not [unprintable]. *)
Definition readsBack (value : jsval) : bool :=
  match value with
  | JNumber n => isWord (String_of_number n)
  | JDate (Some t) => noneOf (Ascii.eqb apostrophe) (toISOString t)
  | _ => negb (unprintable value)
  end.

(** The token of the literal of a value. *)
Definition tokenFor (value : jsval) : token :=
  match writtenFor value with
  | SqlNull => Word "NULL"
  | SqlText text => Quoted text
  | SqlWord w => Word w
  end.

(** The tokens of a tuple of the [INSERT], and of its tuples. *)
Definition tupleTokens (values : list jsval) : list token :=
  Open :: List.app (flat_map (fun value => [tokenFor value; Comma]) values)
                   [Word "CURRENT_TIMESTAMP"; Comma; Word "CURRENT_TIMESTAMP"; Close].

Fixpoint tuplesTokens (tuples : list (list jsval)) : list token :=
  match tuples with
  | [] => [Semicolon]
  | [values] => List.app (tupleTokens values) [Semicolon]
  | values :: rest => List.app (tupleTokens values) (Comma :: tuplesTokens rest)
  end.

(** The cells that the [INSERT] writes for a row of an upload, and the
    record the engine holds for it. *)
Definition storedCells (columns : list string) (r : row) : record :=
  List.app (map (fun column => (sanitize column, Written (writtenFor (get r column)))) columns)
           [("createdAt", Written auditLiteral); ("updatedAt", Written auditLiteral)].

Definition storedRecord (columns : list string) (id : Z) (r : row) : record :=
  ("id", Generated id) :: storedCells columns r.

(** The column names of the table that the generated [CREATE TABLE]
    defines. *)
Definition tableColumnNames (userData : list row) : list string :=
  match userData with
  | [] => []
  | firstRow :: _ => "id" :: List.app (map sanitize (keys firstRow)) ["createdAt"; "updatedAt"]
  end.

(** The rows of a page response. *)
Definition dataOf (r : response) : list record :=
  match payload r with
  | Page data _ _ => data
  | _ => []
  end.

(** The rows of the metadata table that stand for the current dataset. *)
Definition datasetRows (w : World) : list UploadedFileRow :=
  filter isDataCsv (uploadedFile w).

(** What the requests keep true of the durable state: at most one
    metadata row for the dataset, and no ["data"] table without one. *)
Definition consistent (w : World) : Prop :=
  (List.length (datasetRows w) <= 1)%nat
  /\ (dataTable w <> None -> datasetRows w <> []).

(** Two worlds with the same durable state (the journals may differ). *)
Definition sameDurable (w w' : World) : Prop :=
  uploadedFile w' = uploadedFile w /\ dataTable w' = dataTable w /\ blobs w' = blobs w.

End Vocabulary.
(* ================================================================== *)
(** * Properties *)

(** ** Strings *)

Lemma eqb_empty_false (s : string) : s <> "" -> String.eqb s "" = false.
Proof. intro H. now apply String.eqb_neq. Qed.

Lemma sanitize_length (s : string) : String.length (sanitize s) = String.length s.
Proof. induction s as [|c s IH]; simpl; congruence. Qed.

Lemma isIdentChar_underscore : isIdentChar "_"%char = true.
Proof. reflexivity. Qed.

(** Every character of a sanitized name is a letter, a digit or [_]. *)
Lemma sanitize_identifier (s : string) :
  Forall (fun c => isIdentChar c = true) (list_ascii_of_string (sanitize s)).
Proof.
  induction s as [|c s IH]; simpl; constructor; auto.
  destruct (isIdentChar c) eqn:E; [exact E | reflexivity].
Qed.

(** A name made of letters, digits and [_] is left as it is. *)
Lemma sanitize_fixes_identifiers (s : string) :
  Forall (fun c => isIdentChar c = true) (list_ascii_of_string s) -> sanitize s = s.
Proof.
  induction s as [|c s IH]; simpl; intro H; [reflexivity|].
  inversion H as [|? ? Hc Hs]; subst. rewrite Hc, IH; auto.
Qed.

(** The class [[a-zA-Z0-9_]], character by character. *)
Lemma isIdentChar_spec (c : ascii) :
  isIdentChar c = true <->
  In c (list_ascii_of_string
          "abcdefghijklmnopqrstuvwxyzABCDEFGHIJKLMNOPQRSTUVWXYZ0123456789_").
Proof.
  destruct c as [[] [] [] [] [] [] [] []]; vm_compute; split; intro H;
    try reflexivity; try discriminate H;
    repeat (destruct H as [H|H]; [discriminate H|]); try contradiction; tauto.
Qed.

(** ** The type inferencer *)

Section InferenceFacts.
Context {rt : JsRuntime}.

Lemma scanValue_empty (f : flags) (v : jsval) :
  isEmptyValue v = true -> scanValue f v = f.
Proof. intro H. unfold scanValue. now rewrite H. Qed.

Lemma scanColumn_all_empty (columnName : string) (data : list row) :
  (forall r, In r data -> isEmptyValue (get r columnName) = true) ->
  scanColumn columnName data = noFlags.
Proof.
  unfold scanColumn. generalize noFlags as f.
  induction data as [|r data IH]; intros f H; simpl; [reflexivity|].
  rewrite scanValue_empty by (apply H; now left).
  apply IH. intros r' Hr'. apply H. now right.
Qed.

Lemma inferSqlType_table (columnName : string) (data : list row) :
  let f := scanColumn columnName data in
  inferSqlType columnName data =
  sqlTypeOf (specDecisionTable (hasString f) (hasNumber f) (hasBoolean f) (hasDate f)).
Proof.
  unfold inferSqlType. destruct (scanColumn columnName data) as [[] [] [] []]; reflexivity.
Qed.

Lemma inferSequelizeType_table (columnName : string) (data : list row) :
  let f := scanColumn columnName data in
  Sequelize.semTypeOf (Sequelize.inferSequelizeType columnName data) =
  specDecisionTable (hasString f) (hasNumber f) (hasBoolean f) (hasDate f).
Proof.
  unfold Sequelize.inferSequelizeType.
  destruct (scanColumn columnName data) as [[] [] [] []]; reflexivity.
Qed.

End InferenceFacts.

Lemma existsb_Permutation {A : Type} (p : A -> bool) (l l' : list A) :
  Permutation l l' -> existsb p l = existsb p l'.
Proof.
  induction 1 as [|x l l' _ IH|x y l|l l' l'' _ IH1 _ IH2]; simpl.
  - reflexivity.
  - now rewrite IH.
  - destruct (p x), (p y); reflexivity.
  - now rewrite IH1.
Qed.

Lemma existsb_filter_same {A : Type} (p q : A -> bool) (l : list A) :
  (forall x, p x = true -> q x = true) -> existsb p (filter q l) = existsb p l.
Proof.
  intro H. induction l as [|x l IH]; simpl; [reflexivity|].
  destruct (q x) eqn:Eq; simpl; rewrite IH; [reflexivity|].
  destruct (p x) eqn:Ep; [|reflexivity]. rewrite (H x Ep) in Eq. discriminate.
Qed.

Section FlagFacts.
Context {rt : JsRuntime}.

(** What one cell adds to the four flags. *)
Lemma scanValue_hasString (f : flags) (v : jsval) :
  hasString (scanValue f v) = hasString f || hasString (scanValue noFlags v).
Proof.
  unfold scanValue. destruct (isEmptyValue v); [now rewrite orb_false_r|].
  destruct v; simpl; try now rewrite orb_false_r.
  repeat match goal with |- context [if ?b then _ else _] => destruct b end;
    simpl; now rewrite ?orb_true_r, ?orb_false_r.
Qed.

Lemma scanValue_hasNumber (f : flags) (v : jsval) :
  hasNumber (scanValue f v) = hasNumber f || hasNumber (scanValue noFlags v).
Proof.
  unfold scanValue. destruct (isEmptyValue v); [now rewrite orb_false_r|].
  destruct v; simpl; try now rewrite ?orb_true_r, ?orb_false_r.
  repeat match goal with |- context [if ?b then _ else _] => destruct b end;
    simpl; now rewrite ?orb_true_r, ?orb_false_r.
Qed.

Lemma scanValue_hasBoolean (f : flags) (v : jsval) :
  hasBoolean (scanValue f v) = hasBoolean f || hasBoolean (scanValue noFlags v).
Proof.
  unfold scanValue. destruct (isEmptyValue v); [now rewrite orb_false_r|].
  destruct v; simpl; try now rewrite ?orb_true_r, ?orb_false_r.
  repeat match goal with |- context [if ?b then _ else _] => destruct b end;
    simpl; now rewrite ?orb_true_r, ?orb_false_r.
Qed.

Lemma scanValue_hasDate (f : flags) (v : jsval) :
  hasDate (scanValue f v) = hasDate f || hasDate (scanValue noFlags v).
Proof.
  unfold scanValue. destruct (isEmptyValue v); [now rewrite orb_false_r|].
  destruct v; simpl; try now rewrite ?orb_true_r, ?orb_false_r.
  repeat match goal with |- context [if ?b then _ else _] => destruct b end;
    simpl; now rewrite ?orb_true_r, ?orb_false_r.
Qed.

(** A flag of the whole scan is the disjunction of what the cells add. *)
Lemma scan_flag (flag : flags -> bool) (columnName : string) (data : list row) :
  (forall f v, flag (scanValue f v) = flag f || flag (scanValue noFlags v)) ->
  flag noFlags = false ->
  flag (scanColumn columnName data) =
  existsb (fun r => flag (scanValue noFlags (get r columnName))) data.
Proof.
  intros Hstep Hzero. unfold scanColumn.
  assert (G : forall f,
    flag (fold_left (fun f r => scanValue f (get r columnName)) data f) =
    flag f || existsb (fun r => flag (scanValue noFlags (get r columnName))) data).
  { induction data as [|r data IH]; intro f; simpl; [now rewrite orb_false_r|].
    now rewrite IH, Hstep, orb_assoc. }
  now rewrite G, Hzero.
Qed.

Lemma flags_eq (f g : flags) :
  hasString f = hasString g -> hasNumber f = hasNumber g ->
  hasBoolean f = hasBoolean g -> hasDate f = hasDate g -> f = g.
Proof. destruct f, g; simpl; congruence. Qed.

(** The scan depends on the cells through four disjunctions only. *)
Lemma scanColumn_ext (columnName : string) (data data' : list row) :
  (forall flag : flags -> bool,
      In flag [hasString; hasNumber; hasBoolean; hasDate] ->
      existsb (fun r => flag (scanValue noFlags (get r columnName))) data =
      existsb (fun r => flag (scanValue noFlags (get r columnName))) data') ->
  scanColumn columnName data = scanColumn columnName data'.
Proof.
  intro H. apply flags_eq.
  - rewrite !(scan_flag hasString) by (auto using scanValue_hasString).
    apply H. simpl. auto.
  - rewrite !(scan_flag hasNumber) by (auto using scanValue_hasNumber).
    apply H. simpl. auto.
  - rewrite !(scan_flag hasBoolean) by (auto using scanValue_hasBoolean).
    apply H. simpl. auto.
  - rewrite !(scan_flag hasDate) by (auto using scanValue_hasDate).
    apply H. simpl. auto.
Qed.

Lemma cell_hasString (v : jsval) : hasString (scanValue noFlags v) = isStringCell v.
Proof.
  unfold scanValue, isStringCell. destruct v; simpl; try reflexivity.
  destruct (String.eqb s ""); simpl; [reflexivity|].
  repeat match goal with |- context [if ?b then _ else _] => destruct b end; reflexivity.
Qed.

(** Without a string, a flag is set by a typed cell of its kind only. *)
Lemma cell_hasNumber (v : jsval) :
  isStringCell v = false -> hasNumber (scanValue noFlags v) = isNumberCell v.
Proof.
  unfold scanValue, isStringCell, isNumberCell. destruct v; simpl; try reflexivity.
  destruct (String.eqb s ""); simpl; [reflexivity|discriminate].
Qed.

Lemma cell_hasBoolean (v : jsval) :
  isStringCell v = false -> hasBoolean (scanValue noFlags v) = isBooleanCell v.
Proof.
  unfold scanValue, isStringCell, isBooleanCell. destruct v; simpl; try reflexivity.
  destruct (String.eqb s ""); simpl; [reflexivity|discriminate].
Qed.

Lemma cell_hasDate (v : jsval) :
  isStringCell v = false -> hasDate (scanValue noFlags v) = isDateCell v.
Proof.
  unfold scanValue, isStringCell, isDateCell. destruct v; simpl; try reflexivity.
  destruct (String.eqb s ""); simpl; [reflexivity|discriminate].
Qed.

Lemma existsb_false_ext {A : Type} (p q r : A -> bool) (l : list A) :
  existsb r l = false ->
  (forall x, r x = false -> p x = q x) -> existsb p l = existsb q l.
Proof.
  intros Hr H. induction l as [|x l IH]; simpl in *; [reflexivity|].
  apply orb_false_iff in Hr. destruct Hr as [Hx Hl]. now rewrite (H x Hx), IH.
Qed.

Lemma scan_hasString (columnName : string) (data : list row) :
  hasString (scanColumn columnName data) =
  existsb (fun r => isStringCell (get r columnName)) data.
Proof.
  rewrite (scan_flag hasString) by (auto using scanValue_hasString).
  induction data as [|r data IH]; simpl; [reflexivity|]. now rewrite cell_hasString, IH.
Qed.

Lemma scan_typed (columnName : string) (data : list row) :
  existsb (fun r => isStringCell (get r columnName)) data = false ->
  hasNumber (scanColumn columnName data) =
    existsb (fun r => isNumberCell (get r columnName)) data
  /\ hasBoolean (scanColumn columnName data) =
    existsb (fun r => isBooleanCell (get r columnName)) data
  /\ hasDate (scanColumn columnName data) =
    existsb (fun r => isDateCell (get r columnName)) data.
Proof.
  intro H. repeat split.
  - rewrite (scan_flag hasNumber) by (auto using scanValue_hasNumber).
    apply (existsb_false_ext _ _ _ _ H). intros r Hr. now apply cell_hasNumber.
  - rewrite (scan_flag hasBoolean) by (auto using scanValue_hasBoolean).
    apply (existsb_false_ext _ _ _ _ H). intros r Hr. now apply cell_hasBoolean.
  - rewrite (scan_flag hasDate) by (auto using scanValue_hasDate).
    apply (existsb_false_ext _ _ _ _ H). intros r Hr. now apply cell_hasDate.
Qed.

End FlagFacts.

Lemma existsb_pointwise {A : Type} (p q : A -> bool) (l : list A) :
  (forall x, p x = q x) -> existsb p l = existsb q l.
Proof. intro H. induction l as [|x l IH]; simpl; [reflexivity|]. now rewrite H, IH. Qed.

(** What every cell adds to a flag, as the specification words it. *)
Section FlagsOfCells.
Context {rt : JsRuntime}.

Lemma cell_setsNumber (v : jsval) : hasNumber (scanValue noFlags v) = setsNumber v.
Proof.
  unfold scanValue, setsNumber, looksNumeric. destruct v; simpl; try reflexivity.
  destruct (String.eqb s ""); simpl; [reflexivity|].
  repeat match goal with |- context [if ?b then _ else _] => destruct b end; reflexivity.
Qed.

Lemma cell_setsBoolean (v : jsval) : hasBoolean (scanValue noFlags v) = setsBoolean v.
Proof.
  unfold scanValue, setsBoolean, looksNumeric, looksBoolean. destruct v; simpl; try reflexivity.
  destruct (String.eqb s ""); simpl; [reflexivity|].
  destruct (negb (isNaN (Number_of_string s)) && negb (isNaN (parseFloat s))); simpl;
    [reflexivity|].
  destruct (String.eqb (toLowerCase s) "true" || String.eqb (toLowerCase s) "false"); simpl;
    [reflexivity|].
  now destruct (Date_parse s).
Qed.

Lemma cell_setsDate (v : jsval) : hasDate (scanValue noFlags v) = setsDate v.
Proof.
  unfold scanValue, setsDate, looksNumeric, looksBoolean, looksDate.
  destruct v; simpl; try reflexivity.
  destruct (String.eqb s ""); simpl; [reflexivity|].
  destruct (negb (isNaN (Number_of_string s)) && negb (isNaN (parseFloat s))); simpl;
    [reflexivity|].
  destruct (String.eqb (toLowerCase s) "true" || String.eqb (toLowerCase s) "false"); simpl;
    [reflexivity|].
  now destruct (Date_parse s).
Qed.

(** The four locals at the end of the loop are the four flags of the
    specification on the rows. *)
Lemma scanColumn_saw (columnName : string) (data : list row) :
  scanColumn columnName data =
  mkFlags (saw isStringCell columnName data) (saw setsNumber columnName data)
          (saw setsBoolean columnName data) (saw setsDate columnName data).
Proof.
  unfold saw. apply flags_eq; cbn [hasString hasNumber hasBoolean hasDate].
  - apply scan_hasString.
  - rewrite (scan_flag hasNumber) by (auto using scanValue_hasNumber).
    apply existsb_pointwise. intro r. apply cell_setsNumber.
  - rewrite (scan_flag hasBoolean) by (auto using scanValue_hasBoolean).
    apply existsb_pointwise. intro r. apply cell_setsBoolean.
  - rewrite (scan_flag hasDate) by (auto using scanValue_hasDate).
    apply existsb_pointwise. intro r. apply cell_setsDate.
Qed.

Lemma saw_all_empty (sets : jsval -> bool) (columnName : string) (data : list row) :
  (forall v, isEmptyValue v = true -> sets v = false) ->
  (forall r, In r data -> isEmptyValue (get r columnName) = true) ->
  saw sets columnName data = false.
Proof.
  intros Hsets H. unfold saw. induction data as [|r data IH]; simpl; [reflexivity|].
  rewrite (Hsets _ (H r (or_introl eq_refl))). simpl.
  apply IH. intros r' Hr'. apply H. now right.
Qed.

End FlagsOfCells.

(** C2.  For every column name and every row set, both inference
    functions ([inferSqlType] of the raw-SQL server, [inferSequelizeType]
    of the Sequelize server) scan every row: the four locals they
    accumulate are the four flags of the specification, each set exactly
    when some row holds a cell that sets it.  The type they return is the
    one that the nine-rule decision table gives for these flags.  In
    particular: a number seen and no string seen gives Numeric whatever
    the boolean and date flags are; a string and a number both seen give
    Text; no flag at all, as for a column whose cells are all empty,
    gives Text. *)
Theorem inference_follows_decision_table :
  forall (rt : JsRuntime) (columnName : string) (data : list row),
    let sawString := saw isStringCell columnName data in
    let sawNumber := saw setsNumber columnName data in
    let sawBoolean := saw setsBoolean columnName data in
    let sawDate := saw setsDate columnName data in
    let t := specDecisionTable sawString sawNumber sawBoolean sawDate in
    scanColumn columnName data = mkFlags sawString sawNumber sawBoolean sawDate
    /\ inferSqlType columnName data = sqlTypeOf t
    /\ Sequelize.semTypeOf (Sequelize.inferSequelizeType columnName data) = t
    /\ (sawNumber = true -> sawString = false ->
        t = Numeric
        /\ inferSqlType columnName data = "NUMERIC"
        /\ Sequelize.inferSequelizeType columnName data = Sequelize.DECIMAL)
    /\ (sawString = true -> sawNumber = true ->
        t = Text
        /\ inferSqlType columnName data = "VARCHAR(255)"
        /\ Sequelize.inferSequelizeType columnName data = Sequelize.TEXT)
    /\ (sawString = false -> sawNumber = false -> sawBoolean = false -> sawDate = false ->
        t = Text
        /\ inferSqlType columnName data = "VARCHAR(255)"
        /\ Sequelize.inferSequelizeType columnName data = Sequelize.STRING)
    /\ ((forall r, In r data -> isEmptyValue (get r columnName) = true) ->
        sawString = false /\ sawNumber = false /\ sawBoolean = false /\ sawDate = false).
Proof.
  intros rt columnName data sawString sawNumber sawBoolean sawDate t.
  pose proof (scanColumn_saw columnName data) as E.
  fold sawString sawNumber sawBoolean sawDate in E.
  split; [exact E|].
  unfold t, inferSqlType, Sequelize.inferSequelizeType. rewrite E.
  cbn [hasString hasNumber hasBoolean hasDate].
  split; [|split; [|split; [|split; [|split]]]].
  - destruct sawString, sawNumber, sawBoolean, sawDate; reflexivity.
  - destruct sawString, sawNumber, sawBoolean, sawDate; reflexivity.
  - intros -> ->. destruct sawBoolean, sawDate; repeat split.
  - intros -> ->. destruct sawBoolean, sawDate; repeat split.
  - intros -> -> -> ->. repeat split.
  - intro H. unfold sawString, sawNumber, sawBoolean, sawDate.
    repeat split; apply saw_all_empty; try exact H;
      intros [| |s|n|b|d|o] Hv; simpl in *; try discriminate; try reflexivity;
      now rewrite Hv.
Qed.

(** ** Exceptions through [map] *)

Lemma mapM_ext_in {A B : Type} (f g : A -> result B) (xs : list A) :
  (forall x, In x xs -> f x = g x) -> mapM f xs = mapM g xs.
Proof.
  induction xs as [|x xs IH]; intro H; simpl; [reflexivity|].
  rewrite (H x) by now left. rewrite IH; [reflexivity|].
  intros y Hy. apply H. now right.
Qed.

Lemma mapM_pure {A B : Type} (f : A -> result B) (g : A -> B) (xs : list A) :
  (forall x, In x xs -> f x = Ok (g x)) -> mapM f xs = Ok (map g xs).
Proof.
  induction xs as [|x xs IH]; intro H; simpl; [reflexivity|].
  rewrite (H x) by now left. simpl. rewrite IH; [reflexivity|].
  intros y Hy. apply H. now right.
Qed.

Lemma mapM_length {A B : Type} (f : A -> result B) (xs : list A) (ys : list B) :
  mapM f xs = Ok ys -> List.length ys = List.length xs.
Proof.
  revert ys. induction xs as [|x xs IH]; simpl; intros ys H.
  - now inversion H.
  - destruct (f x); [|discriminate]. simpl in H.
    destruct (mapM f xs) as [zs|]; [|discriminate]. simpl in H.
    inversion H; subst. simpl. now rewrite (IH zs).
Qed.

Lemma mapM_Forall2 {A B : Type} (f g : A -> result B) (xs ys : list A) :
  Forall2 (fun x y => f x = g y) xs ys -> mapM f xs = mapM g ys.
Proof.
  induction 1 as [|x y xs ys Hxy _ IH]; simpl; [reflexivity|]. now rewrite Hxy, IH.
Qed.

Lemma mapM_throw {A B : Type} (f : A -> result B) (xs : list A) (e : exn) :
  mapM f xs = Throw e -> exists x, In x xs /\ f x = Throw e.
Proof.
  induction xs as [|x xs IH]; simpl; [discriminate|].
  destruct (f x) as [y|e'] eqn:E; simpl.
  - destruct (mapM f xs) as [ys|e'']; simpl; [discriminate|].
    intro H. destruct IH as (x' & Hx' & Hf); [congruence|]. exists x'. split; [now right|].
    congruence.
  - intro H. exists x. split; [now left|]. congruence.
Qed.

Lemma mapM_ok {A B : Type} (f : A -> result B) (xs : list A) :
  (forall x, In x xs -> exists y, f x = Ok y) -> exists ys, mapM f xs = Ok ys.
Proof.
  induction xs as [|x xs IH]; intro H; simpl; [now eexists|].
  destruct (H x) as [y Hy]; [now left|]. rewrite Hy. simpl.
  destruct IH as [ys Hys]; [intros x' Hx'; apply H; now right|].
  rewrite Hys. simpl. now eexists.
Qed.

Lemma mapM_ok_inv {A B : Type} (f : A -> result B) (xs : list A) (ys : list B) :
  mapM f xs = Ok ys -> forall x, In x xs -> exists y, f x = Ok y.
Proof.
  revert ys. induction xs as [|x xs IH]; simpl; intros ys H x' Hx'; [contradiction|].
  destruct (f x) as [y|] eqn:E; [|discriminate]. simpl in H.
  destruct (mapM f xs) as [zs|] eqn:Ez; [|discriminate].
  destruct Hx' as [<-|Hx']; [now exists y|]. now apply (IH zs).
Qed.

Lemma mapM_ok_Forall2 {A B : Type} (f : A -> result B) (xs : list A) (ys : list B) :
  mapM f xs = Ok ys -> Forall2 (fun x y => f x = Ok y) xs ys.
Proof.
  revert ys. induction xs as [|x xs IH]; simpl; intros ys H.
  - inversion H. constructor.
  - destruct (f x) as [y|] eqn:E; [|discriminate]. simpl in H.
    destruct (mapM f xs) as [zs|] eqn:Ez; [|discriminate]. simpl in H.
    inversion H; subst. constructor; [exact E|]. now apply IH.
Qed.

Lemma primitive_throws {A : Type} (converted : option A) (e : exn) :
  primitive converted = Throw e <-> converted = None /\ e = cannotConvert.
Proof.
  destruct converted; simpl; split.
  - discriminate.
  - intros [H _]. discriminate.
  - intro H. inversion H. now split.
  - intros [_ ->]. reflexivity.
Qed.

(** ** The value coercer *)

Section CoercionFacts.
Context {rt : JsRuntime}.

Lemma coerce_empty (t : Sequelize.DataType) (v : jsval) :
  isEmptyValue v = true -> Sequelize.coerce t v = Ok JNull.
Proof. intro H. unfold Sequelize.coerce. now rewrite H. Qed.

(** The coercion throws exactly on an object whose conversion, the one
    that the type asks for, finds no method. *)
Lemma coerce_throws (t : Sequelize.DataType) (v : jsval) (e : exn) :
  Sequelize.coerce t v = Throw e <->
  Sequelize.conversionThrows t v = true /\ e = cannotConvert.
Proof.
  unfold Sequelize.coerce, Sequelize.conversionThrows.
  destruct v as [| |s|n|b|d|o]; simpl.
  1-2: split; [discriminate|intros [H _]; discriminate].
  - destruct (String.eqb s ""); [split; [discriminate|intros [H _]; discriminate]|].
    destruct t; simpl; split; try discriminate; intros [H _]; discriminate.
  - destruct t; simpl; split; try discriminate; intros [H _]; discriminate.
  - destruct t; simpl; split; try discriminate; intros [H _]; discriminate.
  - destruct t, d; simpl; split; try discriminate; intros [H _]; discriminate.
  - destruct t; simpl.
    + destruct (String_of_object o); simpl; split;
        [discriminate|intros [H _]; discriminate|intro H; inversion H; now split
        |intros [_ ->]; reflexivity].
    + destruct (String_of_object o); simpl; split;
        [discriminate|intros [H _]; discriminate|intro H; inversion H; now split
        |intros [_ ->]; reflexivity].
    + destruct (Number_of_object o); simpl; split;
        [discriminate|intros [H _]; discriminate|intro H; inversion H; now split
        |intros [_ ->]; reflexivity].
    + split; [discriminate|intros [H _]; discriminate].
    + destruct (String_of_object o); simpl; split;
        [discriminate|intros [H _]; discriminate|intro H; inversion H; now split
        |intros [_ ->]; reflexivity].
    + destruct (Date_of_object o); simpl; split;
        [discriminate|intros [H _]; discriminate|intro H; inversion H; now split
        |intros [_ ->]; reflexivity].
Qed.

Lemma coerce_returns (t : Sequelize.DataType) (v : jsval) :
  Sequelize.conversionThrows t v = false -> exists coerced, Sequelize.coerce t v = Ok coerced.
Proof.
  intro H. destruct (Sequelize.coerce t v) as [c|e] eqn:E; [now exists c|].
  apply coerce_throws in E. destruct E as [E _]. congruence.
Qed.

Lemma coerce_null_or_canonical (t : Sequelize.DataType) (v coerced : jsval) :
  Sequelize.coerce t v = Ok coerced ->
  coerced = JNull \/ Sequelize.canonical t coerced = true.
Proof.
  unfold Sequelize.coerce.
  destruct (isEmptyValue v); [intro H; inversion H; now left|].
  destruct t; simpl.
  - destruct (String_ v); simpl; intro H; inversion H. now right.
  - destruct (String_ v); simpl; intro H; inversion H. now right.
  - destruct (Number v) as [n|]; simpl; [|discriminate].
    destruct (isNaN n) eqn:E; intro H; inversion H; [now left|right]. simpl. now rewrite E.
  - destruct v; intro H; inversion H; now right.
  - destruct (String_ v); simpl; intro H; inversion H. now right.
  - destruct (newDate v) as [[d|]|]; simpl; intro H; inversion H; [now right|now left].
Qed.

Lemma Forall2_rows_keys (R : string * jsval -> string * jsval -> Prop) (rows rows' : list row) :
  Forall2 (Forall2 R) rows rows' ->
  (forall c c', R c c' -> fst c' = fst c) ->
  map keys rows' = map keys rows.
Proof.
  intros H HR. induction H as [|r r' rs rs' Hr _ IH]; simpl; [reflexivity|].
  f_equal; [|exact IH]. clear IH.
  induction Hr as [|c c' cs cs' Hc _ IH]; simpl; [reflexivity|]. now rewrite (HR _ _ Hc), IH.
Qed.

Lemma Forall2_rows_right (R : string * jsval -> string * jsval -> Prop)
    (Q : string * jsval -> Prop) (rows rows' : list row) :
  Forall2 (Forall2 R) rows rows' ->
  (forall c c', R c c' -> Q c') ->
  Forall (Forall Q) rows'.
Proof.
  intros H HR. induction H as [|r r' rs rs' Hr _ IH]; constructor; [|exact IH]. clear IH.
  induction Hr as [|c c' cs cs' Hc _ IH]; constructor; [now apply (HR c)|exact IH].
Qed.

(** What the pre-processing returns, row by row and cell by cell. *)
Lemma processedUserData_cells (userData processed : list row) :
  Sequelize.processedUserData userData = Ok processed ->
  Forall2
    (Forall2 (fun cell coerced : string * jsval =>
                fst coerced = fst cell
                /\ Sequelize.coerce (Sequelize.inferSequelizeType (fst cell) userData)
                                    (snd cell) = Ok (snd coerced)))
    userData processed.
Proof.
  unfold Sequelize.processedUserData. intro H. apply mapM_ok_Forall2 in H.
  eapply Forall2_impl; [|exact H]. intros r r' Hr. apply mapM_ok_Forall2 in Hr.
  eapply Forall2_impl; [|exact Hr]. intros [k v] [k' v'] Hc. simpl in *.
  destruct (Sequelize.coerce _ v); simpl in Hc; inversion Hc. now split.
Qed.

Lemma processedUserData_keys (userData processed : list row) :
  Sequelize.processedUserData userData = Ok processed ->
  map keys processed = map keys userData.
Proof.
  intro H. apply processedUserData_cells in H.
  apply (Forall2_rows_keys _ _ _ H). now intros c c' [Hc _].
Qed.

Lemma processedUserData_canonical (userData processed : list row) :
  Sequelize.processedUserData userData = Ok processed ->
  Forall (Forall (fun cell : string * jsval =>
                    snd cell = JNull
                    \/ Sequelize.canonical
                         (Sequelize.inferSequelizeType (fst cell) userData) (snd cell) = true))
         processed.
Proof.
  intro H. apply processedUserData_cells in H.
  apply (Forall2_rows_right _ _ _ _ H). intros c c' [Hk Hc].
  rewrite Hk. now apply coerce_null_or_canonical in Hc.
Qed.

Lemma processedUserData_throws (userData : list row) :
  (exists e, Sequelize.processedUserData userData = Throw e) <->
  (exists r cell,
      In r userData /\ In cell r
      /\ Sequelize.conversionThrows (Sequelize.inferSequelizeType (fst cell) userData)
                                    (snd cell) = true).
Proof.
  unfold Sequelize.processedUserData. split.
  - intros [e H]. apply mapM_throw in H. destruct H as (r & Hr & H).
    apply mapM_throw in H. destruct H as ([k v] & Hc & H).
    exists r, (k, v). split; [exact Hr|]. split; [exact Hc|]. simpl.
    destruct (Sequelize.coerce _ v) eqn:E; simpl in H; [discriminate|].
    now apply coerce_throws in E.
  - intros (r & [k v] & Hr & Hc & Ht). simpl in Ht.
    match goal with |- exists e, ?m = _ => destruct m as [processed|e] eqn:E end;
      [|now exists e].
    exfalso. destruct (mapM_ok_inv _ _ _ E r Hr) as [r' Hr'].
    destruct (mapM_ok_inv _ _ _ Hr' (k, v) Hc) as [c' Hc']. simpl in Hc'.
    destruct (Sequelize.coerce _ v) eqn:Ec; simpl in Hc'; [|discriminate].
    assert (T : Sequelize.coerce (Sequelize.inferSequelizeType k userData) v
                = Throw cannotConvert) by (apply coerce_throws; now split).
    congruence.
Qed.

End CoercionFacts.

(** C4, as the specification words it, fails on one kind of cell: an
    object that has no conversion to a primitive.  The CSV parser makes
    such an object of a cell that holds the JSON text [{"toString": 1}];
    [String(value)] raises a [TypeError] on it, and so does the
    pre-processing of the upload. *)
Lemma coercion_raises_on_unconvertible_object :
  Sequelize.coerce (rt := Node.runtime) Sequelize.STRING
    (JObject (rt := Node.runtime) Node.ToStringIsNumber) = Throw cannotConvert
  /\ Sequelize.processedUserData (rt := Node.runtime)
       [[("a", JObject (rt := Node.runtime) Node.ToStringIsNumber)]] = Throw cannotConvert.
Proof. split; reflexivity. Qed.

(** C4, amended.  Value coercion raises on an object that the conversion
    of its column type cannot turn into a primitive, and on nothing else:
    every other value, under every type, coerces to a value.  [null],
    [undefined] and the empty string coerce to [null] for every type;
    under Numeric ([DECIMAL]) a value whose numeric parse is [NaN] coerces
    to [null]; under Timestamp ([DATE]) a value whose date parse is
    invalid coerces to [null]; and a coerced cell is [null] or a value in
    the canonical form of its type, so when the coercion returns, the
    worst case is a [null] cell.  The pre-processing of a whole upload
    raises exactly when it meets such an object, and otherwise keeps
    every row and every key. *)
Theorem coercion_raises_only_on_unconvertible_objects :
  forall (rt : JsRuntime) (inferredType : Sequelize.DataType) (value : jsval)
         (userData : list row),
    Sequelize.coerce inferredType JNull = Ok JNull
    /\ Sequelize.coerce inferredType JUndefined = Ok JNull
    /\ Sequelize.coerce inferredType (JString "") = Ok JNull
    /\ (forall e, Sequelize.coerce inferredType value = Throw e <->
                  Sequelize.conversionThrows inferredType value = true /\ e = cannotConvert)
    /\ ((forall o, value <> JObject o) ->
        exists coerced, Sequelize.coerce inferredType value = Ok coerced)
    /\ (forall coerced, Sequelize.coerce inferredType value = Ok coerced ->
          coerced = JNull \/ Sequelize.canonical inferredType coerced = true)
    /\ (forall n, Number value = Ok n -> isNaN n = true ->
          Sequelize.coerce Sequelize.DECIMAL value = Ok JNull)
    /\ (newDate value = Ok None -> Sequelize.coerce Sequelize.DATE value = Ok JNull)
    /\ (forall processed, Sequelize.processedUserData userData = Ok processed ->
          map keys processed = map keys userData
          /\ Forall (Forall (fun cell : string * jsval =>
                               snd cell = JNull
                               \/ Sequelize.canonical
                                    (Sequelize.inferSequelizeType (fst cell) userData)
                                    (snd cell) = true))
                    processed)
    /\ ((exists e, Sequelize.processedUserData userData = Throw e) <->
        (exists r cell,
            In r userData /\ In cell r
            /\ Sequelize.conversionThrows
                 (Sequelize.inferSequelizeType (fst cell) userData) (snd cell) = true)).
Proof.
  intros rt t v userData.
  repeat match goal with |- _ /\ _ => split end.
  - reflexivity.
  - reflexivity.
  - reflexivity.
  - intro e. apply coerce_throws.
  - intro H. apply coerce_returns. destruct v; try reflexivity. now elim (H o).
  - apply coerce_null_or_canonical.
  - intros n Hn Hnan. unfold Sequelize.coerce. rewrite Hn. simpl. rewrite Hnan.
    now destruct (isEmptyValue v).
  - intro H. unfold Sequelize.coerce. rewrite H. simpl. now destruct (isEmptyValue v).
  - intros processed H.
    split; [now apply processedUserData_keys|now apply processedUserData_canonical].
  - apply processedUserData_throws.
Qed.

(** ** The DDL generator *)

Section DdlFacts.
Context {rt : JsRuntime}.

Lemma ddlColumns_length (firstRow : row) (userData : list row)
    (infer : string -> list row -> string) :
  List.length (ddlColumns firstRow userData infer) = (List.length (keys firstRow) + 3)%nat.
Proof.
  unfold ddlColumns. simpl. rewrite length_app, length_map. simpl. lia.
Qed.

Lemma create_table_nonempty (tableName : string) (firstRow : row) (rest : list row)
    (infer : string -> list row -> string) :
  tableName <> "" ->
  generateDynamicCreateTableSql tableName (firstRow :: rest) infer =
  Ok ("CREATE TABLE IF NOT EXISTS " ++ quoted tableName ++ " (" ++ nl ++ "    "
      ++ join ("," ++ nl ++ "    ") (ddlColumns firstRow (firstRow :: rest) infer)
      ++ nl ++ ");").
Proof.
  intro H. unfold generateDynamicCreateTableSql. now rewrite (eqb_empty_false _ H).
Qed.

End DdlFacts.

(** C6.  For every non-empty row list (and a table name), the DDL
    generator returns a [CREATE TABLE IF NOT EXISTS] statement whose
    column definitions are, in this order: the generated key
    ["id" SERIAL PRIMARY KEY]; one definition per key of the first row,
    in the order of the keys, named by the key with every character
    outside [[A-Za-z0-9_]] replaced by [_] and typed by the inference
    function on the original key; the two audit columns with
    [DEFAULT CURRENT_TIMESTAMP].  Names that collide after sanitization
    are both emitted: there is one definition per key. *)
Theorem create_table_statement_shape :
  forall (rt : JsRuntime) (tableName : string) (firstRow : row) (rest : list row)
         (inferSqlTypeFunction : string -> list row -> string),
    tableName <> "" ->
    let userData := firstRow :: rest in
    let columns :=
      (quoted "id" ++ " SERIAL PRIMARY KEY")
      :: List.app
           (map (fun feature => quoted (sanitize feature) ++ " "
                                ++ inferSqlTypeFunction feature userData ++ " ")
                (keys firstRow))
           [quoted "createdAt" ++ " TIMESTAMP WITH TIME ZONE DEFAULT CURRENT_TIMESTAMP";
            quoted "updatedAt" ++ " TIMESTAMP WITH TIME ZONE DEFAULT CURRENT_TIMESTAMP"] in
    generateDynamicCreateTableSql tableName userData inferSqlTypeFunction =
      Ok ("CREATE TABLE IF NOT EXISTS " ++ quoted tableName ++ " (" ++ nl ++ "    "
          ++ join ("," ++ nl ++ "    ") columns ++ nl ++ ");")
    /\ List.length columns = (List.length (keys firstRow) + 3)%nat
    /\ (forall feature,
          String.length (sanitize feature) = String.length feature
          /\ Forall (fun c => isIdentChar c = true) (list_ascii_of_string (sanitize feature))
          /\ (Forall (fun c => isIdentChar c = true) (list_ascii_of_string feature) ->
              sanitize feature = feature))
    /\ sanitize "a.b" = "a_b" /\ sanitize "a-b" = "a_b".
Proof.
  intros rt tableName firstRow rest infer H userData columns.
  split; [apply (create_table_nonempty tableName firstRow rest infer H)|].
  split; [apply (ddlColumns_length firstRow userData infer)|].
  split; [|split; reflexivity].
  intro feature. split; [apply sanitize_length|].
  split; [apply sanitize_identifier|apply sanitize_fixes_identifiers].
Qed.

(** A worked instance of C6: a header with a dot and a header with a
    dash, which sanitize to the same name. *)
Lemma create_table_statement_shape_witness :
  generateDynamicCreateTableSql (rt := Node.runtime) "data"
    [[("a.b", JBoolean true); ("a-b", JString "x")]] inferSqlType =
  Ok ("CREATE TABLE IF NOT EXISTS " ++ quoted "data" ++ " (" ++ nl
      ++ "    " ++ quoted "id" ++ " SERIAL PRIMARY KEY," ++ nl
      ++ "    " ++ quoted "a_b" ++ " BOOLEAN ," ++ nl
      ++ "    " ++ quoted "a_b" ++ " VARCHAR(255) ," ++ nl
      ++ "    " ++ createdAtColumn ++ "," ++ nl
      ++ "    " ++ updatedAtColumn ++ nl
      ++ ");").
Proof.
  refine (proj1 (create_table_statement_shape Node.runtime "data"
            [("a.b", JBoolean true); ("a-b", JString "x")] [] inferSqlType _)).
  discriminate.
Defined.

(** C8, as the specification words it, fails: a row list whose first row
    has no key has an empty column list, and the generator still emits a
    statement, for a table of the generated key and the audit columns. *)
Lemma create_table_accepts_keyless_row :
  keys (rt := Node.runtime) (hd [] [[]]) = []
  /\ generateDynamicCreateTableSql (rt := Node.runtime) "data" [[]] inferSqlType =
     Ok ("CREATE TABLE IF NOT EXISTS " ++ quoted "data" ++ " (" ++ nl
         ++ "    " ++ quoted "id" ++ " SERIAL PRIMARY KEY," ++ nl
         ++ "    " ++ quoted "createdAt" ++ " TIMESTAMP WITH TIME ZONE DEFAULT CURRENT_TIMESTAMP," ++ nl
         ++ "    " ++ quoted "updatedAt" ++ " TIMESTAMP WITH TIME ZONE DEFAULT CURRENT_TIMESTAMP" ++ nl
         ++ ");").
Proof. split; reflexivity. Qed.

(** C8, amended.  The DDL generator raises exactly when it is given no
    table name or no row: for every dataset with zero rows it raises
    rather than emitting a table-creation statement, and the error of an
    empty row list says so. *)
Theorem create_table_raises_iff_no_input :
  forall (rt : JsRuntime) (tableName : string) (userData : list row)
         (inferSqlTypeFunction : string -> list row -> string),
    ((exists e, generateDynamicCreateTableSql tableName userData inferSqlTypeFunction = Throw e)
     <-> (tableName = "" \/ userData = []))
    /\ (tableName <> "" ->
        generateDynamicCreateTableSql tableName [] inferSqlTypeFunction =
        Throw (Error "User data is empty, cannot infer schema for dynamic table creation.")).
Proof.
  intros rt tableName userData infer. unfold generateDynamicCreateTableSql. split.
  - destruct (String.eqb_spec tableName "") as [E|E].
    + split; [now left|]. intros _. now eexists.
    + destruct userData as [|firstRow rest].
      * split; [now right|]. intros _. now eexists.
      * split; [intros [e He]; discriminate He|]. intros [H|H]; [contradiction|discriminate].
  - intro H. now rewrite (eqb_empty_false _ H).
Qed.

(** ** The bulk-insert generator *)

Section InsertFacts.
Context {rt : JsRuntime}.

Lemma renderValue_specLiteral (value : jsval) :
  unprintable value = false -> renderValue value = Ok (specLiteral value).
Proof.
  unfold renderValue, specLiteral, unprintable.
  destruct value as [| |s|n|b|[t|]|o]; simpl; try reflexivity; try discriminate.
  - now destruct (String.eqb s "").
  - destruct (String_of_object o); [reflexivity|discriminate].
Qed.

(** The generator has a literal for every value but the unprintable
    ones. *)
Lemma renderValue_throws (value : jsval) :
  (exists e, renderValue value = Throw e) <-> unprintable value = true.
Proof.
  destruct (unprintable value) eqn:E.
  - split; [reflexivity|intros _].
    unfold renderValue, unprintable in *.
    destruct value as [| |s|n|b|[t|]|o]; simpl in *; try discriminate.
    + now eexists.
    + destruct (String_of_object o); [discriminate|]. now eexists.
  - rewrite (renderValue_specLiteral _ E). split; [intros [e H]|intro H]; discriminate.
Qed.

Lemma valuesClause_specLiteral (columnNames : list string) (record : row) :
  (forall column, In column columnNames -> unprintable (get record column) = false) ->
  valuesClause columnNames record =
  Ok ("(" ++ join ", " (map (fun column => specLiteral (get record column)) columnNames)
      ++ ", CURRENT_TIMESTAMP, CURRENT_TIMESTAMP)").
Proof.
  intro H. unfold valuesClause.
  rewrite (mapM_pure _ (fun column => specLiteral (get record column))); [reflexivity|].
  intros column Hc. apply renderValue_specLiteral. now apply H.
Qed.

Lemma valuesClause_throws (columnNames : list string) (record : row) :
  (exists e, valuesClause columnNames record = Throw e) <->
  (exists column, In column columnNames /\ unprintable (get record column) = true).
Proof.
  unfold valuesClause. split.
  - intros [e H].
    destruct (mapM _ columnNames) as [values|e'] eqn:E; simpl in H; [discriminate|].
    apply mapM_throw in E. destruct E as (column & Hc & Hr).
    exists column. split; [exact Hc|]. apply renderValue_throws. now exists e'.
  - intros (column & Hc & Hv). apply renderValue_throws in Hv. destruct Hv as [e He].
    destruct (mapM _ columnNames) as [values|e'] eqn:E; simpl; [|now exists e'].
    exfalso. destruct (mapM_ok_inv _ _ _ E column Hc) as [y Hy]. congruence.
Qed.

Lemma valuesClause_agree (columnNames : list string) (r r' : row) :
  (forall column, In column columnNames -> get r column = get r' column) ->
  valuesClause columnNames r = valuesClause columnNames r'.
Proof.
  intro H. unfold valuesClause. f_equal. apply mapM_ext_in.
  intros column Hc. now rewrite (H column Hc).
Qed.

Lemma insert_agree (tableName : string) (firstRecord : row) (rest rest' : list row) :
  Forall2 (fun r r' => forall column, In column (keys firstRecord) ->
                          get r column = get r' column) rest rest' ->
  generateDynamicInsertSql tableName (firstRecord :: rest) =
  generateDynamicInsertSql tableName (firstRecord :: rest').
Proof.
  intro H. unfold generateDynamicInsertSql.
  destruct (String.eqb tableName ""); [reflexivity|].
  f_equal. simpl. f_equal.
  assert (E : mapM (valuesClause (keys firstRecord)) rest =
              mapM (valuesClause (keys firstRecord)) rest').
  { apply mapM_Forall2. eapply Forall2_impl; [|exact H].
    intros r r' Hr. now apply valuesClause_agree. }
  now rewrite E.
Qed.

Lemma get_withoutStrayKeys (columnNames : list string) (record : row) (column : string) :
  In column columnNames -> get (withoutStrayKeys columnNames record) column = get record column.
Proof.
  intro Hc. unfold withoutStrayKeys.
  induction record as [|[k v] record IH]; simpl; [reflexivity|].
  destruct (existsb (String.eqb k) columnNames) eqn:E; simpl.
  - now rewrite IH.
  - destruct (String.eqb_spec k column) as [->|_]; [|exact IH].
    exfalso. assert (T : existsb (String.eqb column) columnNames = true).
    { apply existsb_exists. exists column. split; [exact Hc|apply String.eqb_refl]. }
    congruence.
Qed.

(** What a row answers for a key it does not own. *)
Lemma get_missing (record : row) (column : string) :
  ~ In column (keys record) ->
  get record column = match inherited column with
                      | Some o => JObject o
                      | None => JUndefined
                      end.
Proof.
  induction record as [|[k v] record IH]; simpl; intro H; [reflexivity|].
  destruct (String.eqb_spec k column) as [->|_]; [exfalso; apply H; now left|].
  apply IH. intro Hc. apply H. now right.
Qed.

End InsertFacts.

(** C5, as the specification words it, fails on the values that have no
    text.  The CSV parser makes an object of a cell that holds JSON; on
    the object of [{"toString": 1}] the fallback [String(value)] raises a
    [TypeError] and the generator returns no statement at all.  So does
    [toISOString] on a Date whose time value is [NaN], with a
    [RangeError]. *)
Lemma insert_raises_on_unconvertible_object :
  generateDynamicInsertSql (rt := Node.runtime) "data"
    [[("a", JObject (rt := Node.runtime) Node.ToStringIsNumber)]] = Throw cannotConvert
  /\ generateDynamicInsertSql (rt := Node.runtime) "data" [[("when", JDate None)]] =
     Throw (RangeError "Invalid time value").
Proof. split; reflexivity. Qed.

(** C5, amended.  With zero rows the bulk-insert generator returns the
    empty statement.  For a non-empty row list in which no cell read is
    an object without a conversion to a string or an Invalid Date, it
    returns an [INSERT] whose column list is the first row's keys,
    sanitized and quoted, in their original order, followed by the two
    audit columns, and whose tuples render every value as the
    specification says: [NULL] for [null], [undefined] and the empty
    string, a single-quoted literal with every single quote doubled for a
    string (and for the text of an object), the bare text of a number or
    a boolean, and the quoted ISO-8601 text of a valid Date. *)
Theorem insert_statement_shape :
  forall (rt : JsRuntime) (tableName : string) (firstRecord : row) (rest : list row),
    tableName <> "" ->
    (forall record column,
        In record (firstRecord :: rest) -> In column (keys firstRecord) ->
        unprintable (get record column) = false) ->
    let userData := firstRecord :: rest in
    let columnList :=
      List.app (map (fun name => quoted (sanitize name)) (keys firstRecord))
               [quoted "createdAt"; quoted "updatedAt"] in
    let tuple := fun record : row =>
      "(" ++ join ", " (map (fun column => specLiteral (get record column)) (keys firstRecord))
      ++ ", CURRENT_TIMESTAMP, CURRENT_TIMESTAMP)" in
    generateDynamicInsertSql tableName [] = Ok ""
    /\ generateDynamicInsertSql tableName userData =
       Ok ("INSERT INTO " ++ quoted tableName ++ " (" ++ join ", " columnList ++ ")"
           ++ nl ++ "VALUES" ++ nl ++ join ("," ++ nl) (map tuple userData) ++ ";")
    /\ renderValue JNull = Ok "NULL"
    /\ renderValue JUndefined = Ok "NULL"
    /\ renderValue (JString "") = Ok "NULL"
    /\ (forall s, s <> "" -> renderValue (JString s) = Ok (sqlQuoted (escapeQuotes s)))
    /\ escapeQuotes "it's" = "it''s"
    /\ (forall n, renderValue (JNumber n) = Ok (String_of_number n))
    /\ (forall b : bool, renderValue (JBoolean b) = Ok (if b then "true" else "false"))
    /\ (forall t, renderValue (JDate (Some t)) = Ok (sqlQuoted (toISOString t)))
    /\ (forall o text, String_of_object o = Some text ->
          renderValue (JObject o) = Ok (sqlQuoted (escapeQuotes text))).
Proof.
  intros rt tableName firstRecord rest Hname Hvalid userData columnList tuple.
  repeat match goal with |- _ /\ _ => split end; try reflexivity.
  - unfold generateDynamicInsertSql. now rewrite (eqb_empty_false _ Hname).
  - assert (E : mapM (valuesClause (keys firstRecord)) userData = Ok (map tuple userData)).
    { apply mapM_pure. intros record Hr. apply valuesClause_specLiteral.
      intros column Hc. now apply Hvalid. }
    unfold generateDynamicInsertSql. rewrite (eqb_empty_false _ Hname).
    subst userData. cbv beta iota zeta. now rewrite E.
  - intros s Hs. unfold renderValue. simpl. now rewrite (eqb_empty_false _ Hs).
  - intros o text Ho. unfold renderValue. simpl. now rewrite Ho.
Qed.

(** A worked instance of C5: one cell of each kind. *)
Lemma insert_statement_shape_witness :
  generateDynamicInsertSql (rt := Node.runtime) "data"
    [[("full name", JString "O'Brien"); ("n", JNumber (number_of_Z 5)); ("ok", JBoolean true);
      ("at", JDate (Some 1672531200000)); ("gap", JString "");
      ("json", JObject (rt := Node.runtime) Node.EmptyObject)];
     [("full name", JNull); ("n", JNumber (number_of_Z (-2)))]] =
  Ok ("INSERT INTO " ++ quoted "data" ++ " ("
      ++ quoted "full_name" ++ ", " ++ quoted "n" ++ ", " ++ quoted "ok" ++ ", "
      ++ quoted "at" ++ ", " ++ quoted "gap" ++ ", " ++ quoted "json" ++ ", "
      ++ quoted "createdAt" ++ ", " ++ quoted "updatedAt" ++ ")" ++ nl
      ++ "VALUES" ++ nl
      ++ "('O''Brien', 5, true, '2023-01-01T00:00:00.000Z', NULL, '[object Object]', CURRENT_TIMESTAMP, CURRENT_TIMESTAMP),"
      ++ nl
      ++ "(NULL, -2, NULL, NULL, NULL, NULL, CURRENT_TIMESTAMP, CURRENT_TIMESTAMP);").
Proof.
  refine (proj1 (proj2 (insert_statement_shape Node.runtime "data"
            [("full name", JString "O'Brien"); ("n", JNumber (number_of_Z 5)); ("ok", JBoolean true);
             ("at", JDate (Some 1672531200000)); ("gap", JString "");
             ("json", JObject (rt := Node.runtime) Node.EmptyObject)]
            [[("full name", JNull); ("n", JNumber (number_of_Z (-2)))]] _ _))).
  - discriminate.
  - intros record column [<-|[<-|[]]] Hc; simpl in Hc;
      repeat (destruct Hc as [<-|Hc]; [reflexivity|]); contradiction.
Defined.

(** C10.  The bulk-insert generator reads, in every row, the cells of
    the first row's keys and nothing else: the statement (or the error)
    it returns for a row list is the one it returns when every key that
    appears only in later rows is removed from them, and more generally
    when the later rows are replaced by any rows with the same cells
    under the first row's keys.  Every tuple it renders has one value per
    first-row key, so with the two audit values it always has as many
    entries as the column list has names. *)
Theorem stray_keys_are_ignored :
  forall (rt : JsRuntime) (tableName : string) (firstRecord : row) (rest : list row),
    let columnNames := keys firstRecord in
    generateDynamicInsertSql tableName (firstRecord :: rest) =
    generateDynamicInsertSql tableName
      (firstRecord :: map (withoutStrayKeys columnNames) rest)
    /\ (forall rest',
          Forall2 (fun r r' => forall column, In column columnNames ->
                                  get r column = get r' column) rest rest' ->
          generateDynamicInsertSql tableName (firstRecord :: rest) =
          generateDynamicInsertSql tableName (firstRecord :: rest'))
    /\ (forall record values,
          mapM (fun column => renderValue (get record column)) columnNames = Ok values ->
          (List.length values + 2)%nat = List.length (insertColumnList columnNames)).
Proof.
  intros rt tableName firstRecord rest columnNames.
  split; [|split].
  - apply insert_agree. induction rest as [|r rest IH]; simpl; constructor; [|exact IH].
    intros column Hc. symmetry. now apply get_withoutStrayKeys.
  - intros rest' H. now apply insert_agree.
  - intros record values H. apply mapM_length in H.
    unfold insertColumnList. rewrite length_app, length_map. simpl. lia.
Qed.

(** A later row with a key of its own: the key and its value are absent
    from the statement. *)
Example stray_key_example :
  generateDynamicInsertSql (rt := Node.runtime) "data"
    [[("a", JBoolean true)]; [("a", JBoolean false); ("z", JString "stray")]] =
  Ok ("INSERT INTO " ++ quoted "data" ++ " (" ++ quoted "a" ++ ", "
      ++ quoted "createdAt" ++ ", " ++ quoted "updatedAt" ++ ")" ++ nl
      ++ "VALUES" ++ nl
      ++ "(true, CURRENT_TIMESTAMP, CURRENT_TIMESTAMP)," ++ nl
      ++ "(false, CURRENT_TIMESTAMP, CURRENT_TIMESTAMP);").
Proof. reflexivity. Qed.

(** ** The engine's reading of the generated statements *)

Lemma append_assoc' (s t u : string) : (s ++ t) ++ u = s ++ t ++ u.
Proof. induction s as [|c s IH]; simpl; [reflexivity|now rewrite IH]. Qed.

Lemma append_empty (s : string) : s ++ "" = s.
Proof. induction s as [|c s IH]; simpl; [reflexivity|now rewrite IH]. Qed.

Lemma expect_app (keyword text : string) : expect keyword (keyword ++ text) = Some text.
Proof.
  induction keyword as [|c keyword IH]; simpl; [now destruct text|].
  now rewrite Ascii.eqb_refl.
Qed.

Lemma noneOf_app (p : ascii -> bool) (s t : string) :
  noneOf p (s ++ t) = noneOf p s && noneOf p t.
Proof. induction s as [|c s IH]; simpl; [reflexivity|]. now rewrite IH, andb_assoc. Qed.

Lemma noneOf_weaken (p q : ascii -> bool) (s : string) :
  (forall c, q c = true -> p c = true) -> noneOf p s = true -> noneOf q s = true.
Proof.
  intro H. induction s as [|c s IH]; simpl; [reflexivity|].
  intro E. apply andb_true_iff in E. destruct E as [Ec Es].
  rewrite (IH Es), andb_true_r. destruct (q c) eqn:Eq; [|reflexivity].
  rewrite (H c Eq) in Ec. discriminate.
Qed.

(** *** Lines *)

Lemma lines_nonempty (text : string) : lines text <> [].
Proof.
  destruct text as [|c text]; simpl; [discriminate|].
  destruct (Ascii.eqb c "010"%char); [discriminate|]. destruct (lines text); discriminate.
Qed.

Lemma lines_single (s : string) : noneOf isNewline s = true -> lines s = [s].
Proof.
  induction s as [|c s IH]; simpl; [reflexivity|]. unfold isNewline at 1.
  destruct (Ascii.eqb c "010"%char); simpl; [discriminate|]. intro H. now rewrite (IH H).
Qed.

Lemma lines_app (s t : string) :
  noneOf isNewline s = true -> lines (s ++ nl ++ t) = s :: lines t.
Proof.
  change (nl ++ t) with (String "010"%char t).
  induction s as [|c s IH]; simpl; [reflexivity|]. unfold isNewline at 1.
  destruct (Ascii.eqb c "010"%char); simpl; [discriminate|]. intro H. now rewrite (IH H).
Qed.

(** *** Identifiers *)

Lemma sanitize_noneOf (p : ascii -> bool) (s : string) :
  (forall c, isIdentChar c = true -> p c = false) -> noneOf p (sanitize s) = true.
Proof.
  intro H. induction s as [|c s IH]; simpl; [reflexivity|]. rewrite IH, andb_true_r.
  destruct (isIdentChar c) eqn:E; [now rewrite (H c E)|now rewrite (H "_"%char eq_refl)].
Qed.

Lemma identChar_not_newline (c : ascii) : isIdentChar c = true -> isNewline c = false.
Proof.
  unfold isNewline. destruct (Ascii.eqb_spec c "010"%char) as [->|_]; [discriminate|reflexivity].
Qed.

Lemma identChar_not_quote (c : ascii) : isIdentChar c = true -> isDoubleQuote c = false.
Proof.
  unfold isDoubleQuote.
  destruct (Ascii.eqb_spec c "034"%char) as [->|_]; [discriminate|reflexivity].
Qed.

(** The scanner inside a quoted identifier. *)
Lemma identifierList_name (name rest : string) (partial : string) (read : list string) :
  noneOf isDoubleQuote name = true ->
  identifierList (name ++ String "034"%char rest) (Some partial) read =
  identifierList rest None ((partial ++ name) :: read).
Proof.
  revert partial. induction name as [|c name IH]; intros partial H; simpl.
  - now rewrite append_empty.
  - simpl in H. apply andb_true_iff in H. destruct H as [Hc Hn].
    unfold isDoubleQuote in Hc. apply negb_true_iff in Hc. rewrite Hc.
    rewrite (IH _ Hn), append_assoc'. reflexivity.
Qed.

Lemma identifierList_quoted (name rest : string) (read : list string) :
  noneOf isDoubleQuote name = true ->
  identifierList (quoted name ++ rest) None read = identifierList rest None (name :: read).
Proof.
  intro H. unfold quoted.
  change ((dq ++ name ++ dq) ++ rest) with (String "034"%char ((name ++ dq) ++ rest)).
  rewrite append_assoc'. change (dq ++ rest) with (String "034"%char rest).
  cbn [identifierList]. change (Ascii.eqb "034"%char "034"%char) with true. cbv iota.
  now rewrite (identifierList_name name rest "" read H).
Qed.

Lemma identifierList_end (rest : string) (read : list string) :
  endsList rest = true -> identifierList rest None read = Some (rev read, rest).
Proof.
  destruct rest as [|c rest]; simpl; [reflexivity|].
  destruct (Ascii.eqb c "034"%char); simpl; [discriminate|].
  destruct (Ascii.eqb c ","%char || Ascii.eqb c " "%char); simpl; [discriminate|reflexivity].
Qed.

Lemma identifierList_join (names : list string) (rest : string) (read : list string) :
  Forall (fun name => noneOf isDoubleQuote name = true) names ->
  endsList rest = true ->
  identifierList (join ", " (map quoted names) ++ rest) None read =
  Some (List.app (rev read) names, rest).
Proof.
  intros Hn Hrest. revert read.
  induction Hn as [|name names Hname _ IH]; intro read.
  - simpl. rewrite identifierList_end by exact Hrest. now rewrite app_nil_r.
  - destruct names as [|name' names].
    + cbn [map join String.concat]. rewrite (identifierList_quoted _ _ _ Hname).
      rewrite identifierList_end by exact Hrest. simpl. reflexivity.
    + change (join ", " (map quoted (name :: name' :: names)))
        with (quoted name ++ ", " ++ join ", " (map quoted (name' :: names))).
      rewrite !append_assoc'. rewrite (identifierList_quoted _ _ _ Hname).
      cbn [append identifierList Ascii.eqb]. cbn.
      rewrite IH. simpl. now rewrite <- app_assoc.
Qed.

(** *** Integer literals *)

Lemma uint_noneOf (p : ascii -> bool) (d : Decimal.uint) :
  (forall c, isDigit c = true -> p c = false) ->
  noneOf p (NilEmpty.string_of_uint d) = true.
Proof.
  intro H. induction d; simpl; rewrite ?IHd, ?andb_true_r; try reflexivity;
    now rewrite H.
Qed.

Lemma string_of_Z_noneOf (p : ascii -> bool) (z : Z) :
  (forall c, isDigit c = true -> p c = false) -> p "-"%char = false ->
  noneOf p (string_of_Z z) = true.
Proof.
  intros Hd Hm. unfold string_of_Z.
  assert (G : forall d, noneOf p (NilZero.string_of_uint d) = true).
  { intro d. unfold NilZero.string_of_uint. destruct d; try apply (uint_noneOf p _ Hd).
    simpl. now rewrite Hd. }
  destruct z as [|q|q]; simpl.
  - now rewrite Hd.
  - apply G.
  - rewrite Hm. simpl. apply G.
Qed.

Lemma integerLiteral_string_of_Z (z : Z) :
  0 <= z -> integerLiteral (string_of_Z z) = Some z.
Proof.
  intro H. unfold integerLiteral, string_of_Z. destruct z as [|q|q]; [reflexivity| |lia].
  simpl. rewrite NilZero.usu by apply Unsigned.to_uint_nonnil.
  unfold Z.of_uint. now rewrite DecimalPos.Unsigned.of_to.
Qed.

Lemma integerLiteral_minus (s : string) : integerLiteral (String "-"%char s) = None.
Proof.
  unfold integerLiteral. simpl. now destruct (NilEmpty.uint_of_string s).
Qed.

Lemma string_of_Z_negative (z : Z) :
  z < 0 -> exists s, string_of_Z z = String "-"%char s.
Proof.
  intro H. destruct z as [|q|q]; [lia|lia|]. unfold string_of_Z. simpl. now eexists.
Qed.

(** *** The text of a double *)

Lemma digit_not_newline (c : ascii) : isDigit c = true -> isNewline c = false.
Proof.
  unfold isNewline. destruct (Ascii.eqb_spec c "010"%char) as [->|_]; [discriminate|reflexivity].
Qed.

Lemma zeros_noneOf (p : ascii -> bool) (n : Z) :
  p "0"%char = false -> noneOf p (zeros n) = true.
Proof.
  intro H. unfold zeros. induction (Z.to_nat n) as [|k IH]; [reflexivity|].
  destruct k as [|k]; simpl in *; rewrite H; [reflexivity|exact IH].
Qed.

Lemma showShortest_newline (a : Z) : noneOf isNewline (showShortest a) = true.
Proof.
  unfold showShortest. destruct (shortestDigits a) as [s n].
  pose proof (string_of_Z_noneOf isNewline s digit_not_newline eq_refl) as Hs.
  pose proof (string_of_Z_noneOf isNewline (n - 1) digit_not_newline eq_refl) as He.
  destruct (n <=? 21).
  - rewrite noneOf_app, Hs. now apply zeros_noneOf.
  - destruct (string_of_Z s) as [|d fraction]; [reflexivity|].
    simpl in Hs. apply andb_true_iff in Hs. destruct Hs as [Hd Hf].
    destruct fraction as [|d' fraction'].
    + simpl. now rewrite Hd, He.
    + cbn [noneOf]. rewrite Hd. cbn [andb].
      change ("." ++ String d' fraction' ++ "e+" ++ string_of_Z (n - 1))
        with (String "."%char (String d' fraction' ++ "e+" ++ string_of_Z (n - 1))).
      cbn [noneOf]. rewrite noneOf_app, Hf. simpl. exact He.
Qed.

Lemma showDouble_newline (x : double) : noneOf isNewline (showDouble x) = true.
Proof.
  destruct x as [|[|]|z]; try reflexivity. unfold showDouble.
  destruct (Z.abs z <=? 2 ^ 53).
  - apply string_of_Z_noneOf; [apply digit_not_newline|reflexivity].
  - rewrite noneOf_app, showShortest_newline. now destruct (z <? 0).
Qed.

(** A negative double is written with a minus sign: it is not an
    unsigned integer literal. *)
Lemma integerLiteral_negative (x : double) :
  isNegative x = true -> integerLiteral (showDouble x) = None.
Proof.
  destruct x as [|[|]|z]; [discriminate|reflexivity|discriminate|].
  unfold isNegative, showDouble. intro H. destruct (Z.abs z <=? 2 ^ 53).
  - apply Z.ltb_lt in H. destruct (string_of_Z_negative z H) as [s ->].
    apply integerLiteral_minus.
  - rewrite H. apply integerLiteral_minus.
Qed.

(** An integer up to 2^53 is written with all its digits. *)
Lemma integerLiteral_safe (z : Z) :
  0 <= z <= 2 ^ 53 -> integerLiteral (showDouble (Integer z)) = Some z.
Proof.
  intro H. unfold showDouble. replace (Z.abs z <=? 2 ^ 53) with true
    by (symmetry; apply Z.leb_le; lia).
  apply integerLiteral_string_of_Z. lia.
Qed.

Lemma roundToDouble_safe (z : Z) : Z.abs z < 2 ^ 53 -> roundToDouble z = Integer z.
Proof. intro H. unfold roundToDouble. apply Z.ltb_lt in H. now rewrite H. Qed.

(** *** The rows query *)

Section ReadingFacts.
Context {rt : JsRuntime}.

Lemma selectClause_newline (columns : list string) :
  noneOf isNewline (selectClauseOf columns) = true.
Proof.
  unfold selectClauseOf. induction columns as [|c cs IH]; [reflexivity|].
  assert (Hq : noneOf isNewline (quoted (sanitize c)) = true).
  { unfold quoted. rewrite !noneOf_app. rewrite (sanitize_noneOf _ _ identChar_not_newline).
    reflexivity. }
  destruct cs as [|c' cs]; [exact Hq|].
  change (join ", " (map (fun col => quoted (sanitize col)) (c :: c' :: cs)))
    with (quoted (sanitize c) ++ ", "
          ++ join ", " (map (fun col => quoted (sanitize col)) (c' :: cs))).
  rewrite !noneOf_app, Hq. exact IH.
Qed.

Lemma rowsQuery_lines (columns : list string) (offset limit : double) :
  lines (rowsQueryOf (selectClauseOf columns) "data" offset limit) =
  [""; "    SELECT " ++ selectClauseOf columns; "    FROM " ++ quoted "data";
   "    ORDER BY " ++ quoted "id" ++ " ASC";
   "    OFFSET " ++ showDouble offset; "    LIMIT " ++ showDouble limit].
Proof.
  unfold rowsQueryOf.
  change (lines (nl ++ ?x)) with ("" :: lines x). f_equal.
  rewrite <- (append_assoc' "    SELECT ").
  rewrite lines_app by (rewrite noneOf_app, selectClause_newline; reflexivity). f_equal.
  rewrite <- (append_assoc' "    FROM ").
  rewrite lines_app by reflexivity. f_equal.
  set (rest := "    OFFSET " ++ showDouble offset ++ nl ++ "    LIMIT " ++ showDouble limit).
  transitivity (lines (("    ORDER BY " ++ quoted "id" ++ " ASC") ++ nl ++ rest));
    [reflexivity|].
  rewrite lines_app by reflexivity. f_equal. unfold rest.
  rewrite <- (append_assoc' "    OFFSET ").
  rewrite lines_app by (rewrite noneOf_app, showDouble_newline; reflexivity). f_equal.
  apply lines_single. rewrite noneOf_app, showDouble_newline. reflexivity.
Qed.

(** The engine reads, in the rows query of the reader, the sanitized
    columns, and the offset and the limit that are written as unsigned
    integers. *)
Lemma parseRowsQuery_rowsQueryOf (columns : list string) (offset limit : double) :
  parseRowsQuery (rowsQueryOf (selectClauseOf columns) "data" offset limit) =
  match integerLiteral (showDouble offset), integerLiteral (showDouble limit) with
  | Some o, Some l => Some (map sanitize columns, "data", o, l)
  | _, _ => None
  end.
Proof.
  unfold parseRowsQuery. rewrite rowsQuery_lines. rewrite !expect_app.
  assert (Ec : identifierList (selectClauseOf columns) None [] =
               Some (map sanitize columns, "")).
  { unfold selectClauseOf. rewrite <- (map_map sanitize quoted).
    rewrite <- (append_empty (join ", " (map quoted (map sanitize columns)))).
    rewrite identifierList_join; [reflexivity| |reflexivity].
    apply Forall_forall. intros name Hn. apply in_map_iff in Hn.
    destruct Hn as (c & <- & _). apply sanitize_noneOf, identChar_not_quote. }
  rewrite Ec. change (identifierList (quoted "data") None []) with (Some (["data"], "")).
  destruct (integerLiteral (showDouble offset)); [|reflexivity].
  destruct (integerLiteral (showDouble limit)); reflexivity.
Qed.

End ReadingFacts.

(** *** The last page *)

Lemma ceilDiv_bounds (count limit : Z) :
  0 < limit ->
  (ceilDiv count limit - 1) * limit < count <= ceilDiv count limit * limit.
Proof.
  intro H. unfold ceilDiv.
  pose proof (Z.div_mod (- count) limit ltac:(lia)) as E.
  pose proof (Z.mod_pos_bound (- count) limit H) as B.
  nia.
Qed.

(** The ceiling of [m / s] from bounds on [m]. *)
Lemma ceil_unique (m s c : Z) :
  0 < s -> (c - 1) * s < m <= c * s -> - ((- m) / s) = c.
Proof.
  intros Hs H. rewrite <- (Z.div_unique_pos (- m) s (- c) (c * s - m)); lia.
Qed.

(** Rounding a scaled quotient keeps its ceiling, when the scale is more
    than half the divisor. *)
Lemma nearestEven_ceiling (c l s : Z) :
  0 < l -> 0 < s -> l < 2 * s ->
  - ((- nearestEven (c * s) l) / s) = ceilDiv c l.
Proof.
  intros Hl Hs Hls. apply ceil_unique; [exact Hs|].
  pose proof (ceilDiv_bounds c l Hl) as B. set (C := ceilDiv c l) in *.
  unfold nearestEven.
  pose proof (Z.div_mod (c * s) l ltac:(lia)) as E.
  pose proof (Z.mod_pos_bound (c * s) l Hl) as R.
  set (q := (c * s) / l) in *. set (r := (c * s) mod l) in *.
  assert (Hlow : (C - 1) * s <= q).
  { apply Z.div_le_lower_bound; [exact Hl|]. nia. }
  assert (Hup : q <= C * s).
  { apply Z.div_le_upper_bound; [exact Hl|]. nia. }
  destruct ((l <? 2 * r) || ((2 * r =? l) && Z.odd q)) eqn:Eround.
  - split; [lia|].
    assert (q <> C * s); [|lia]. intro Eq.
    assert (Hr : r = c * s - l * (C * s)) by lia.
    assert (Hr' : r <= 0) by nia. assert (Hr0 : r = 0) by lia.
    rewrite Hr0 in Eround. change (2 * 0) with 0 in Eround.
    replace (l <? 0) with false in Eround by (symmetry; apply Z.ltb_ge; lia).
    replace (0 =? l) with false in Eround by (symmetry; apply Z.eqb_neq; lia).
    discriminate.
  - split; [|lia].
    assert (q <> (C - 1) * s); [|lia]. intro Eq.
    assert (Hr : s <= r) by nia.
    apply orb_false_iff in Eround. destruct Eround as [Eround _].
    apply Z.ltb_ge in Eround. lia.
Qed.

Lemma scaled_negative (n d e : Z) : e < 0 -> scaled n d e = (n * 2 ^ (- e), d).
Proof. intro H. unfold scaled. apply Z.ltb_lt in H. now rewrite H. Qed.

(** The exponent of the rounded quotient of [c] by [l]: the scaled
    quotient is in [2^52, 2^53). *)
Lemma roundQuotient_exponent (c l : Z) :
  0 < c < 2 ^ 53 -> 0 < l ->
  (l = 1 /\ 2 ^ 52 <= c /\ roundQuotient c l = (c, 0))
  \/ (exists e, e < 0 /\ roundQuotient c l = (nearestEven (c * 2 ^ (- e)) l, e)
                /\ 2 ^ 52 * l <= c * 2 ^ (- e) < 2 ^ 53 * l).
Proof.
  intros Hc Hl. unfold roundQuotient.
  pose proof (Z.log2_spec c ltac:(lia)) as Sc.
  pose proof (Z.log2_spec l Hl) as Sl.
  pose proof (Z.log2_nonneg c) as Nc. pose proof (Z.log2_nonneg l) as Nl.
  set (Lc := Z.log2 c) in *. set (Ll := Z.log2 l) in *.
  assert (Lc53 : Lc < 53).
  { destruct (Z_lt_ge_dec Lc 53) as [H|H]; [exact H|].
    pose proof (Z.pow_le_mono_r 2 53 Lc ltac:(lia) ltac:(lia)). lia. }
  destruct (Z_lt_ge_dec (Lc - Ll - 52) 0) as [Hneg|Hpos].
  - right. rewrite (scaled_negative _ _ _ Hneg).
    assert (P : 2 ^ (- (Lc - Ll - 52)) * 2 ^ Lc = 2 ^ (52 + Ll)).
    { rewrite <- Z.pow_add_r by lia. f_equal. lia. }
    assert (P1 : 2 ^ (- (Lc - Ll - 52)) * 2 ^ (Lc + 1) = 2 ^ (53 + Ll)).
    { rewrite <- Z.pow_add_r by lia. f_equal. lia. }
    assert (P2 : 2 ^ (52 + Ll) = 2 ^ 52 * 2 ^ Ll) by (apply Z.pow_add_r; lia).
    assert (P3 : 2 ^ (53 + Ll) = 2 ^ 53 * 2 ^ Ll) by (apply Z.pow_add_r; lia).
    assert (P4 : 2 ^ (Ll + 1) = 2 * 2 ^ Ll) by (rewrite Z.pow_add_r by lia; lia).
    assert (Pp : 0 < 2 ^ (- (Lc - Ll - 52))) by (apply Z.pow_pos_nonneg; lia).
    set (s := 2 ^ (- (Lc - Ll - 52))) in *.
    assert (B1 : 2 ^ 51 * l < c * s).
    { change (2 ^ 52) with (2 * 2 ^ 51) in P2. nia. }
    assert (B2 : c * s < 2 ^ 53 * l) by nia.
    destruct (c * s <? 2 ^ 52 * l) eqn:Eb.
    + apply Z.ltb_lt in Eb. exists (Lc - Ll - 52 - 1). split; [lia|].
      rewrite scaled_negative by lia.
      assert (Ps : 2 ^ (- (Lc - Ll - 52 - 1)) = 2 * s).
      { unfold s. replace (- (Lc - Ll - 52 - 1)) with (1 + - (Lc - Ll - 52)) by lia.
        rewrite Z.pow_add_r by lia. reflexivity. }
      rewrite Ps. split; [reflexivity|].
      change (2 ^ 52) with (2 * 2 ^ 51). change (2 ^ 53) with (2 * (2 * 2 ^ 51)) in *. lia.
    + apply Z.ltb_ge in Eb. exists (Lc - Ll - 52). split; [lia|].
      rewrite scaled_negative by lia. fold s. split; [reflexivity|lia].
  - left. assert (Ll = 0) by lia. assert (Lc = 52) by lia.
    rewrite H, H0 in *. change (2 ^ 0) with 1 in Sl. change (2 ^ (0 + 1)) with 2 in Sl.
    assert (l = 1) by lia. subst l. split; [reflexivity|]. split; [lia|].
    change (52 - 0 - 52) with 0. unfold scaled. cbn [Z.ltb Z.compare].
    change (2 ^ 0) with 1. rewrite !Z.mul_1_r.
    replace (c <? 2 ^ 52) with false by (symmetry; apply Z.ltb_ge; lia).
    cbn [Z.ltb Z.compare]. unfold nearestEven. rewrite Z.div_1_r, Z.mod_1_r. reflexivity.
Qed.

(** Below 2^53 the division of the reader is exact enough: the ceiling
    of the rounded quotient is the ceiling of the quotient. *)
Lemma ceilQuotient_exact (count limit : Z) :
  0 <= count < 2 ^ 53 -> 0 < limit <= 2 ^ 53 ->
  ceilQuotient count (Integer limit) = Integer (ceilDiv count limit).
Proof.
  intros Hc Hl. unfold ceilQuotient.
  rewrite roundToDouble_safe by lia.
  replace (limit =? 0) with false by (symmetry; apply Z.eqb_neq; lia).
  destruct (Z.eqb_spec count 0) as [->|Hnz]; [reflexivity|].
  rewrite (Z.abs_eq count), (Z.abs_eq limit) by lia.
  replace (count <? 0) with false by (symmetry; apply Z.ltb_ge; lia).
  replace (limit <? 0) with false by (symmetry; apply Z.ltb_ge; lia).
  cbn [Bool.eqb].
  destruct (roundQuotient_exponent count limit ltac:(lia) ltac:(lia))
    as [(-> & Hbig & ->)|(e & He & -> & Hlow & Hhigh)].
  - unfold ceilScaled, ceilDiv. cbn [Z.ltb Z.compare]. change (2 ^ 0) with 1.
    rewrite Z.div_1_r. f_equal. lia.
  - unfold ceilScaled. apply Z.ltb_lt in He. rewrite He. apply Z.ltb_lt in He.
    f_equal. apply nearestEven_ceiling; [lia| |].
    + apply Z.pow_pos_nonneg; lia.
    + assert (0 < 2 ^ (- e)) by (apply Z.pow_pos_nonneg; lia).
      change (2 ^ 53) with (2 * 2 ^ 52) in *. nia.
Qed.

(** ** The pagination reader *)

(** Runs the monadic steps of the reader, keeping the query texts folded. *)
Ltac reader_steps :=
  cbn -[selectClauseOf countQueryOf rowsQueryOf desiredColumnsOf parseRowsQuery
        integerLiteral showDouble hasColumn project forallb bigintMax Z.leb
        ceilQuotient times minusOne orDefault parseInt String.eqb].

Section ReaderFacts.
Context {rt : JsRuntime}.

Lemma api_data_absent (q : PageQuery) (w : World) :
  dataTable w = None ->
  api_data q w =
  (mkResponse 404 (ErrorText "Data table not found. Please upload a CSV first."),
   withJournal w (List.app (journal w) [SelectTableExists])).
Proof.
  intro H. unfold api_data, tryCatch, bindM, selectTableExists, sent, withJournal. simpl.
  now rewrite H.
Qed.

(** The reader on a world with the table: the statements it sends and,
    from what the engine reads in the rows query, its answer. *)
Lemma api_data_present (q : PageQuery) (w : World) (t : Table) :
  dataTable w = Some t ->
  exists r rest,
    api_data q w = (r, withJournal w (List.app (journal w) (SelectTableExists :: rest)))
    /\ code r <> 404
    /\ (desiredColumnsOf (columnNames t) <> [] ->
        let pageNumber := orDefault (parseInt (page q)) 1 in
        let pageSize := orDefault (parseInt (limit q)) 10 in
        let offset := times (minusOne pageNumber) pageSize in
        let columns := desiredColumnsOf (columnNames t) in
        let text := rowsQueryOf (selectClauseOf columns) "data" offset pageSize in
        let count := Z.of_nat (List.length (records t)) in
        rest = [SelectColumnNames "data"; RawQuery (countQueryOf "data"); RawQuery text]
        /\ r = match integerLiteral (showDouble offset),
                     integerLiteral (showDouble pageSize) with
               | Some o, Some l =>
                   if forallb (hasColumn t) (map sanitize columns) && hasColumn t "id"
                      && (o <=? bigintMax) && (l <=? bigintMax)
                   then mkResponse 200
                          (Page (map (project (map sanitize columns))
                                     (firstn (Z.to_nat l) (skipn (Z.to_nat o) (records t))))
                                (ceilQuotient count pageSize) count)
                   else mkResponse 500 (ErrorObject (DatabaseError text))
               | _, _ => mkResponse 500 (ErrorObject (DatabaseError text))
               end).
Proof.
  intro H.
  unfold api_data, tryCatch, selectTableExists, generatePaginatedDataQuery,
    selectColumnNames, selectCount, selectPage, sent, withJournal, ret, fail, bindM.
  reader_steps. rewrite H. reader_steps.
  change (String.eqb "data" "") with false. change (String.eqb "data" "data") with true.
  reader_steps.
  destruct (desiredColumnsOf (columnNames t)) as [|c cs] eqn:Ec; reader_steps.
  - rewrite <- !app_assoc. simpl. eexists _, _. split; [reflexivity|].
    split; [discriminate|]. intro E. now elim E.
  - match goal with
    | |- context [String.eqb (countQueryOf "data") ?x] =>
        change (String.eqb (countQueryOf "data") x) with true
    end.
    reader_steps. rewrite parseRowsQuery_rowsQueryOf.
    set (pageNumber := orDefault (parseInt (page q)) 1).
    set (pageSize := orDefault (parseInt (limit q)) 10).
    set (offset := times (minusOne pageNumber) pageSize).
    destruct (integerLiteral (showDouble offset)) as [o|];
      [destruct (integerLiteral (showDouble pageSize)) as [l|]|].
    + change (String.eqb "data" "data") with true.
      change (match map sanitize (c :: cs) with [] => true | _ :: _ => false end) with false.
      cbn [negb andb].
      reader_steps.
      destruct (forallb (hasColumn t) _ && hasColumn t "id"
                && (o <=? bigintMax) && (l <=? bigintMax));
        reader_steps; rewrite <- !app_assoc; reader_steps;
        eexists _, _; (split; [reflexivity|]); (split; [discriminate|]);
        intros _; split; reflexivity.
    + reader_steps; rewrite <- !app_assoc; reader_steps.
      eexists _, _; (split; [reflexivity|]); (split; [discriminate|]);
        intros _; split; reflexivity.
    + reader_steps; rewrite <- !app_assoc; reader_steps.
      eexists _, _; (split; [reflexivity|]); (split; [discriminate|]);
        intros _; split; reflexivity.
Qed.

End ReaderFacts.

Section ReaderClaims.
Context {rt : JsRuntime}.

(** The answer of [GET /api/data] is a function of the query and of the
    catalog's ["data"] table: nothing else of the world is read. *)
Lemma api_data_reads_catalog (q : PageQuery) (w w' : World) :
  dataTable w = dataTable w' -> fst (api_data q w) = fst (api_data q w').
Proof.
  intro H. destruct (dataTable w) as [t|] eqn:E; symmetry in H.
  - destruct (api_data_present q w t E) as (r & rest & Hr & _ & Hp).
    destruct (api_data_present q w' t H) as (r' & rest' & Hr' & _ & Hp').
    rewrite Hr, Hr'. simpl.
    destruct (desiredColumnsOf (columnNames t)) as [|c cs] eqn:Ec.
    + revert Hr Hr'.
      unfold api_data, tryCatch, selectTableExists, generatePaginatedDataQuery,
        selectColumnNames, selectCount, selectPage, sent, withJournal, ret, fail, bindM.
      reader_steps. rewrite E, H. reader_steps.
      change (String.eqb "data" "") with false. change (String.eqb "data" "data") with true.
      reader_steps. rewrite Ec. reader_steps.
      intros A B. inversion A. inversion B. reflexivity.
    + destruct (Hp ltac:(discriminate)) as [_ ->].
      destruct (Hp' ltac:(discriminate)) as [_ ->]. reflexivity.
  - now rewrite (api_data_absent q w E), (api_data_absent q w' H).
Qed.

(** The raw-SQL server answers 404 exactly when the catalog has no
    ["data"] table.  The first statement it sends is the existence query
    on the catalog; when the table is absent that query is the only one
    sent; the durable state is left as it was, and the answer is a
    function of the query and of the catalog alone. *)
Lemma not_found_iff_table_absent (q : PageQuery) (w : World) :
  let answered := api_data q w in
  (code (fst answered) = 404 <-> dataTable w = None)
  /\ (exists rest,
        snd answered = withJournal w (List.app (journal w) (SelectTableExists :: rest)))
  /\ (dataTable w = None ->
      snd answered = withJournal w (List.app (journal w) [SelectTableExists]))
  /\ (forall w', dataTable w' = dataTable w -> fst (api_data q w') = fst answered).
Proof.
  intro answered. subst answered.
  split; [|split; [|split]].
  - destruct (dataTable w) as [t|] eqn:E.
    + destruct (api_data_present q w t E) as (r & rest & Hr & Hcode & _).
      rewrite Hr. simpl. split; [contradiction|discriminate].
    + rewrite (api_data_absent q w E). simpl. split; reflexivity.
  - destruct (dataTable w) as [t|] eqn:E.
    + destruct (api_data_present q w t E) as (r & rest & Hr & _).
      exists rest. now rewrite Hr.
    + exists []. now rewrite (api_data_absent q w E).
  - intro E. now rewrite (api_data_absent q w E).
  - intros w' H. now apply api_data_reads_catalog.
Qed.

(** The Sequelize server with its handle set and no table: the query
    fails and the handler answers 500. *)
Lemma sequelize_api_data_without_table (attributes : list string) (q : PageQuery) (w : World) :
  dataTable w = None ->
  Sequelize.api_data (Sequelize.mkProcess (Some attributes)) q w =
  (mkResponse 500 (ErrorText "Failed to fetch data"), w).
Proof.
  intro H. unfold Sequelize.api_data, tryCatch, Sequelize.findAndCountAll, ret, bindM.
  cbn [Sequelize.DataTable]. now rewrite H.
Qed.

Lemma sequelize_api_data_code (proc : Sequelize.Process) (q : PageQuery) (w : World) :
  code (fst (Sequelize.api_data proc q w)) = 404 <-> Sequelize.DataTable proc = None.
Proof.
  destruct proc as [[attributes|]]; cbn [Sequelize.DataTable].
  - split; [|discriminate]. unfold Sequelize.api_data, tryCatch, bindM, ret.
    cbn [Sequelize.DataTable].
    destruct (Sequelize.findAndCountAll _ _ w) as [[[count rows]|e] w']; simpl; discriminate.
  - split; reflexivity.
Qed.

Lemma hasColumns_forallb (t : Table) (columns : list string) :
  Forall (fun c => In c (columnNames t)) columns -> forallb (hasColumn t) columns = true.
Proof.
  intro H. apply forallb_forall. intros c Hc. rewrite Forall_forall in H.
  unfold hasColumn. apply existsb_exists. exists c. split; [now apply H|apply String.eqb_refl].
Qed.

(** A page on exact numbers: the offset and the size are integers up to
    2^53, the table has the selected columns and fewer than 2^53
    records. *)
Lemma api_data_page (q : PageQuery) (w : World) (t : Table) (o s : Z) :
  dataTable w = Some t ->
  desiredColumnsOf (columnNames t) <> [] ->
  let pageNumber := orDefault (parseInt (page q)) 1 in
  let pageSize := orDefault (parseInt (limit q)) 10 in
  let columns := map sanitize (desiredColumnsOf (columnNames t)) in
  times (minusOne pageNumber) pageSize = Integer o ->
  pageSize = Integer s ->
  0 <= o <= 2 ^ 53 -> 0 <= s <= 2 ^ 53 ->
  Z.of_nat (List.length (records t)) < 2 ^ 53 ->
  Forall (fun c => In c (columnNames t)) ("id" :: columns) ->
  fst (api_data q w) =
  mkResponse 200
    (Page (map (project columns) (firstn (Z.to_nat s) (skipn (Z.to_nat o) (records t))))
          (Integer (ceilDiv (Z.of_nat (List.length (records t))) s))
          (Z.of_nat (List.length (records t)))).
Proof.
  intros Ht Hcols pageNumber pageSize columns Eo Es Ho Hs Hcount Hall.
  destruct (api_data_present q w t Ht) as (r & rest & Hr & _ & Hpage).
  destruct (Hpage Hcols) as [_ ->]. rewrite Hr. cbn [fst].
  fold pageNumber pageSize. rewrite Eo, Es.
  rewrite !integerLiteral_safe by assumption.
  inversion Hall as [|? ? Hid Hrest]; subst.
  fold columns. rewrite (hasColumns_forallb t columns Hrest).
  assert (Eid : hasColumn t "id" = true).
  { unfold hasColumn. apply existsb_exists. exists "id". split; [exact Hid|reflexivity]. }
  rewrite Eid.
  assert (Bo : (o <=? bigintMax) = true) by (apply Z.leb_le; unfold bigintMax; lia).
  assert (Bs : (s <=? bigintMax) = true) by (apply Z.leb_le; unfold bigintMax; lia).
  rewrite Bo, Bs. cbn [andb].
  assert (Hnz : s <> 0).
  { intros ->. revert Es. unfold pageSize.
    destruct (parseInt (limit q)) as [| |[| |]]; discriminate. }
  rewrite ceilQuotient_exact by lia. reflexivity.
Qed.

(** No double of the reader is [NaN] or [0] after the defaults. *)
Lemma orDefault_truthy (n : double) (d : Z) :
  d <> 0 -> orDefault n d <> NotANumber /\ orDefault n d <> Integer 0.
Proof.
  intro H. destruct n as [| |[| |]]; simpl; split; try discriminate; congruence.
Qed.

End ReaderClaims.

(** C3, on the Sequelize server.  Its [GET /api/data] never asks the
    catalog: it answers 404 exactly when the variable [DataTable] of the
    running process is unset, whatever the catalog holds.  After a
    restart of the process it answers 404 although the ["data"] table
    exists; with the variable set and the table absent (as after a
    rejected [bulkCreate]) it sends the query and answers 500 from the
    failure of that query.  The raw-SQL server does what the
    specification asks: 404 exactly when the catalog has no table. *)
Theorem sequelize_not_found_follows_the_process_variable :
  forall (rt : JsRuntime) (proc : Sequelize.Process) (q : PageQuery) (w : World),
    (code (fst (Sequelize.api_data proc q w)) = 404 <-> Sequelize.DataTable proc = None)
    /\ (forall t,
          Sequelize.api_data Sequelize.freshProcess q
            (mkWorld (uploadedFile w) (Some t) (blobs w) (journal w)) =
          (mkResponse 404 (ErrorText "Data table not found. Please upload a CSV first."),
           mkWorld (uploadedFile w) (Some t) (blobs w) (journal w)))
    /\ (forall attributes,
          dataTable w = None ->
          Sequelize.api_data (Sequelize.mkProcess (Some attributes)) q w =
          (mkResponse 500 (ErrorText "Failed to fetch data"), w))
    /\ (code (fst (api_data q w)) = 404 <-> dataTable w = None).
Proof.
  intros rt proc q w. split; [apply sequelize_api_data_code|].
  split; [reflexivity|]. split; [intros attributes H; now apply sequelize_api_data_without_table|].
  apply (not_found_iff_table_absent q w).
Qed.

(** C7.  On a world with a ["data"] table, [GET /api/data] reads the page
    number and the page size with [parseInt], takes 1 and 10 when a
    parameter is absent, has no leading integer or is [0], and applies no
    bound to either: for every request the rows query it sends carries
    the text of [(pageNumber - 1) * pageSize] after [OFFSET] and the text
    of [pageSize] after [LIMIT], which the engine reads back.  The
    arithmetic is that of doubles (the product and the quotient are
    rounded); it is exact as long as the integers stay below 2^53.  When the offset and the size are integers from 0
    to 2^53, the table has the selected columns and fewer than 2^53
    records, the answer is 200 with the records from the offset on, at
    most [pageSize] of them, and [lastPage = ceil(totalCount / pageSize)].
    Page 3 with size 10 on 25 records gives 5 records and
    [lastPage = 3]. *)
Theorem pagination_arithmetic :
  forall (rt : JsRuntime) (q : PageQuery) (w : World) (t : Table),
    dataTable w = Some t ->
    desiredColumnsOf (columnNames t) <> [] ->
    let pageNumber := orDefault (parseInt (page q)) 1 in
    let pageSize := orDefault (parseInt (limit q)) 10 in
    let offset := times (minusOne pageNumber) pageSize in
    let totalCount := Z.of_nat (List.length (records t)) in
    let columns := map sanitize (desiredColumnsOf (columnNames t)) in
    let rowsQuery :=
      nl ++ "    SELECT " ++ join ", " (map quoted columns)
      ++ nl ++ "    FROM " ++ quoted "data"
      ++ nl ++ "    ORDER BY " ++ quoted "id" ++ " ASC"
      ++ nl ++ "    OFFSET " ++ showDouble offset
      ++ nl ++ "    LIMIT " ++ showDouble pageSize in
    journal (snd (api_data q w)) =
      List.app (journal w)
        [SelectTableExists; SelectColumnNames "data";
         RawQuery ("SELECT COUNT(*) FROM " ++ quoted "data"); RawQuery rowsQuery]
    /\ parseRowsQuery rowsQuery =
       match integerLiteral (showDouble offset), integerLiteral (showDouble pageSize) with
       | Some o, Some l => Some (columns, "data", o, l)
       | _, _ => None
       end
    /\ (forall p s, pageNumber = Integer p -> pageSize = Integer s ->
          safeInteger (p - 1) -> safeInteger ((p - 1) * s) -> offset = Integer ((p - 1) * s))
    /\ (forall o s, offset = Integer o -> pageSize = Integer s ->
          0 <= o <= 2 ^ 53 -> 0 <= s <= 2 ^ 53 -> totalCount < 2 ^ 53 ->
          Forall (fun c => In c (columnNames t)) ("id" :: columns) ->
          integerLiteral (showDouble offset) = Some o
          /\ integerLiteral (showDouble pageSize) = Some s
          /\ fst (api_data q w) =
             mkResponse 200
               (Page (map (project columns)
                          (firstn (Z.to_nat s) (skipn (Z.to_nat o) (records t))))
                     (Integer (ceilDiv totalCount s)) totalCount))
    /\ (pageNumber <> NotANumber /\ pageNumber <> Integer 0
        /\ pageSize <> NotANumber /\ pageSize <> Integer 0)
    /\ (forall s, 0 < s ->
          (ceilDiv totalCount s - 1) * s < totalCount <= ceilDiv totalCount s * s)
    /\ (parseInt (page q) = NotANumber -> pageNumber = Integer 1)
    /\ (parseInt (limit q) = NotANumber -> pageSize = Integer 10)
    /\ parseInt None = NotANumber
    /\ parseInt (Some "abc") = NotANumber
    /\ parseInt (Some "3") = Integer 3
    /\ parseInt (Some "10") = Integer 10
    /\ parseInt (Some "9007199254740993") = Integer 9007199254740992
    /\ (parseInt (page q) <> NotANumber -> parseInt (page q) <> Integer 0 ->
        pageNumber = parseInt (page q))
    /\ (parseInt (limit q) <> NotANumber -> parseInt (limit q) <> Integer 0 ->
        pageSize = parseInt (limit q))
    /\ (page q = Some "3" -> limit q = Some "10" -> List.length (records t) = 25%nat ->
        Forall (fun c => In c (columnNames t)) ("id" :: columns) ->
        exists rows,
          fst (api_data q w) = mkResponse 200 (Page rows (Integer 3) 25)
          /\ List.length rows = 5%nat).
Proof.
  intros rt q w t Ht Hcols pageNumber pageSize offset totalCount columns rowsQuery.
  assert (Etext : rowsQuery =
                  rowsQueryOf (selectClauseOf (desiredColumnsOf (columnNames t)))
                              "data" offset pageSize).
  { unfold rowsQuery, rowsQueryOf, selectClauseOf, columns. now rewrite map_map. }
  destruct (api_data_present q w t Ht) as (r & rest & Hr & _ & Hpage).
  destruct (Hpage Hcols) as [Hrest _]. clear Hpage.
  fold pageNumber pageSize in Hrest. fold offset in Hrest.
  destruct (orDefault_truthy (parseInt (page q)) 1 ltac:(discriminate)) as [Hp1 Hp2].
  destruct (orDefault_truthy (parseInt (limit q)) 10 ltac:(discriminate)) as [Hs1 Hs2].
  fold pageNumber in Hp1, Hp2. fold pageSize in Hs1, Hs2.
  assert (Hexact : forall p s, pageNumber = Integer p -> pageSize = Integer s ->
            safeInteger (p - 1) -> safeInteger ((p - 1) * s) ->
            offset = Integer ((p - 1) * s)).
  { intros p s Ep Es H1 H2. unfold offset. rewrite Ep, Es. unfold minusOne.
    rewrite (roundToDouble_safe _ H1). unfold times. now apply roundToDouble_safe. }
  assert (Hanswer : forall o s, offset = Integer o -> pageSize = Integer s ->
            0 <= o <= 2 ^ 53 -> 0 <= s <= 2 ^ 53 -> totalCount < 2 ^ 53 ->
            Forall (fun c => In c (columnNames t)) ("id" :: columns) ->
            fst (api_data q w) =
            mkResponse 200
              (Page (map (project columns)
                         (firstn (Z.to_nat s) (skipn (Z.to_nat o) (records t))))
                    (Integer (ceilDiv totalCount s)) totalCount)).
  { intros o s Eo Es Ho Hs Hcount Hall. now apply (api_data_page q w t o s). }
  repeat match goal with |- _ /\ _ => split end; try assumption; try reflexivity.
  - rewrite Hr. cbn [snd journal withJournal]. rewrite Hrest, Etext. reflexivity.
  - rewrite Etext. unfold columns. apply parseRowsQuery_rowsQueryOf.
  - intros o s Eo Es Ho Hs Hcount Hall. rewrite Eo, Es.
    split; [now apply integerLiteral_safe|]. split; [now apply integerLiteral_safe|].
    now apply Hanswer.
  - intros s Hs. now apply ceilDiv_bounds.
  - intro E. unfold pageNumber. now rewrite E.
  - intro E. unfold pageSize. now rewrite E.
  - intros H1 H2. unfold pageNumber. destruct (parseInt (page q)) as [| |[| |]];
      try reflexivity; [now elim H1|now elim H2].
  - intros H1 H2. unfold pageSize. destruct (parseInt (limit q)) as [| |[| |]];
      try reflexivity; [now elim H1|now elim H2].
  - intros Ep El Hlen Hall.
    assert (Epn : pageNumber = Integer 3) by (unfold pageNumber; now rewrite Ep).
    assert (Eps : pageSize = Integer 10) by (unfold pageSize; now rewrite El).
    assert (Eo : offset = Integer 20) by (unfold offset; now rewrite Epn, Eps).
    assert (Et : totalCount = 25) by (unfold totalCount; now rewrite Hlen).
    rewrite (Hanswer 20 10 Eo Eps ltac:(lia) ltac:(lia) ltac:(rewrite Et; lia) Hall).
    rewrite Et.
    eexists. split; [reflexivity|].
    rewrite length_map, length_firstn, length_skipn, Hlen. reflexivity.
Qed.

(** The scenario of C7 on a table of twenty-five records. *)
Lemma pagination_arithmetic_witness :
  exists rows,
    fst (api_data (rt := Node.runtime) (mkPageQuery (Some "3") (Some "10"))
           (mkWorld [] (Some (mkTable ["id"; "n"; "createdAt"; "updatedAt"]
                                (numbered 1 (repeat [("n", Written (SqlWord "true"))] 25))))
                    [] [])) =
    mkResponse 200 (Page rows (Integer 3) 25)
    /\ List.length rows = 5%nat.
Proof.
  refine (proj2 (proj2 (proj2 (proj2 (proj2 (proj2 (proj2 (proj2 (proj2 (proj2 (proj2
          (proj2 (proj2 (proj2 (proj2
            (pagination_arithmetic Node.runtime (mkPageQuery (Some "3") (Some "10"))
               (mkWorld [] (Some (mkTable ["id"; "n"; "createdAt"; "updatedAt"]
                                    (numbered 1 (repeat [("n", Written (SqlWord "true"))] 25))))
                        [] [])
               (mkTable ["id"; "n"; "createdAt"; "updatedAt"]
                  (numbered 1 (repeat [("n", Written (SqlWord "true"))] 25)))
               eq_refl _))))))))))))))) eq_refl eq_refl eq_refl _).
  - discriminate.
  - repeat constructor; simpl; tauto.
Defined.

(** *** The table definition *)

Lemma columnOfDefinition_line (name type suffix : string) :
  noneOf isDoubleQuote name = true ->
  endsList type = true -> type <> "" ->
  columnOfDefinition ("    " ++ (quoted name ++ " " ++ type) ++ suffix) = Some name.
Proof.
  intros Hname Hend Htype. unfold columnOfDefinition. rewrite expect_app.
  rewrite append_assoc', (identifierList_quoted _ _ _ Hname).
  destruct type as [|c type]; [now elim Htype|].
  change (identifierList ((" " ++ String c type) ++ suffix) None [name])
    with (identifierList (String c (type ++ suffix)) None [name]).
  rewrite identifierList_end; [reflexivity|exact Hend].
Qed.

Lemma columnsOfDefinitions_join (columns : list (string * string)) :
  columns <> [] -> Forall readableColumn columns ->
  columnsOfDefinitions
    (lines ("    " ++ join ("," ++ nl ++ "    ")
                         (map (fun column => quoted (fst column) ++ " " ++ snd column) columns)
            ++ nl ++ ");")) = Some (map fst columns).
Proof.
  intros Hne H. induction H as [|[name type] columns (Hq & Hn & Ht & He & Hty) _ IH];
    [now elim Hne|]. clear Hne. cbn [fst snd] in *.
  assert (Hline : forall suffix, noneOf isNewline suffix = true ->
            noneOf isNewline ("    " ++ (quoted name ++ " " ++ type) ++ suffix) = true).
  { intros suffix Hs. unfold quoted. rewrite !noneOf_app, Hn, Ht, Hs. reflexivity. }
  destruct columns as [|column' columns].
  - cbn [map join String.concat fst snd].
    transitivity (columnsOfDefinitions
                    (lines (("    " ++ (quoted name ++ " " ++ type) ++ "") ++ nl ++ ");"))).
    { f_equal. f_equal. rewrite append_empty, !append_assoc'. reflexivity. }
    rewrite lines_app by (now apply Hline).
    change (lines ");") with [");"]. cbn [columnsOfDefinitions].
    rewrite (columnOfDefinition_line name type "" Hq He Hty).
    reflexivity.
  - specialize (IH ltac:(discriminate)).
    change (join ("," ++ nl ++ "    ")
                 (map (fun column => quoted (fst column) ++ " " ++ snd column)
                      ((name, type) :: column' :: columns)))
      with ((quoted name ++ " " ++ type) ++ ("," ++ nl ++ "    ")
            ++ join ("," ++ nl ++ "    ")
                    (map (fun column => quoted (fst column) ++ " " ++ snd column)
                         (column' :: columns))).
    set (rest := join ("," ++ nl ++ "    ")
                      (map (fun column => quoted (fst column) ++ " " ++ snd column)
                           (column' :: columns))) in *.
    transitivity (columnsOfDefinitions
                    (lines (("    " ++ (quoted name ++ " " ++ type) ++ ",")
                            ++ nl ++ ("    " ++ rest ++ nl ++ ");")))).
    { f_equal. f_equal. rewrite !append_assoc'. reflexivity. }
    rewrite lines_app by (now apply Hline).
    destruct (lines ("    " ++ rest ++ nl ++ ");")) as [|line more]; [discriminate IH|].
    change (columnsOfDefinitions (("    " ++ (quoted name ++ " " ++ type) ++ ",") :: line :: more))
      with (match columnOfDefinition ("    " ++ (quoted name ++ " " ++ type) ++ ","),
                  columnsOfDefinitions (line :: more) with
            | Some name, Some names => Some (name :: names)
            | _, _ => None
            end).
    rewrite IH, (columnOfDefinition_line name type "," Hq He Hty). reflexivity.
Qed.

Section TableFacts.
Context {rt : JsRuntime}.

Lemma inferSqlType_readable (feature : string) (rows : list row) :
  readableColumn (sanitize feature, inferSqlType feature rows ++ " ").
Proof.
  unfold readableColumn. cbn [fst snd].
  rewrite (sanitize_noneOf _ _ identChar_not_quote), (sanitize_noneOf _ _ identChar_not_newline).
  unfold inferSqlType. destruct (scanColumn feature rows) as [[] [] [] []];
    repeat split; discriminate.
Qed.

(** The engine reads, in the generated [CREATE TABLE], the table ["data"]
    and the columns: the key, the sanitized keys of the first row, the
    two audit columns. *)
Lemma parseCreateTable_generated (rows : list row) (text : string) :
  generateDynamicCreateTableSql "data" rows inferSqlType = Ok text ->
  parseCreateTable text = Some ("data", tableColumnNames rows).
Proof.
  unfold generateDynamicCreateTableSql. cbn [String.eqb Ascii.eqb Bool.eqb].
  destruct rows as [|first rest]; [discriminate|]. cbv zeta. intro H.
  assert (E : "CREATE TABLE IF NOT EXISTS " ++ quoted "data" ++ " (" ++ nl ++ "    "
              ++ join ("," ++ nl ++ "    ") (ddlColumns first (first :: rest) inferSqlType)
              ++ nl ++ ");" = text) by congruence.
  clear H. rewrite <- E. clear E text.
  set (columns := ("id", "SERIAL PRIMARY KEY")
                  :: List.app (map (fun feature => (sanitize feature,
                                                     inferSqlType feature (first :: rest) ++ " "))
                                   (keys first))
                              [("createdAt", "TIMESTAMP WITH TIME ZONE DEFAULT CURRENT_TIMESTAMP");
                               ("updatedAt", "TIMESTAMP WITH TIME ZONE DEFAULT CURRENT_TIMESTAMP")]).
  assert (Ecols : ddlColumns first (first :: rest) inferSqlType =
                  map (fun column => quoted (fst column) ++ " " ++ snd column) columns).
  { unfold ddlColumns, columns. cbn [map fst snd]. f_equal.
    rewrite map_app, map_map. reflexivity. }
  assert (Hread : Forall readableColumn columns).
  { unfold columns. constructor; [repeat split; discriminate|].
    apply Forall_app. split.
    - apply Forall_forall. intros column Hc. apply in_map_iff in Hc.
      destruct Hc as (feature & <- & _). apply inferSqlType_readable.
    - repeat constructor; discriminate. }
  rewrite Ecols. unfold parseCreateTable.
  transitivity
    (match lines (("CREATE TABLE IF NOT EXISTS " ++ quoted "data" ++ " (") ++ nl
                  ++ ("    " ++ join ("," ++ nl ++ "    ")
                                     (map (fun column => quoted (fst column) ++ " " ++ snd column)
                                          columns)
                      ++ nl ++ ");")) with
     | [] => None
     | line :: definitions =>
         match expect "CREATE TABLE IF NOT EXISTS " line with
         | Some tableClause =>
             match identifierList tableClause None [], columnsOfDefinitions definitions with
             | Some ([tableName], "("), Some names => Some (tableName, names)
             | _, _ => None
             end
         | None => None
         end
     end).
  { reflexivity. }
  rewrite lines_app by reflexivity.
  rewrite (columnsOfDefinitions_join columns ltac:(discriminate) Hread).
  unfold tableColumnNames, columns. cbn [map fst]. rewrite map_app, map_map.
  reflexivity.
Qed.

End TableFacts.

(* ================================================================== *)
(** ** The dataset lifecycle *)

Lemma filter_nonempty_existsb {A : Type} (p : A -> bool) (xs : list A) :
  (0 <? Z.of_nat (List.length (filter p xs))) = existsb p xs.
Proof.
  induction xs as [|x xs IH]; simpl; [reflexivity|].
  destruct (p x); simpl; [|exact IH]. apply Z.ltb_lt. lia.
Qed.

Section LifecycleFacts.
Context {rt : JsRuntime}.

Lemma api_check_table_answer (w : World) :
  api_check_table w =
  (mkResponse 200 (Status (existsb isDataCsv (uploadedFile w))),
   withJournal w (List.app (journal w) [SelectUploadedFile])).
Proof.
  unfold api_check_table, tryCatch, selectUploadedFile, sent, withJournal, ret, bindM. simpl.
  rewrite filter_nonempty_existsb. now destruct (existsb isDataCsv (uploadedFile w)).
Qed.

End LifecycleFacts.

(** C9.  [GET /api/check-table] answers [true] if and only if the
    metadata table holds a row whose public id is [data.csv].  The only
    statement it sends is the selection on that table, and its answer is
    the same whatever the catalog says of the ["data"] table.  A world in
    which the metadata row is present and the ["data"] table has been
    dropped can be reached (an upload, then a second upload whose removal
    of the previous blob fails after the table was dropped); there the
    check answers [true] while the table is absent. *)
Theorem check_table_reads_metadata_only :
  forall (rt : JsRuntime),
    (forall w,
        fst (api_check_table w) = mkResponse 200 (Status true)
        <-> exists f, In f (uploadedFile w) /\ publicId f = "data.csv")
    /\ (forall w,
          fst (api_check_table w) = mkResponse 200 (Status true)
          \/ fst (api_check_table w) = mkResponse 200 (Status false))
    /\ (forall w, snd (api_check_table w) =
                  withJournal w (List.app (journal w) [SelectUploadedFile]))
    /\ (forall w table,
          fst (api_check_table (mkWorld (uploadedFile w) table (blobs w) (journal w))) =
          fst (api_check_table w))
    /\ (exists w,
          reachable w
          /\ dataTable w = None
          /\ (exists f, In f (uploadedFile w) /\ publicId f = "data.csv")
          /\ fst (api_check_table w) = mkResponse 200 (Status true)).
Proof.
  intro rt. split; [|split; [|split; [|split]]].
  - intro w. rewrite api_check_table_answer. simpl. split.
    + intro H. assert (E : existsb isDataCsv (uploadedFile w) = true).
      { destruct (existsb isDataCsv (uploadedFile w)); [reflexivity|discriminate]. }
      apply existsb_exists in E. destruct E as (f & Hf & Hid).
      exists f. split; [exact Hf|]. now apply String.eqb_eq.
    + intros (f & Hf & Hid).
      assert (E : existsb isDataCsv (uploadedFile w) = true).
      { apply existsb_exists. exists f. split; [exact Hf|]. now apply String.eqb_eq. }
      now rewrite E.
  - intro w. rewrite api_check_table_answer. simpl.
    destruct (existsb isDataCsv (uploadedFile w)); [now left|now right].
  - intro w. now rewrite api_check_table_answer.
  - intros w table. now rewrite !api_check_table_answer.
  - exists (snd (serve (PostUpload (Node.flagUpload false))
                   (snd (serve (PostUpload (Node.flagUpload true)) emptyWorld)))).
    split; [do 2 apply reachable_serve; apply reachable_empty|].
    split; [reflexivity|].
    split; [eexists; split; [left; reflexivity|reflexivity]|].
    reflexivity.
Qed.

Section UploadFacts.
Context {rt : JsRuntime}.

Lemma no_dataset_no_duplicate (w : World) :
  filter isDataCsv (uploadedFile w) = [] ->
  existsb (fun g => String.eqb (publicId g) "data.csv") (uploadedFile w) = false.
Proof.
  induction (uploadedFile w) as [|f fs IH]; simpl; [reflexivity|].
  unfold isDataCsv at 1. destruct (String.eqb (publicId f) "data.csv"); [discriminate|].
  exact IH.
Qed.

Lemma filter_app_single (fs : list UploadedFileRow) (f : UploadedFileRow) :
  filter isDataCsv fs = [] -> isDataCsv f = true -> filter isDataCsv (List.app fs [f]) = [f].
Proof. intros H Hf. rewrite filter_app, H. simpl. now rewrite Hf. Qed.

(** The raw-SQL server, from a world with no dataset: when every
    collaborator answers, the engine accepts the generated [CREATE TABLE]
    and rejects the generated [INSERT], the handler answers 500 and the
    table it has just created stays in the catalog, empty. *)
Lemma upload_rejected_insert_leaves_table
    (req : UploadRequest) (w : World) (f : File) (url blob analysis createSql insertSql : string) :
  file req = Some f ->
  filter isDataCsv (uploadedFile w) = [] ->
  dataTable w = None ->
  uploadAnswer req = Some ("data.csv", url) ->
  blobAnswer req = Some blob ->
  analysisAnswer req = Some analysis ->
  generateDynamicCreateTableSql "data" (parsedRows req) inferSqlType = Ok createSql ->
  generateDynamicInsertSql "data" (parsedRows req) = Ok insertSql ->
  engineAccepts req createSql = true ->
  engineAccepts req insertSql = false ->
  fst (api_upload req w) = mkResponse 500 (ErrorObject (DatabaseError insertSql))
  /\ dataTable (snd (api_upload req w)) = Some (mkTable (tableColumnNames (parsedRows req)) []).
Proof.
  intros Hfile Hnone Htable Hup Hblob Hai Hcreate Hinsert Hacc Hrej.
  unfold api_upload, tryCatch, selectUploadedFile, cloudinaryUpload, insertUploadedFile,
    executeCreateTable, executeInsert, axios, lift, sent, withJournal, ret, fail, bindM.
  rewrite Hfile. simpl. rewrite Hnone, Hup. simpl.
  rewrite (no_dataset_no_duplicate w Hnone). simpl.
  rewrite (filter_app_single (uploadedFile w)
             (mkUploadedFile "data.csv" url (originalname f)) Hnone eq_refl).
  rewrite Hblob, Hai, Hcreate. cbn -[parseCreateTable parseInsert generateDynamicInsertSql].
  rewrite (parseCreateTable_generated _ _ Hcreate), Hacc. cbn -[parseCreateTable parseInsert generateDynamicInsertSql].
  rewrite Htable. cbn -[parseCreateTable parseInsert generateDynamicInsertSql].
  rewrite Hinsert. cbn -[parseCreateTable parseInsert generateDynamicInsertSql].
  destruct (parseInsert insertSql) as [[[tableName columns] tuples]|];
    [rewrite Hrej|]; split; reflexivity.
Qed.

(** The Sequelize server on the same failure, once the rows are
    pre-processed: [bulkCreate] is wrapped in its own [try], whose
    [catch] drops the table before answering 500. *)
Lemma sequelize_upload_drops_table
    (proc : Sequelize.Process) (req : Sequelize.UploadRequest) (w : World)
    (firstRow : row) (rest : list row) (analysis : string) :
  Sequelize.hasFile req = true ->
  Sequelize.analysisAnswer req = Some analysis ->
  Sequelize.parsedRows req = firstRow :: rest ->
  Sequelize.syncResolves req = true ->
  (exists processed, Sequelize.processedUserData (firstRow :: rest) = Ok processed) ->
  Sequelize.bulkCreateResolves req = false ->
  fst (fst (Sequelize.api_upload proc req w)) =
    mkResponse 500 (ErrorObject (DatabaseError "bulkCreate"))
  /\ dataTable (snd (Sequelize.api_upload proc req w)) = None.
Proof.
  intros Hfile Hai Hrows Hsync (processed & Hprocessed) Hbulk.
  unfold Sequelize.api_upload, tryCatch, Sequelize.sync, Sequelize.bulkCreate,
    Sequelize.drop, axios, ret, fail, bindM.
  rewrite Hfile, Hai, Hrows, Hsync, Hbulk. cbn -[Sequelize.processedUserData].
  destruct (dataTable w) eqn:E; rewrite Hprocessed; cbn; rewrite ?E; split; reflexivity.
Qed.

End UploadFacts.

(** C1, on the raw-SQL server.  The upload of a CSV whose one column
    holds [true] and then [5]: the table is created with a [NUMERIC]
    column, the engine rejects the [INSERT], the handler answers 500, and
    the world it leaves has the ["data"] table in its catalog, empty; no
    [DROP TABLE] was sent.  The specification asks for the table to be dropped
    before the error is surfaced, which the Sequelize server does
    ([sequelize_upload_drops_table]). *)
Theorem upload_keeps_table_after_rejected_insert :
  let request := Node.mixedUpload (rt := Node.runtime) in
  let answered := api_upload request emptyWorld in
  (exists createSql insertSql,
      generateDynamicCreateTableSql "data" (parsedRows request) inferSqlType = Ok createSql
      /\ generateDynamicInsertSql "data" (parsedRows request) = Ok insertSql
      /\ engineAccepts request createSql = true
      /\ engineAccepts request insertSql = false
      /\ fst answered = mkResponse 500 (ErrorObject (DatabaseError insertSql)))
  /\ dataTable (snd answered) = Some (mkTable ["id"; "a"; "createdAt"; "updatedAt"] [])
  /\ ~ In DropTableIfExists (journal (snd answered)).
Proof.
  split; [|split].
  - do 2 eexists. repeat split; reflexivity.
  - reflexivity.
  - vm_compute. intuition discriminate.
Qed.


(* ================================================================== *)
(** * Further properties *)

(** ** The type inferencer: which cells decide *)

(** X1.  A column in which some row holds a non-empty string is a text
    column, whatever the other cells are and whatever the string looks
    like (a number, [true], a date): [inferSqlType] answers
    [VARCHAR(255)] and [inferSequelizeType] answers [TEXT] or [STRING]. *)
Theorem string_cell_forces_text :
  forall (rt : JsRuntime) (columnName : string) (data : list row) (r : row) (s : string),
    In r data -> get r columnName = JString s -> s <> "" ->
    inferSqlType columnName data = "VARCHAR(255)"
    /\ Sequelize.semTypeOf (Sequelize.inferSequelizeType columnName data) = Text.
Proof.
  intros rt columnName data r s Hr Hcell Hs.
  assert (E : hasString (scanColumn columnName data) = true).
  { rewrite scan_hasString. apply existsb_exists. exists r. split; [exact Hr|].
    rewrite Hcell. simpl. now rewrite (eqb_empty_false _ Hs). }
  unfold inferSqlType, Sequelize.inferSequelizeType.
  destruct (scanColumn columnName data) as [[] [] [] []]; simpl in *;
    try discriminate; split; reflexivity.
Qed.

Lemma string_cell_forces_text_witness :
  inferSqlType (rt := Node.runtime) "flag"
    [[("flag", JBoolean true)]; [("flag", JString "false")]] = "VARCHAR(255)"
  /\ Sequelize.semTypeOf
       (Sequelize.inferSequelizeType (rt := Node.runtime) "flag"
          [[("flag", JBoolean true)]; [("flag", JString "false")]]) = Text.
Proof.
  refine (string_cell_forces_text Node.runtime "flag"
            [[("flag", JBoolean true)]; [("flag", JString "false")]]
            [("flag", JString "false")] "false" _ eq_refl _).
  - right. left. reflexivity.
  - discriminate.
Defined.

(** X2.  What [inferSqlType] answers, read off the cells of the column:
    [NUMERIC] exactly when no cell is a non-empty string and some cell is
    a number; [BOOLEAN] exactly when no cell is a non-empty string or a
    number and some cell is a boolean; [TIMESTAMP WITH TIME ZONE] exactly
    when no cell is a non-empty string, a number or a boolean and some
    cell is a Date; [VARCHAR(255)] in every other case. *)
Theorem inferSqlType_by_cells :
  forall (rt : JsRuntime) (columnName : string) (data : list row),
    let some := fun kind : jsval -> bool => existsb (fun r => kind (get r columnName)) data in
    inferSqlType columnName data =
      if some isStringCell then "VARCHAR(255)"
      else if some isNumberCell then "NUMERIC"
      else if some isBooleanCell then "BOOLEAN"
      else if some isDateCell then "TIMESTAMP WITH TIME ZONE"
      else "VARCHAR(255)".
Proof.
  intros rt columnName data some. unfold some.
  pose proof (scan_hasString columnName data) as Hs.
  pose proof (scan_typed columnName data) as Ht.
  unfold inferSqlType.
  destruct (existsb (fun r => isStringCell (get r columnName)) data).
  - destruct (scanColumn columnName data) as [[] [] [] []]; simpl in *;
      try discriminate; reflexivity.
  - destruct (Ht eq_refl) as (Hn & Hb & Hd). rewrite <- Hn, <- Hb, <- Hd.
    destruct (scanColumn columnName data) as [[] [] [] []]; simpl in *;
      try discriminate; reflexivity.
Qed.

(** X3.  Both inference functions ignore the order of the rows and the
    rows whose cell is [null], [undefined] or the empty string. *)
Theorem inference_ignores_order_and_gaps :
  forall (rt : JsRuntime) (columnName : string) (data : list row),
    let filled := filter (fun r => negb (isEmptyValue (get r columnName))) data in
    inferSqlType columnName filled = inferSqlType columnName data
    /\ Sequelize.inferSequelizeType columnName filled =
       Sequelize.inferSequelizeType columnName data
    /\ (forall data', Permutation data data' ->
          inferSqlType columnName data' = inferSqlType columnName data
          /\ Sequelize.inferSequelizeType columnName data' =
             Sequelize.inferSequelizeType columnName data).
Proof.
  intros rt columnName data filled.
  assert (E : scanColumn columnName filled = scanColumn columnName data).
  { apply scanColumn_ext. intros flag Hflag. unfold filled.
    assert (Ez : flag noFlags = false).
    { simpl in Hflag. destruct Hflag as [<-|[<-|[<-|[<-|[]]]]]; reflexivity. }
    apply existsb_filter_same. intros r Hr.
    destruct (isEmptyValue (get r columnName)) eqn:Ee; [|reflexivity].
    rewrite (scanValue_empty _ _ Ee), Ez in Hr. discriminate. }
  split; [|split].
  - unfold inferSqlType. now rewrite E.
  - unfold Sequelize.inferSequelizeType. now rewrite E.
  - intros data' Hp.
    assert (E' : scanColumn columnName data' = scanColumn columnName data).
    { apply scanColumn_ext. intros flag _. symmetry. now apply existsb_Permutation. }
    unfold inferSqlType, Sequelize.inferSequelizeType. now rewrite E'.
Qed.


(** ** The statement generators *)

Lemma prefix_app (s t : string) : String.prefix s (s ++ t) = true.
Proof.
  induction s as [|c s IH]; simpl; [now destruct t|].
  destruct (ascii_dec c c); [exact IH|contradiction].
Qed.

Lemma sanitize_idempotent (s : string) : sanitize (sanitize s) = sanitize s.
Proof. apply sanitize_fixes_identifiers, sanitize_identifier. Qed.

Lemma escapeQuotes_paired (s : string) : quotesPaired (escapeQuotes s) = true.
Proof.
  induction s as [|c s IH]; simpl; [reflexivity|].
  destruct (Ascii.eqb c apostrophe) eqn:E; simpl.
  - exact IH.
  - now rewrite E.
Qed.

Lemma escapeQuotes_injective (s t : string) :
  escapeQuotes s = escapeQuotes t -> s = t.
Proof.
  revert t. induction s as [|c s IH]; intros [|d t]; simpl.
  - reflexivity.
  - destruct (Ascii.eqb d apostrophe); discriminate.
  - destruct (Ascii.eqb c apostrophe); discriminate.
  - destruct (Ascii.eqb_spec c apostrophe) as [->|Hc];
      destruct (Ascii.eqb_spec d apostrophe) as [->|Hd]; intro H.
    + inversion H. f_equal. now apply IH.
    + inversion H. congruence.
    + inversion H. congruence.
    + inversion H. f_equal. now apply IH.
Qed.

Lemma escapeQuotes_plain (s : string) :
  (forall c, In c (list_ascii_of_string s) -> c <> apostrophe) -> escapeQuotes s = s.
Proof.
  induction s as [|c s IH]; simpl; intro H; [reflexivity|].
  destruct (Ascii.eqb_spec c apostrophe) as [->|_].
  - exfalso. now apply (H apostrophe); [left|].
  - f_equal. apply IH. intros d Hd. apply H. now right.
Qed.

(** X4.  The bulk-insert generator raises in two cases only: the table
    name is empty, or some row holds, under a key of the first row, a
    value it has no literal for: an Invalid Date, or an object that
    cannot be converted to a string.  In every other case it returns a
    statement. *)
Theorem insert_raises_exactly_when :
  forall (rt : JsRuntime) (tableName : string) (userData : list row),
    (exists e, generateDynamicInsertSql tableName userData = Throw e)
    <-> (tableName = ""
         \/ exists record column,
              In record userData /\ In column (keys (hd [] userData))
              /\ unprintable (get record column) = true).
Proof.
  intros rt tableName userData. unfold generateDynamicInsertSql.
  destruct (String.eqb_spec tableName "") as [E|E].
  - split; [now left|]. intros _. now eexists.
  - destruct userData as [|firstRecord rest]; cbv zeta.
    + split; [intros [e He]; discriminate|].
      intros [H|(record & column & [] & _)]. contradiction.
    + cbv beta iota. simpl hd.
      destruct (mapM (valuesClause (keys firstRecord)) (firstRecord :: rest))
        as [clauses|e] eqn:Em.
      * split; [intros [e He]; discriminate|].
        intros [H|(record & column & Hr & Hc & Hv)]; [contradiction|]. exfalso.
        assert (T : exists e, valuesClause (keys firstRecord) record = Throw e).
        { apply valuesClause_throws. now exists column. }
        destruct T as [e T].
        destruct (mapM_ok_inv _ _ _ Em record Hr) as [y Hy]. congruence.
      * split; [|intros _; now eexists]. intros _. right.
        apply mapM_throw in Em. destruct Em as (record & Hr & Hv).
        assert (T : exists e, valuesClause (keys firstRecord) record = Throw e)
          by now exists e.
        apply valuesClause_throws in T. destruct T as (column & Hc & Hv').
        now exists record, column.
Qed.

(** X5.  A row that lacks keys of the first row is not an error.  The
    cell of a missing key is what the row inherits under that name: the
    tuple is rendered from the inherited properties, and where nothing
    is inherited under any of the keys it is a tuple of [NULL]s. *)
Theorem missing_keys_render_null :
  forall (rt : JsRuntime) (columnNames : list string) (record : row),
    (forall column, In column columnNames -> ~ In column (keys record)) ->
    valuesClause columnNames record =
      (values <- mapM (fun column =>
                         renderValue (match inherited column with
                                      | Some o => JObject o
                                      | None => JUndefined
                                      end))
                      columnNames ;;
       Ok ("(" ++ join ", " values ++ ", CURRENT_TIMESTAMP, CURRENT_TIMESTAMP)"))
    /\ ((forall column, In column columnNames -> inherited column = None) ->
        valuesClause columnNames record =
        Ok ("(" ++ join ", " (repeat "NULL" (List.length columnNames))
            ++ ", CURRENT_TIMESTAMP, CURRENT_TIMESTAMP)")).
Proof.
  intros rt columnNames record H.
  assert (E : valuesClause columnNames record =
              (values <- mapM (fun column =>
                                 renderValue (match inherited column with
                                              | Some o => JObject o
                                              | None => JUndefined
                                              end))
                              columnNames ;;
               Ok ("(" ++ join ", " values ++ ", CURRENT_TIMESTAMP, CURRENT_TIMESTAMP)"))).
  { unfold valuesClause. f_equal. apply mapM_ext_in. intros column Hc.
    now rewrite (get_missing record column (H column Hc)). }
  split; [exact E|]. intro Hnone. rewrite E.
  rewrite (mapM_pure _ (fun _ => "NULL")).
  - assert (R : map (fun _ : string => "NULL") columnNames =
                repeat "NULL" (List.length columnNames)).
    { clear. induction columnNames as [|c cs IH]; simpl; congruence. }
    now rewrite R.
  - intros column Hc. now rewrite (Hnone column Hc).
Qed.

Lemma missing_keys_render_null_witness :
  valuesClause (rt := Node.runtime) ["a"; "b"] [("z", JString "stray")] =
    Ok "(NULL, NULL, CURRENT_TIMESTAMP, CURRENT_TIMESTAMP)"
  /\ valuesClause (rt := Node.runtime) ["a"; "constructor"] [("z", JString "stray")] =
     Ok "(NULL, 'function Object() { [native code] }', CURRENT_TIMESTAMP, CURRENT_TIMESTAMP)".
Proof.
  split.
  - refine (proj2 (missing_keys_render_null Node.runtime ["a"; "b"]
                     [("z", JString "stray")] _) _).
    + intros column [<-|[<-|[]]] [H|[]]; discriminate H.
    + intros column [<-|[<-|[]]]; reflexivity.
  - refine (eq_trans (proj1 (missing_keys_render_null Node.runtime ["a"; "constructor"]
                               [("z", JString "stray")] _)) eq_refl).
    intros column [<-|[<-|[]]] [H|[]]; discriminate H.
Defined.

(** X6.  The two generators agree on the columns: the column list of the
    [INSERT] names, in the same order, the columns that the
    [CREATE TABLE] defines after the generated key, each definition
    being the name followed by a space and its type. *)
Theorem insert_names_the_created_columns :
  forall (rt : JsRuntime) (firstRow : row) (userData : list row)
         (inferSqlTypeFunction : string -> list row -> string),
    Forall2 (fun name definition => String.prefix (name ++ " ") definition = true)
            (insertColumnList (keys firstRow))
            (tl (ddlColumns firstRow userData inferSqlTypeFunction)).
Proof.
  intros rt firstRow userData infer. unfold insertColumnList, ddlColumns. cbn [tl].
  apply Forall2_app.
  - induction (keys firstRow) as [|k ks IH]; cbn [map]; constructor; [|exact IH].
    cbv beta zeta. rewrite <- (append_assoc' (quoted (sanitize k)) " "). apply prefix_app.
  - repeat constructor.
Qed.

(** X7.  Quoting a string for SQL loses nothing and opens nothing: two
    different strings get different escaped texts, every single quote of
    the escaped text is one of a pair, and a string without a single
    quote is left as it is. *)
Theorem escaping_is_faithful :
  forall s t : string,
    (escapeQuotes s = escapeQuotes t -> s = t)
    /\ (sqlQuoted (escapeQuotes s) = sqlQuoted (escapeQuotes t) -> s = t)
    /\ quotesPaired (escapeQuotes s) = true
    /\ ((forall c, In c (list_ascii_of_string s) -> c <> apostrophe) -> escapeQuotes s = s).
Proof.
  intros s t. split; [apply escapeQuotes_injective|].
  split; [|split; [apply escapeQuotes_paired|apply escapeQuotes_plain]].
  unfold sqlQuoted. intro H. inversion H as [H'].
  apply escapeQuotes_injective.
  assert (G : forall a b : string,
             a ++ String apostrophe EmptyString = b ++ String apostrophe EmptyString -> a = b).
  { induction a as [|c a IH]; intros [|d b] E; simpl in E.
    - reflexivity.
    - inversion E. now destruct b.
    - inversion E. now destruct a.
    - inversion E. f_equal. now apply IH. }
  now apply G.
Qed.

(** X8.  Sanitizing is idempotent, so the pagination reader, which
    sanitizes the column names it reads from the catalog, selects the
    columns of a table created by the DDL generator under the very names
    the generator gave them. *)
Theorem reader_selects_the_created_names :
  forall (featureNames : list string),
    (forall feature, sanitize (sanitize feature) = sanitize feature)
    /\ selectClauseOf (map sanitize featureNames) =
       join ", " (map (fun feature => quoted (sanitize feature)) featureNames).
Proof.
  intro featureNames. split; [apply sanitize_idempotent|].
  unfold selectClauseOf. f_equal. rewrite map_map. apply map_ext.
  intro feature. now rewrite sanitize_idempotent.
Qed.

(** ** The pagination reader: pages, bounds, refusals *)

Lemma pages_concat {A : Type} (size : nat) :
  (0 < size)%nat ->
  forall (n : nat) (l : list A),
    (List.length l <= n * size)%nat ->
    List.concat (map (fun i => firstn size (skipn (i * size) l)) (seq 0 n)) = l.
Proof.
  intros Hsize n. induction n as [|n IH]; intros l Hl.
  - destruct l; [reflexivity|simpl in Hl; lia].
  - cbn [seq]. rewrite <- seq_shift, map_cons, map_map, concat_cons.
    change (skipn (0 * size) l) with l.
    transitivity (List.app (firstn size l) (skipn size l)); [|apply firstn_skipn].
    f_equal.
    transitivity (List.concat (map (fun i => firstn size (skipn (i * size) (skipn size l)))
                                   (seq 0 n)));
      [|apply IH; rewrite length_skipn; lia].
    f_equal. apply map_ext. intro i. f_equal.
    rewrite skipn_skipn. f_equal. lia.
Qed.

Section ReaderBounds.
Context {rt : JsRuntime}.

(** The reader on a table the engine refuses to page through: the text
    of a negative double is no unsigned integer. *)
Lemma api_data_refused (q : PageQuery) (w : World) (t : Table) :
  dataTable w = Some t ->
  desiredColumnsOf (columnNames t) <> [] ->
  let pageNumber := orDefault (parseInt (page q)) 1 in
  let pageSize := orDefault (parseInt (limit q)) 10 in
  let offset := times (minusOne pageNumber) pageSize in
  isNegative offset = true \/ isNegative pageSize = true ->
  fst (api_data q w) =
  mkResponse 500
    (ErrorObject
       (DatabaseError (rowsQueryOf (selectClauseOf (desiredColumnsOf (columnNames t)))
                                   "data" offset pageSize))).
Proof.
  intros H Hcols pageNumber pageSize offset Hneg.
  destruct (api_data_present q w t H) as (r & rest & Hr & _ & Hpage).
  destruct (Hpage Hcols) as [_ ->]. rewrite Hr. cbn [fst].
  fold pageNumber pageSize. fold offset.
  destruct Hneg as [Hneg|Hneg]; rewrite (integerLiteral_negative _ Hneg);
    [reflexivity|].
  now destruct (integerLiteral (showDouble offset)).
Qed.

(** The page number [k] and the size [size] on exact numbers. *)
Lemma page_offset (k size : Z) :
  1 <= k -> 0 < size -> (k - 1) * size < 2 ^ 53 ->
  times (minusOne (orDefault (Integer k) 1)) (orDefault (Integer size) 10) =
    Integer ((k - 1) * size)
  /\ orDefault (Integer size) 10 = Integer size.
Proof.
  intros Hk Hs Hb.
  assert (Ek : orDefault (Integer k) 1 = Integer k) by (destruct k; [lia|reflexivity..]).
  assert (Es : orDefault (Integer size) 10 = Integer size)
    by (destruct size; [lia|reflexivity..]).
  rewrite Ek, Es. split; [|reflexivity]. unfold minusOne.
  rewrite roundToDouble_safe by nia. unfold times. apply roundToDouble_safe. nia.
Qed.

End ReaderBounds.

(** X9.  Reading the pages 1 to [lastPage] of a table with a fixed page
    size returns every record exactly once, in the order of the table:
    the pages put end to end are the records, each with the cells of the
    selected columns.  The page size is an integer up to 2^53, the table
    has the selected columns and fewer than 2^53 records. *)
Theorem pages_partition_the_records :
  forall (rt : JsRuntime) (w : World) (t : Table) (size : Z) (query : Z -> PageQuery),
    dataTable w = Some t ->
    desiredColumnsOf (columnNames t) <> [] ->
    0 < size <= 2 ^ 53 ->
    Z.of_nat (List.length (records t)) < 2 ^ 53 ->
    let columns := map sanitize (desiredColumnsOf (columnNames t)) in
    Forall (fun c => In c (columnNames t)) ("id" :: columns) ->
    let lastPage := ceilDiv (Z.of_nat (List.length (records t))) size in
    (forall k, 1 <= k <= lastPage ->
       parseInt (page (query k)) = Integer k /\ parseInt (limit (query k)) = Integer size) ->
    List.concat (map (fun k => dataOf (fst (api_data (query (Z.of_nat k)) w)))
                (seq 1 (Z.to_nat lastPage))) = map (project columns) (records t).
Proof.
  intros rt w t size query Ht Hcols Hsize Hcount columns Hall lastPage Hq.
  pose proof (ceilDiv_bounds (Z.of_nat (List.length (records t))) size ltac:(lia)) as Hb.
  fold lastPage in Hb.
  assert (Hlast : 0 <= lastPage) by nia.
  rewrite <- seq_shift, map_map.
  transitivity (List.concat
                  (map (fun i => map (project columns)
                                   (firstn (Z.to_nat size)
                                      (skipn (i * Z.to_nat size) (records t))))
                       (seq 0 (Z.to_nat lastPage)))).
  - f_equal. apply map_ext_in. intros i Hi. apply in_seq in Hi.
    destruct (Hq (Z.of_nat (S i)) ltac:(lia)) as [Hp Hl].
    assert (Hoff : (Z.of_nat (S i) - 1) * size < 2 ^ 53) by nia.
    destruct (page_offset (Z.of_nat (S i)) size ltac:(lia) ltac:(lia) Hoff) as [Eo Es].
    rewrite (api_data_page (query (Z.of_nat (S i))) w t
               ((Z.of_nat (S i) - 1) * size) size Ht Hcols);
      rewrite ?Hp, ?Hl; try assumption; try lia; try nia.
    unfold dataOf. cbn [payload]. fold columns. f_equal. f_equal. f_equal. nia.
  - rewrite <- (map_map (fun i => firstn (Z.to_nat size)
                                    (skipn (i * Z.to_nat size) (records t)))
                        (map (project columns))).
    rewrite <- concat_map. f_equal. apply pages_concat; nia.
Qed.

(** Five records read two by two: three pages. *)
Lemma pages_partition_the_records_witness :
  let t := mkTable (rt := Node.runtime) ["id"; "n"; "createdAt"; "updatedAt"]
             (numbered 1 (repeat [("n", Written (SqlWord "true"))] 5)) in
  let w := mkWorld [] (Some t) [] [] in
  List.concat
    (map (fun k => dataOf (fst (api_data (mkPageQuery (Some (string_of_Z (Z.of_nat k)))
                                                      (Some "2")) w)))
         (seq 1 3)) = map (project ["id"; "n"]) (records t).
Proof.
  intros t w.
  refine (pages_partition_the_records Node.runtime w t 2
            (fun k => mkPageQuery (Some (string_of_Z k)) (Some "2")) eq_refl _ _ _ _ _).
  - discriminate.
  - lia.
  - vm_compute. reflexivity.
  - repeat constructor; simpl; tauto.
  - intros k Hk.
    assert (E : ceilDiv (Z.of_nat (List.length (records t))) 2 = 3) by reflexivity.
    rewrite E in Hk.
    assert (C : k = 1 \/ k = 2 \/ k = 3) by lia.
    destruct C as [ -> | [ -> | -> ] ]; split; reflexivity.
Defined.

(** X10.  A page holds at most [pageSize] records: as many as are left
    from the offset on.  A page past the last one is an empty page with
    status 200, not an error.  The offset and the size are integers from
    0 to 2^53, the table has the selected columns and fewer than 2^53
    records. *)
Theorem page_length :
  forall (rt : JsRuntime) (q : PageQuery) (w : World) (t : Table) (o s : Z),
    dataTable w = Some t ->
    desiredColumnsOf (columnNames t) <> [] ->
    let pageNumber := orDefault (parseInt (page q)) 1 in
    let pageSize := orDefault (parseInt (limit q)) 10 in
    let columns := map sanitize (desiredColumnsOf (columnNames t)) in
    times (minusOne pageNumber) pageSize = Integer o ->
    pageSize = Integer s ->
    0 <= o <= 2 ^ 53 -> 0 <= s <= 2 ^ 53 ->
    Z.of_nat (List.length (records t)) < 2 ^ 53 ->
    Forall (fun c => In c (columnNames t)) ("id" :: columns) ->
    code (fst (api_data q w)) = 200
    /\ List.length (dataOf (fst (api_data q w))) =
       Nat.min (Z.to_nat s) (List.length (records t) - Z.to_nat o)
    /\ (Z.of_nat (List.length (records t)) <= o -> dataOf (fst (api_data q w)) = []).
Proof.
  intros rt q w t o s Ht Hcols pageNumber pageSize columns Eo Es Ho Hs Hcount Hall.
  rewrite (api_data_page q w t o s Ht Hcols Eo Es Ho Hs Hcount Hall).
  unfold dataOf. cbn [payload code]. split; [reflexivity|]. split.
  - now rewrite length_map, length_firstn, length_skipn.
  - intro H. rewrite skipn_all2 by lia. now rewrite firstn_nil.
Qed.

Lemma page_length_witness :
  let w := mkWorld (rt := Node.runtime) []
             (Some (mkTable ["id"; "n"; "createdAt"; "updatedAt"]
                      (numbered 1 (repeat [("n", Written (SqlWord "true"))] 5))))
             [] [] in
  let q := mkPageQuery (Some "9") (Some "2") in
  code (fst (api_data q w)) = 200 /\ dataOf (fst (api_data q w)) = [].
Proof.
  intros w q.
  destruct (page_length Node.runtime q w
              (mkTable ["id"; "n"; "createdAt"; "updatedAt"]
                 (numbered 1 (repeat [("n", Written (SqlWord "true"))] 5)))
              16 2 eq_refl ltac:(discriminate) eq_refl eq_refl ltac:(lia) ltac:(lia)
              ltac:(vm_compute; reflexivity)
              ltac:(repeat constructor; simpl; tauto)) as (Hcode & _ & Hempty).
  split; [exact Hcode|]. apply Hempty. vm_compute. discriminate.
Defined.

(** X11.  A page query that gives a negative offset or a negative page
    size (a page number below 1 that is not 0, or a negative limit) is
    not validated by the handler: the rows query is sent with the minus
    sign in its text, the engine refuses it, and the answer is 500 with
    the engine's error, although the table exists. *)
Theorem negative_page_is_refused :
  forall (rt : JsRuntime) (q : PageQuery) (w : World) (t : Table),
    dataTable w = Some t ->
    desiredColumnsOf (columnNames t) <> [] ->
    let pageNumber := orDefault (parseInt (page q)) 1 in
    let pageSize := orDefault (parseInt (limit q)) 10 in
    let offset := times (minusOne pageNumber) pageSize in
    isNegative offset = true \/ isNegative pageSize = true ->
    fst (api_data q w) =
    mkResponse 500
      (ErrorObject
         (DatabaseError (rowsQueryOf (selectClauseOf (desiredColumnsOf (columnNames t)))
                                     "data" offset pageSize))).
Proof.
  intros rt q w t Ht Hcols pageNumber pageSize offset Hneg.
  now apply api_data_refused.
Qed.

Lemma negative_page_is_refused_witness :
  let w := mkWorld (rt := Node.runtime) []
             (Some (mkTable ["id"; "n"; "createdAt"; "updatedAt"] [])) [] [] in
  code (fst (api_data (mkPageQuery (Some "-1") None) w)) = 500.
Proof.
  intro w.
  rewrite (negative_page_is_refused Node.runtime (mkPageQuery (Some "-1") None) w
             (mkTable ["id"; "n"; "createdAt"; "updatedAt"] []) eq_refl
             ltac:(discriminate) ltac:(left; reflexivity)).
  reflexivity.
Defined.

(** X12.  [generatePaginatedDataQuery] raises without sending anything
    when the table name is empty, and raises after the catalog query
    alone when the catalog lists no column for the name besides the two
    audit columns: an unknown table, or a table made of audit columns. *)
Theorem paginated_query_refuses :
  forall (rt : JsRuntime) (tableName : string) (offset limit : double) (w : World),
    let listed := match dataTable w with
                  | Some t => if String.eqb tableName "data" then columnNames t else []
                  | None => []
                  end in
    (tableName = "" ->
     generatePaginatedDataQuery tableName offset limit w =
     (inr (Thrown (Error "Table name must be provided.")), w))
    /\ (tableName <> "" -> desiredColumnsOf listed = [] ->
        generatePaginatedDataQuery tableName offset limit w =
        (inr (Thrown (Error ("No selectable columns found for table " ++ quoted tableName
                               ++ " after exclusion."))),
         withJournal w (List.app (journal w) [SelectColumnNames tableName])))
    /\ (forall c, In c (desiredColumnsOf listed) <->
                  In c listed /\ c <> "createdAt" /\ c <> "updatedAt").
Proof.
  intros rt tableName offset limit w listed. split; [|split].
  - intros ->. reflexivity.
  - intros Hname Hnone.
    unfold generatePaginatedDataQuery, selectColumnNames, sent, withJournal, ret, fail, bindM.
    rewrite (eqb_empty_false _ Hname). reader_steps. fold listed. now rewrite Hnone.
  - intro c. unfold desiredColumnsOf. rewrite filter_In. simpl.
    destruct (String.eqb_spec c "createdAt"), (String.eqb_spec c "updatedAt");
      simpl; intuition congruence.
Qed.


(** *** The tuples of the insert *)

Lemma scan_app (s t : string) (state : scanning) :
  scan (s ++ t) state =
  (List.app (fst (scan s state)) (fst (scan t (snd (scan s state)))),
   snd (scan t (snd (scan s state)))).
Proof.
  revert state. induction s as [|c s IH]; intro state.
  - simpl. now destruct (scan t state).
  - cbn [append scan]. destruct (scanChar state c) as [tokens state'].
    rewrite IH. destruct (scan s state') as [tokens' final]. cbn [fst snd].
    destruct (scan t final) as [tokens'' final']. cbn [fst snd].
    now rewrite app_assoc.
Qed.

Lemma scanChar_delimiter (state : scanning) (c : ascii) :
  isDelimiter c = true ->
  match state with InString _ => False | _ => True end ->
  scanChar state c = (List.app (pending state) (fst (scanStart c)), snd (scanStart c)).
Proof.
  unfold isDelimiter. intros H Hs. apply andb_true_iff in H. destruct H as [He Ha].
  apply negb_true_iff in Ha.
  destruct state as [|w|s|s]; cbn [scanChar pending List.app].
  - now destruct (scanStart c).
  - now rewrite He.
  - contradiction.
  - now rewrite Ha.
Qed.

(** A bare word is scanned as one word. *)
Lemma scan_word_from (w p : string) :
  noneOf endsWord w = true -> scan w (InWord p) = ([], InWord (p ++ w)).
Proof.
  revert p. induction w as [|c w IH]; intros p H.
  - cbn [scan]. now rewrite append_empty.
  - cbn [noneOf] in H. apply andb_true_iff in H. destruct H as [Hc Hw].
    apply negb_true_iff in Hc. cbn [scan scanChar]. rewrite Hc.
    rewrite (IH _ Hw). cbn [List.app]. rewrite append_assoc'. reflexivity.
Qed.

Lemma scanStart_word (c : ascii) :
  endsWord c = false -> scanStart c = ([], InWord (String c EmptyString)).
Proof.
  unfold endsWord, scanStart. intro H.
  repeat (apply orb_false_iff in H; destruct H as [H ?]).
  repeat match goal with E : _ = false |- _ => rewrite E; clear E end. reflexivity.
Qed.

Lemma scan_word (w : string) :
  isWord w = true -> scan w Between = ([], InWord w).
Proof.
  unfold isWord. intro H. apply andb_true_iff in H. destruct H as [Hne H].
  destruct w as [|c w]; [discriminate|]. cbn [noneOf] in H.
  apply andb_true_iff in H. destruct H as [Hc Hw]. apply negb_true_iff in Hc.
  cbn [scan scanChar]. rewrite (scanStart_word c Hc), (scan_word_from w _ Hw).
  reflexivity.
Qed.

(** A string constant with its quotes doubled is scanned as the string. *)
Lemma scan_escaped_from (s p : string) :
  scan (escapeQuotes s ++ String apostrophe EmptyString) (InString p) =
  ([], AfterQuote (p ++ s)).
Proof.
  revert p. induction s as [|c s IH]; intro p.
  - cbn [escapeQuotes append scan scanChar]. rewrite Ascii.eqb_refl, append_empty. reflexivity.
  - cbn [escapeQuotes]. destruct (Ascii.eqb_spec c apostrophe) as [->|Hc].
    + cbn [append scan scanChar]. rewrite !Ascii.eqb_refl. cbn [scanChar].
      rewrite !Ascii.eqb_refl. rewrite IH.
      cbn [List.app]. rewrite append_assoc'. reflexivity.
    + cbn [append scan scanChar].
      replace (Ascii.eqb c apostrophe) with false by (symmetry; now apply Ascii.eqb_neq).
      rewrite IH. cbn [List.app]. rewrite append_assoc'. reflexivity.
Qed.

Lemma scan_quoted (s : string) :
  scan (sqlQuoted (escapeQuotes s)) Between = ([], AfterQuote s).
Proof.
  unfold sqlQuoted. cbn [append scan scanChar]. unfold scanStart.
  rewrite Ascii.eqb_refl. rewrite scan_escaped_from. reflexivity.
Qed.


Section InsertReading.
Context {rt : JsRuntime}.

Lemma literalOf_tokenFor (value : jsval) :
  literalOf (tokenFor value) = Some (writtenFor value).
Proof.
  unfold tokenFor.
  destruct value as [| |s|n|b|[t|]|o]; cbn [writtenFor]; try reflexivity.
  - now destruct (String.eqb s "").
  - unfold wordLiteral. destruct (String.eqb_spec (String_of_number n) "NULL") as [E|E].
    + reflexivity.
    + cbn [literalOf]. unfold wordLiteral.
      now replace (String.eqb (String_of_number n) "NULL") with false
        by (symmetry; now apply String.eqb_neq).
  - now destruct b.
  - now destruct (String_of_object o).
Qed.

Lemma tokenFor_value (value : jsval) :
  match tokenFor value with Quoted _ | Word _ => True | _ => False end.
Proof. unfold tokenFor. now destruct (writtenFor value). Qed.

(** The text of a value that reads back is scanned as its token, held
    back until the delimiter that follows. *)
Lemma scan_renderValue (value : jsval) (text : string) :
  readsBack value = true -> renderValue value = Ok text ->
  exists state,
    scan text Between = ([], state)
    /\ pending state = [tokenFor value]
    /\ match state with InString _ => False | _ => True end.
Proof.
  intros Hread Hrender. unfold renderValue in Hrender.
  destruct value as [| |s|n|b|[t|]|o]; cbn [isEmptyValue] in Hrender.
  - inversion Hrender. now exists (InWord "NULL").
  - inversion Hrender. now exists (InWord "NULL").
  - unfold tokenFor. cbn [writtenFor]. destruct (String.eqb s "").
    + inversion Hrender. now exists (InWord "NULL").
    + inversion Hrender. exists (AfterQuote s). now rewrite scan_quoted.
  - cbn [String_] in Hrender. inversion Hrender. cbn [readsBack] in Hread.
    exists (InWord (String_of_number n)). rewrite (scan_word _ Hread).
    split; [reflexivity|]. split; [|exact I]. unfold tokenFor. cbn [writtenFor pending].
    unfold wordLiteral. destruct (String.eqb_spec (String_of_number n) "NULL") as [->|_];
      reflexivity.
  - cbn [String_] in Hrender. inversion Hrender.
    destruct b; [now exists (InWord "true")|now exists (InWord "false")].
  - inversion Hrender. cbn [readsBack] in Hread. exists (AfterQuote (toISOString t)).
    rewrite <- (escapeQuotes_plain (toISOString t)) at 1.
    + now rewrite scan_quoted.
    + clear - Hread. induction (toISOString t) as [|c s IH]; [intros c []|].
      cbn [noneOf] in Hread. apply andb_true_iff in Hread. destruct Hread as [Hc Hs].
      intros d [<-|Hd]; [|now apply IH].
      apply negb_true_iff in Hc. intros ->. now rewrite Ascii.eqb_refl in Hc.
  - discriminate Hread.
  - cbn [String_] in Hrender. cbn [readsBack unprintable] in Hread.
    unfold tokenFor. cbn [writtenFor].
    destruct (String_of_object o) as [text'|]; [|discriminate Hread].
    cbn [primitive bind] in Hrender. inversion Hrender.
    exists (AfterQuote text'). now rewrite scan_quoted.
Qed.

(** A held-back token followed by a delimiter. *)
Lemma scan_value_then (text rest : string) (state : scanning) (c : ascii) :
  scan text Between = ([], state) ->
  match state with InString _ => False | _ => True end ->
  isDelimiter c = true ->
  scan (text ++ String c rest) Between =
  (List.app (pending state)
            (List.app (fst (scanStart c)) (fst (scan rest (snd (scanStart c))))),
   snd (scan rest (snd (scanStart c)))).
Proof.
  intros Hscan Hstate Hc. rewrite scan_app, Hscan. cbn [fst snd List.app scan].
  rewrite (scanChar_delimiter state c Hc Hstate).
  destruct (scan rest (snd (scanStart c))) as [tokens final]. cbn [fst snd].
  now rewrite app_assoc.
Qed.

Lemma scan_cons (c : ascii) (rest : string) (state : scanning) :
  scan (String c rest) state =
  (List.app (fst (scanChar state c)) (fst (scan rest (snd (scanChar state c)))),
   snd (scan rest (snd (scanChar state c)))).
Proof.
  cbn [scan]. destruct (scanChar state c) as [tokens state']. cbn [fst snd].
  now destruct (scan rest state').
Qed.

Lemma scan_space (rest : string) :
  scan (String " "%char rest) Between = scan rest Between.
Proof.
  rewrite scan_cons. change (scanChar Between " "%char) with (@nil token, Between).
  cbn [fst snd List.app]. now destruct (scan rest Between).
Qed.

Lemma scan_newline (rest : string) :
  scan (nl ++ rest) Between = scan rest Between.
Proof.
  change (nl ++ rest) with (String "010"%char rest). rewrite scan_cons.
  change (scanChar Between "010"%char) with (@nil token, Between).
  cbn [fst snd List.app]. now destruct (scan rest Between).
Qed.

(** The values of a tuple, each followed by a comma. *)
Lemma scan_values (values : list jsval) (texts : list string) (rest : string) :
  Forall2 (fun value text => renderValue value = Ok text /\ readsBack value = true)
          values texts ->
  values <> [] ->
  scan (join ", " texts ++ ", " ++ rest) Between =
  (List.app (flat_map (fun value => [tokenFor value; Comma]) values)
            (fst (scan rest Between)),
   snd (scan rest Between)).
Proof.
  intros H Hne. induction H as [|value text values texts [Hrender Hread] Hrest IH];
    [now elim Hne|]. clear Hne.
  destruct (scan_renderValue value text Hread Hrender) as (state & Hscan & Hpending & Hstate).
  assert (Hstep : forall more,
            scan (text ++ ", " ++ more) Between =
            (tokenFor value :: Comma :: fst (scan more Between), snd (scan more Between))).
  { intro more. change (", " ++ more) with (String ","%char (String " "%char more)).
    rewrite (scan_value_then text _ state ","%char Hscan Hstate eq_refl), Hpending.
    change (scanStart ","%char) with ([Comma], Between). cbn [fst snd List.app].
    now rewrite scan_space. }
  inversion Hrest as [|value' text' values' texts' Hhead Htail]; subst.
  - cbn [join String.concat flat_map List.app]. apply Hstep.
  - specialize (IH ltac:(discriminate)).
    change (join ", " (text :: text' :: texts'))
      with (text ++ ", " ++ join ", " (text' :: texts')).
    rewrite !append_assoc'.
    change (", " ++ join ", " (text' :: texts') ++ ", " ++ rest)
      with (", " ++ (join ", " (text' :: texts') ++ ", " ++ rest)).
    rewrite Hstep, IH. reflexivity.
Qed.

(** A tuple, and what follows it. *)
Lemma scan_valuesClause (columns : list string) (r : row) (clause rest : string) :
  columns <> [] ->
  (forall column, In column columns -> readsBack (get r column) = true) ->
  valuesClause columns r = Ok clause ->
  scan (clause ++ rest) Between =
  (List.app (tupleTokens (map (get r) columns)) (fst (scan rest Between)),
   snd (scan rest Between)).
Proof.
  intros Hne Hread Hclause. unfold valuesClause in Hclause.
  destruct (mapM (fun column => renderValue (get r column)) columns) as [texts|] eqn:Em;
    [|discriminate]. cbn [bind] in Hclause. injection Hclause as <-.
  assert (H : Forall2 (fun value text => renderValue value = Ok text /\ readsBack value = true)
                      (map (get r) columns) texts).
  { apply mapM_ok_Forall2 in Em. clear Hne. induction Em as [|column text columns texts E _ IH];
      [constructor|]. cbn [map]. constructor.
    - split; [exact E|]. apply Hread. now left.
    - apply IH. intros c Hc. apply Hread. now right. }
  transitivity (scan (String "("%char
                        (join ", " texts ++ ", "
                         ++ ("CURRENT_TIMESTAMP, CURRENT_TIMESTAMP)" ++ rest))) Between).
  { f_equal. cbn [append]. f_equal. rewrite !append_assoc'. reflexivity. }
  rewrite scan_cons. change (scanChar Between "("%char) with ([Open], Between).
  cbn [fst snd].
  rewrite (scan_values _ _ _ H) by (destruct columns; [now elim Hne|discriminate]).
  rewrite scan_app.
  change (scan "CURRENT_TIMESTAMP, CURRENT_TIMESTAMP)" Between)
    with ([Word "CURRENT_TIMESTAMP"; Comma; Word "CURRENT_TIMESTAMP"; Close], Between).
  cbn [fst snd]. unfold tupleTokens. cbn [List.app]. rewrite <- !app_assoc. reflexivity.
Qed.

(** The tuples of the statement. *)
Lemma scan_tuples (columns : list string) (rows : list row) (clauses : list string) :
  columns <> [] ->
  (forall r column, In r rows -> In column columns -> readsBack (get r column) = true) ->
  mapM (valuesClause columns) rows = Ok clauses ->
  scan (join ("," ++ nl) clauses ++ ";") Between =
  (tuplesTokens (map (fun r => map (get r) columns) rows), Between).
Proof.
  intros Hne Hread Hm. apply mapM_ok_Forall2 in Hm.
  induction Hm as [|r clause rows clauses Hclause Hrest IH]; [reflexivity|].
  assert (Hr : forall column, In column columns -> readsBack (get r column) = true)
    by (intros column Hc; apply Hread; [now left|exact Hc]).
  specialize (IH ltac:(intros r' column Hr' Hc; apply Hread; [now right|exact Hc])).
  inversion Hrest as [|r' clause' rows' clauses' Hhead Htail]; subst.
  - cbn [join String.concat map tuplesTokens].
    rewrite (scan_valuesClause columns r clause ";" Hne Hr Hclause). reflexivity.
  - change (join ("," ++ nl) (clause :: clause' :: clauses'))
      with (clause ++ ("," ++ nl) ++ join ("," ++ nl) (clause' :: clauses')).
    rewrite !append_assoc'.
    rewrite (scan_valuesClause columns r clause _ Hne Hr Hclause).
    change ("," ++ nl ++ join ("," ++ nl) (clause' :: clauses') ++ ";")
      with (String ","%char (nl ++ (join ("," ++ nl) (clause' :: clauses') ++ ";"))).
    rewrite scan_cons. change (scanChar Between ","%char) with ([Comma], Between).
    cbn [fst snd]. rewrite scan_newline, IH. reflexivity.
Qed.

(** *** From the tokens to the tuples *)

Lemma tuplesOf_values (values : list jsval) (read : list literal) (rest : list token)
    (tuples : list (list literal)) :
  tuplesOf (List.app (flat_map (fun value => [tokenFor value; Comma]) values) rest)
           (BeforeValue read) tuples =
  tuplesOf rest (BeforeValue (List.app (rev (map writtenFor values)) read)) tuples.
Proof.
  revert read. induction values as [|value values IH]; intro read; [reflexivity|].
  cbn [flat_map List.app map rev]. pose proof (literalOf_tokenFor value) as Hl.
  pose proof (tokenFor_value value) as Ht.
  destruct (tokenFor value) as [| | | |text|w]; try contradiction;
    cbn [tuplesOf]; rewrite Hl; cbn [tuplesOf]; rewrite IH, <- app_assoc; reflexivity.
Qed.

Lemma tuplesOf_tuple (values : list jsval) (rest : list token)
    (tuples : list (list literal)) :
  tuplesOf (List.app (tupleTokens values) rest) BeforeTuple tuples =
  tuplesOf rest AfterTuple
           (List.app (map writtenFor values) [auditLiteral; auditLiteral] :: tuples).
Proof.
  unfold tupleTokens. cbn [List.app tuplesOf]. rewrite <- app_assoc.
  rewrite tuplesOf_values. cbn [List.app tuplesOf literalOf].
  change (wordLiteral "CURRENT_TIMESTAMP") with auditLiteral.
  cbn [rev]. rewrite app_nil_r, rev_involutive, <- app_assoc. reflexivity.
Qed.

Lemma tuplesOf_tuples (valuess : list (list jsval)) (tuples : list (list literal)) :
  valuess <> [] ->
  tuplesOf (tuplesTokens valuess) BeforeTuple tuples =
  Some (List.app (rev tuples)
                 (map (fun values => List.app (map writtenFor values)
                                              [auditLiteral; auditLiteral]) valuess)).
Proof.
  intro Hne. revert tuples. induction valuess as [|values valuess IH]; [now elim Hne|].
  intro tuples. destruct valuess as [|values' valuess].
  - cbn [tuplesTokens map]. rewrite tuplesOf_tuple. cbn [tuplesOf rev].
    reflexivity.
  - change (tuplesTokens (values :: values' :: valuess))
      with (List.app (tupleTokens values) (Comma :: tuplesTokens (values' :: valuess))).
    rewrite tuplesOf_tuple. cbn [tuplesOf]. rewrite IH by discriminate.
    cbn [rev map]. rewrite <- app_assoc. reflexivity.
Qed.

(** The engine reads, in the generated [INSERT], the table ["data"], the
    sanitized keys of the first row with the two audit columns, and one
    tuple per row: the literal of each cell, when every cell reads
    back. *)
Lemma parseInsert_generated (first : row) (rest : list row) (text : string) :
  keys first <> [] ->
  (forall r column, In r (first :: rest) -> In column (keys first) ->
                    readsBack (get r column) = true) ->
  generateDynamicInsertSql "data" (first :: rest) = Ok text ->
  parseInsert text =
  Some ("data",
        List.app (map sanitize (keys first)) ["createdAt"; "updatedAt"],
        map (fun r => List.app (map (fun column => writtenFor (get r column)) (keys first))
                               [auditLiteral; auditLiteral])
            (first :: rest)).
Proof.
  intros Hkeys Hread. unfold generateDynamicInsertSql.
  change (String.eqb "data" "") with false. cbv iota zeta.
  destruct (mapM (valuesClause (keys first)) (first :: rest)) as [clauses|] eqn:Em;
    [|discriminate]. cbn [bind]. intro H.
  assert (E : "INSERT INTO " ++ quoted "data" ++ " (" ++ join ", " (insertColumnList (keys first))
              ++ ")" ++ nl ++ "VALUES" ++ nl ++ join ("," ++ nl) clauses ++ ";" = text)
    by congruence.
  clear H. rewrite <- E. clear E text.
  assert (Ecols : insertColumnList (keys first) =
                  map quoted (List.app (map sanitize (keys first)) ["createdAt"; "updatedAt"])).
  { unfold insertColumnList. rewrite map_app, map_map. reflexivity. }
  assert (Hnames : Forall (fun name => noneOf isDoubleQuote name = true)
                          (List.app (map sanitize (keys first)) ["createdAt"; "updatedAt"])).
  { apply Forall_app. split; [|repeat constructor].
    apply Forall_forall. intros name Hn. apply in_map_iff in Hn. destruct Hn as (k & <- & _).
    apply sanitize_noneOf, identChar_not_quote. }
  unfold parseInsert. rewrite expect_app.
  rewrite (identifierList_quoted "data" _ [] eq_refl).
  change (identifierList (" (" ++ join ", " (insertColumnList (keys first)) ++ ")" ++ nl
                          ++ "VALUES" ++ nl ++ join ("," ++ nl) clauses ++ ";") None ["data"])
    with (identifierList ("(" ++ join ", " (insertColumnList (keys first)) ++ ")" ++ nl
                          ++ "VALUES" ++ nl ++ join ("," ++ nl) clauses ++ ";") None ["data"]).
  rewrite identifierList_end by reflexivity. cbn [rev List.app].
  rewrite expect_app, Ecols, identifierList_join by (assumption || reflexivity).
  cbn [rev List.app].
  change (")" ++ nl ++ "VALUES" ++ nl ++ join ("," ++ nl) clauses ++ ";")
    with ((")" ++ nl ++ "VALUES" ++ nl) ++ (join ("," ++ nl) clauses ++ ";")).
  rewrite expect_app. unfold tokensOf.
  rewrite (scan_tuples (keys first) (first :: rest) clauses Hkeys Hread Em).
  rewrite tuplesOf_tuples by discriminate. cbn [rev List.app].
  rewrite map_map. do 2 f_equal. apply map_ext. intro r. now rewrite map_map.
Qed.

End InsertReading.

(** ** The dataset lifecycle: what every request keeps true *)

(** Case analysis along the steps of a handler: the innermost
    scrutinee first, one collaborator's answer at a time. *)
Ltac case_step :=
  match goal with
  | |- context [match ?x with _ => _ end] =>
      lazymatch x with
      | context [match _ with _ => _ end] => fail
      | _ => destruct x eqn:?
      end
  end.

Ltac handler_steps :=
  cbn -[generateDynamicCreateTableSql generateDynamicInsertSql inferSqlType
        filter existsb tableColumnNames parseCreateTable parseInsert numbered written
        hasColumn forallb].

Ltac run_handler := repeat (case_step; handler_steps).

Ltac unfold_handlers :=
  unfold api_upload, api_delete_table, tryCatch, selectUploadedFile, selectTableExists,
    dropTableIfExists, cloudinaryDestroy, deleteUploadedFile, cloudinaryUpload,
    insertUploadedFile, executeCreateTable, executeInsert, axios, lift, sent,
    withJournal, ret, fail, bindM.

Ltac durable_state :=
  unfold consistent, datasetRows in *;
  cbn -[filter existsb tableColumnNames generateDynamicCreateTableSql
        generateDynamicInsertSql inferSqlType parseCreateTable parseInsert numbered written
        hasColumn forallb] in *.

Lemma filter_evicted (l : list UploadedFileRow) :
  filter isDataCsv (filter (fun f => negb (isDataCsv f)) l) = [].
Proof.
  induction l as [|f l IH]; simpl; [reflexivity|].
  destruct (isDataCsv f) eqn:E; simpl; [exact IH|]. now rewrite E.
Qed.

Lemma filter_none_evicted (l : list UploadedFileRow) :
  filter isDataCsv l = [] -> filter (fun f => negb (isDataCsv f)) l = l.
Proof.
  induction l as [|f l IH]; simpl; [reflexivity|].
  destruct (isDataCsv f); simpl; [discriminate|]. intro H. f_equal. now apply IH.
Qed.

Ltac metadata_rows :=
  rewrite ?filter_app, ?filter_evicted in *;
  cbn [filter List.app List.length] in *;
  repeat match goal with
         | H : filter isDataCsv (uploadedFile _) = _ |- _ => rewrite H in *
         end;
  cbn [filter List.app List.length] in *.

Section LifecycleInvariant.
Context {rt : JsRuntime}.

Lemma create_ok_nonempty (rows : list row) (sql : string) :
  generateDynamicCreateTableSql "data" rows inferSqlType = Ok sql ->
  exists first rest, rows = first :: rest.
Proof. destruct rows as [|first rest]; [discriminate|]. intros _. now eexists _, _. Qed.

Lemma consistent_emptyWorld : consistent emptyWorld.
Proof. split; [simpl; lia|]. intro H. now elim H. Qed.

Lemma consistent_withJournal (w : World) (j : list query) :
  consistent w -> consistent (withJournal w j).
Proof. intro H. exact H. Qed.

Lemma api_upload_consistent (req : UploadRequest) (w : World) :
  consistent w -> consistent (snd (api_upload req w)).
Proof.
  intros [H1 H2]. unfold_handlers. run_handler.
  all: durable_state; metadata_rows.
  all: try (split; [assumption|assumption]).
  all: try (split; [simpl; lia|intro; congruence]).
  all: try (split; [destruct (isDataCsv _); simpl; lia|intro; try congruence]).
  all: try (exfalso; apply H2; congruence).
Qed.

End LifecycleInvariant.

Section LifecycleSuccess.
Context {rt : JsRuntime}.

Lemma api_upload_success (req : UploadRequest) (w : World) :
  consistent w ->
  code (fst (api_upload req w)) = 200 ->
  exists f url first rest analysis insertSql columns tuples,
    file req = Some f
    /\ uploadAnswer req = Some ("data.csv", url)
    /\ analysisAnswer req = Some analysis
    /\ parsedRows req = first :: rest
    /\ fst (api_upload req w) = mkResponse 200 (Analysis analysis)
    /\ datasetRows (snd (api_upload req w)) =
       [mkUploadedFile "data.csv" url (originalname f)]
    /\ generateDynamicInsertSql "data" (parsedRows req) = Ok insertSql
    /\ engineAccepts req insertSql = true
    /\ parseInsert insertSql = Some ("data", columns, tuples)
    /\ dataTable (snd (api_upload req w)) =
       Some (mkTable (tableColumnNames (parsedRows req))
                     (numbered 1 (map (written columns) tuples)))
    /\ In "data.csv" (blobs (snd (api_upload req w))).
Proof.
  intros [H1 H2]. unfold_handlers. run_handler.
  all: try (intro Hc; discriminate Hc).
  all: intros _; durable_state; metadata_rows.
  all: try (exfalso; apply H2; congruence).
  all: match goal with
       | H : (if isDataCsv ?n then _ else _) = _ :: _ |- _ =>
           destruct (isDataCsv n) eqn:En; [|discriminate H];
           unfold isDataCsv in En; cbn [publicId] in En; apply String.eqb_eq in En; subst
       end.
  all: match goal with
       | H : generateDynamicCreateTableSql _ _ _ = Ok _ |- _ =>
           destruct (create_ok_nonempty _ _ H) as (first & rest & Erows);
           pose proof (parseCreateTable_generated _ _ H) as Hparse
       end.
  all: match goal with
       | H : parseCreateTable ?s = Some _, H' : parseCreateTable ?s = Some _ |- _ =>
           rewrite H in H'; injection H' as -> ->
       end.
  all: repeat match goal with
       | H : _ && _ = true |- _ => apply andb_true_iff in H; destruct H
       end.
  all: repeat match goal with
       | H : String.eqb _ _ = true |- _ => apply String.eqb_eq in H; subst
       end.
  all: eexists _, _, _, _, _, _, _, _; repeat split; try reflexivity; try eassumption.
  all: try (now left).
Qed.

End LifecycleSuccess.

Section LifecycleRequests.
Context {rt : JsRuntime}.

(** Whatever the blob store answers, a deletion leaves no table and no
    metadata row for the dataset. *)
Lemma api_delete_table_after (destroys : bool) (w : World) :
  dataTable (snd (api_delete_table destroys w)) = None
  /\ datasetRows (snd (api_delete_table destroys w)) = []
  /\ uploadedFile (snd (api_delete_table destroys w)) =
     filter (fun f => negb (isDataCsv f)) (uploadedFile w)
  /\ (code (fst (api_delete_table destroys w)) = 200
      <-> destroys = true \/ datasetRows w = [])
  /\ (code (fst (api_delete_table destroys w)) = 200 ->
      ~ In "data.csv" (blobs w) \/ datasetRows w <> [] ->
      ~ In "data.csv" (blobs (snd (api_delete_table destroys w)))).
Proof.
  unfold_handlers. run_handler.
  all: durable_state; metadata_rows.
  all: repeat split; try reflexivity; try (intro; discriminate); try tauto.
  all: try (symmetry; now apply filter_none_evicted).
  all: try (intros [H|H]; congruence).
  all: try (intros _ [H|H]; [exact H|now elim H]).
  all: try match goal with
           | H : filter isDataCsv (uploadedFile ?w) = ?u :: _ |- _ =>
               assert (Eu : publicId u = "data.csv");
               [ assert (Hin : In u (filter isDataCsv (uploadedFile w)))
                   by (rewrite H; now left);
                 apply filter_In in Hin; destruct Hin as [_ Hin];
                 now apply String.eqb_eq in Hin
               | rewrite Eu in * ]
           end.
  all: try (intros _ _ Hin; apply filter_In in Hin; destruct Hin as [_ Hin];
            rewrite String.eqb_refl in Hin; discriminate).
Qed.

Lemma serve_consistent (r : request) (w : World) :
  consistent w -> consistent (snd (serve r w)).
Proof.
  intro H. destruct r as [req|destroys| |q]; simpl.
  - now apply api_upload_consistent.
  - destruct (api_delete_table_after destroys w) as (Ht & Hd & _).
    split; [unfold datasetRows in *; rewrite Hd; simpl; lia|].
    intro Hn. now elim Hn.
  - rewrite api_check_table_answer. exact H.
  - destruct (dataTable w) as [t|] eqn:E.
    + destruct (api_data_present q w t E) as (resp & rest & Hr & _). rewrite Hr. exact H.
    + rewrite (api_data_absent q w E). exact H.
Qed.

Lemma reachable_consistent (w : World) : reachable w -> consistent w.
Proof.
  induction 1 as [|r w _ IH]; [apply consistent_emptyWorld|now apply serve_consistent].
Qed.

End LifecycleRequests.

Lemma existsb_false_filter {A : Type} (p : A -> bool) (l : list A) :
  existsb p l = false -> filter p l = [].
Proof.
  induction l as [|x l IH]; simpl; [reflexivity|].
  destruct (p x); simpl; [discriminate|exact IH].
Qed.

Lemma nth_error_numbered {rt : JsRuntime} (tuples : list record) (next : Z) (i : nat) :
  nth_error (numbered next tuples) i =
  option_map (fun tuple => ("id", Generated (next + Z.of_nat i)) :: tuple)
             (nth_error tuples i).
Proof.
  revert next i. induction tuples as [|tuple tuples IH]; intros next i.
  - now destruct i.
  - destruct i as [|i]; cbn [numbered nth_error option_map].
    + now rewrite Z.add_0_r.
    + rewrite IH. destruct (nth_error tuples i); cbn [option_map]; [|reflexivity].
      do 4 f_equal. lia.
Qed.

Lemma length_numbered {rt : JsRuntime} (tuples : list record) (next : Z) :
  List.length (numbered next tuples) = List.length tuples.
Proof.
  revert next. induction tuples as [|tuple tuples IH]; intro next; simpl; [reflexivity|].
  now rewrite IH.
Qed.

Section LifecycleReads.
Context {rt : JsRuntime}.

Lemma created_table_selectable (userData : list row) :
  userData <> [] -> desiredColumnsOf (tableColumnNames userData) <> [].
Proof.
  destruct userData as [|first rest]; [intro H; now elim H|]. intros _. discriminate.
Qed.

(** The record that the engine makes of the tuple of a row. *)
Lemma written_storedCells (columns : list string) (r : row) :
  written (List.app (map sanitize columns) ["createdAt"; "updatedAt"])
          (List.app (map (fun column => writtenFor (get r column)) columns)
                    [auditLiteral; auditLiteral]) =
  storedCells columns r.
Proof.
  unfold written, storedCells. induction columns as [|column columns IH]; [reflexivity|].
  cbn [map List.app combine]. now rewrite IH.
Qed.

(** The cell that a projection keeps. *)
Lemma cellOf_project (columns : list string) (r : record) (column : string) :
  In column columns -> cellOf (project columns r) column = cellOf r column.
Proof.
  unfold project. induction columns as [|c columns IH]; [intros []|].
  intro H. cbn [map cellOf]. destruct (String.eqb_spec c column) as [->|Hc]; [reflexivity|].
  apply IH. destruct H as [H|H]; [contradiction|exact H].
Qed.

(** The cell of a key whose sanitized name no other key shares. *)
Lemma cellOf_storedCells (columns : list string) (r : row) (column : string) :
  In column columns ->
  (forall column', In column' columns -> sanitize column' = sanitize column ->
                   column' = column) ->
  cellOf (storedCells columns r) (sanitize column) = Written (writtenFor (get r column)).
Proof.
  unfold storedCells. induction columns as [|c columns IH]; [intros []|].
  intros Hin Hinj. cbn [map List.app cellOf].
  destruct (String.eqb_spec (sanitize c) (sanitize column)) as [E|E].
  - now rewrite (Hinj c ltac:(now left) E).
  - apply IH.
    + destruct Hin as [->|Hin]; [now elim E|exact Hin].
    + intros column' Hc. apply Hinj. now right.
Qed.

(** The columns that the reader selects from a table of an upload exist
    in it. *)
Lemma selected_columns_exist (first : row) (rest : list row) :
  Forall (fun c => In c (tableColumnNames (first :: rest)))
         ("id" :: map sanitize (desiredColumnsOf (tableColumnNames (first :: rest)))).
Proof.
  constructor; [now left|]. apply Forall_forall. intros c Hc.
  apply in_map_iff in Hc. destruct Hc as (c' & <- & Hc').
  unfold desiredColumnsOf in Hc'. apply filter_In in Hc'. destruct Hc' as [Hc' _].
  assert (E : sanitize c' = c'); [|now rewrite E].
  cbn [tableColumnNames] in Hc'. destruct Hc' as [<-|Hc']; [reflexivity|].
  apply in_app_or in Hc'. destruct Hc' as [Hc'|[<-|[<-|[]]]]; try reflexivity.
  apply in_map_iff in Hc'. destruct Hc' as (k & <- & _). apply sanitize_idempotent.
Qed.

Lemma selected_column (first : row) (rest : list row) (column : string) :
  In column (keys first) ->
  sanitize column <> "createdAt" -> sanitize column <> "updatedAt" ->
  In (sanitize column) (map sanitize (desiredColumnsOf (tableColumnNames (first :: rest)))).
Proof.
  intros Hin Hc Hu. apply in_map_iff. exists (sanitize column).
  split; [apply sanitize_idempotent|].
  unfold desiredColumnsOf. apply filter_In. split.
  - cbn [tableColumnNames]. right. apply in_or_app. left. now apply in_map.
  - cbn [columnsToExclude existsb].
    destruct (String.eqb_spec (sanitize column) "createdAt"); [contradiction|].
    destruct (String.eqb_spec (sanitize column) "updatedAt"); [contradiction|reflexivity].
Qed.

(** The sort key is among the selected columns. *)
Lemma selected_columns_id (first : row) (rest : list row) :
  In "id" (map sanitize (desiredColumnsOf (tableColumnNames (first :: rest)))).
Proof. now left. Qed.

(** The table after a successful upload of rows that read back. *)
Lemma upload_then_read_table (req : UploadRequest) (w : World) :
  consistent w ->
  code (fst (api_upload req w)) = 200 ->
  exists first rest,
    parsedRows req = first :: rest
    /\ (keys first <> [] ->
        (forall r column, In r (first :: rest) -> In column (keys first) ->
                          readsBack (get r column) = true) ->
        dataTable (snd (api_upload req w)) =
        Some (mkTable (tableColumnNames (first :: rest))
                      (numbered 1 (map (storedCells (keys first)) (first :: rest))))).
Proof.
  intros Hw Hcode.
  destruct (api_upload_success req w Hw Hcode)
    as (f & url & first & rest & analysis & insertSql & columns & tuples
        & Hf & Hu & Ha & Hrows & Hr & Hd & Hsql & Hacc & Hparse & Ht & Hb).
  exists first, rest. split; [exact Hrows|]. intros Hkeys Hread.
  rewrite Ht. rewrite Hrows in *.
  pose proof (parseInsert_generated first rest insertSql Hkeys Hread Hsql) as Hread'.
  rewrite Hparse in Hread'.
  assert (Ec : columns = List.app (map sanitize (keys first)) ["createdAt"; "updatedAt"])
    by congruence.
  assert (Et : tuples =
               map (fun r => List.app (map (fun column => writtenFor (get r column))
                                           (keys first))
                                      [auditLiteral; auditLiteral])
                   (first :: rest)) by congruence.
  rewrite Ec, Et. do 3 f_equal.
  rewrite map_map. apply map_ext. intro r. apply written_storedCells.
Qed.

End LifecycleReads.

(** X13.  In every world that a sequence of requests to the raw-SQL
    server reaches from the empty one, the metadata table holds at most
    one row for the dataset, and the ["data"] table exists only if that
    row does.  So whenever [GET /api/check-table] answers [false],
    [GET /api/data] answers 404. *)
Theorem reachable_worlds_are_consistent :
  forall (rt : JsRuntime) (w : World),
    reachable w ->
    (List.length (datasetRows w) <= 1)%nat
    /\ (dataTable w <> None -> datasetRows w <> [])
    /\ (fst (api_check_table w) = mkResponse 200 (Status false) ->
        forall q, code (fst (api_data q w)) = 404).
Proof.
  intros rt w Hw. destruct (reachable_consistent w Hw) as [H1 H2].
  split; [exact H1|]. split; [exact H2|].
  rewrite api_check_table_answer. simpl. intros Hc q.
  assert (E : existsb isDataCsv (uploadedFile w) = false).
  { destruct (existsb isDataCsv (uploadedFile w)); [discriminate|reflexivity]. }
  apply existsb_false_filter in E.
  destruct (dataTable w) as [t|] eqn:Et.
  - exfalso. apply H2; [discriminate|exact E].
  - now rewrite (api_data_absent q w Et).
Qed.

Lemma reachable_worlds_are_consistent_witness :
  let w := snd (serve (rt := Node.runtime) (PostUpload (Node.flagUpload true)) emptyWorld) in
  (List.length (datasetRows w) <= 1)%nat
  /\ (dataTable w <> None -> datasetRows w <> [])
  /\ (fst (api_check_table w) = mkResponse 200 (Status false) ->
      forall q, code (fst (api_data q w)) = 404).
Proof.
  exact (reachable_worlds_are_consistent Node.runtime _
           (reachable_serve (PostUpload (Node.flagUpload true)) emptyWorld reachable_empty)).
Defined.

(** X14.  An upload that answers 200 has replaced the dataset: whatever
    the consistent world it started from, the metadata table then holds
    exactly one row for the dataset (the new file's), the blob store
    holds the new blob, and the ["data"] table has the columns of the
    generated [CREATE TABLE] and the records that the engine read in the
    generated [INSERT], numbered from 1: nothing of a previous table is
    left.  When the first row has a key and every cell reads back, these
    are one record per row of the CSV, with the literal of each cell. *)
Theorem upload_replaces_the_dataset :
  forall (rt : JsRuntime) (req : UploadRequest) (w : World),
    consistent w ->
    code (fst (api_upload req w)) = 200 ->
    exists f url first rest analysis insertSql columns tuples,
      file req = Some f
      /\ uploadAnswer req = Some ("data.csv", url)
      /\ analysisAnswer req = Some analysis
      /\ parsedRows req = first :: rest
      /\ fst (api_upload req w) = mkResponse 200 (Analysis analysis)
      /\ datasetRows (snd (api_upload req w)) =
         [mkUploadedFile "data.csv" url (originalname f)]
      /\ generateDynamicInsertSql "data" (parsedRows req) = Ok insertSql
      /\ engineAccepts req insertSql = true
      /\ parseInsert insertSql = Some ("data", columns, tuples)
      /\ dataTable (snd (api_upload req w)) =
         Some (mkTable (tableColumnNames (parsedRows req))
                       (numbered 1 (map (written columns) tuples)))
      /\ In "data.csv" (blobs (snd (api_upload req w)))
      /\ (keys first <> [] ->
          (forall r column, In r (parsedRows req) -> In column (keys first) ->
                            readsBack (get r column) = true) ->
          dataTable (snd (api_upload req w)) =
          Some (mkTable ("id" :: List.app (map sanitize (keys first)) ["createdAt"; "updatedAt"])
                        (numbered 1 (map (storedCells (keys first)) (parsedRows req))))).
Proof.
  intros rt req w Hw Hcode.
  destruct (api_upload_success req w Hw Hcode)
    as (f & url & first & rest & analysis & insertSql & columns & tuples
        & Hf & Hu & Ha & Hrows & Hr & Hd & Hsql & Hacc & Hparse & Ht & Hb).
  exists f, url, first, rest, analysis, insertSql, columns, tuples.
  repeat match goal with |- _ /\ _ => split end; try assumption.
  intros Hkeys Hread.
  destruct (upload_then_read_table req w Hw Hcode) as (first' & rest' & Hrows' & Htable).
  rewrite Hrows in Hrows'. injection Hrows' as <- <-.
  rewrite Hrows in Hread. rewrite (Htable Hkeys Hread), Hrows. reflexivity.
Qed.

(** A second upload over the table of a first one. *)
Lemma upload_replaces_the_dataset_witness :
  let w := snd (api_upload (rt := Node.runtime) Node.mixedUpload emptyWorld) in
  dataTable (snd (api_upload (Node.flagUpload true) w)) =
  Some (mkTable ["id"; "ok"; "createdAt"; "updatedAt"]
          [[("id", Generated 1); ("ok", Written (SqlWord "true"));
            ("createdAt", Written (SqlWord "CURRENT_TIMESTAMP"));
            ("updatedAt", Written (SqlWord "CURRENT_TIMESTAMP"))]]).
Proof.
  intro w.
  destruct (upload_replaces_the_dataset Node.runtime (Node.flagUpload true) w
              (api_upload_consistent Node.mixedUpload emptyWorld consistent_emptyWorld)
              eq_refl)
    as (f & url & first & rest & analysis & insertSql & columns & tuples
        & _ & _ & _ & Hrows & _ & _ & _ & _ & _ & _ & _ & Ht).
  injection Hrows as <- <-. rewrite Ht; [reflexivity|discriminate|].
  intros r column [<-|[]] [<-|[]]. reflexivity.
Defined.

(** X15.  Round trip: after an upload that answers 200, of rows whose
    first has a key and whose cells read back, [GET /api/data] with page
    1 and a page size of at least the number of CSV rows (below 2^53)
    answers 200 with one record per row, in the order of the file: the
    selected cells of the records the engine holds.  Record number [k]
    has the id [k] and, under the sanitized name of a key of the first
    row (when no other key has the same sanitized name, and it is not
    the name of the key or of an audit column), the literal of the cell
    of row [k] under that key. *)
Theorem upload_then_read :
  forall (rt : JsRuntime) (req : UploadRequest) (w : World) (q : PageQuery) (s : Z),
    consistent w ->
    code (fst (api_upload req w)) = 200 ->
    let columns := keys (hd [] (parsedRows req)) in
    columns <> [] ->
    (forall r column, In r (parsedRows req) -> In column columns ->
                      readsBack (get r column) = true) ->
    orDefault (parseInt (page q)) 1 = Integer 1 ->
    orDefault (parseInt (limit q)) 10 = Integer s ->
    Z.of_nat (List.length (parsedRows req)) <= s < 2 ^ 53 ->
    let answer := fst (api_data q (snd (api_upload req w))) in
    let selected := map sanitize (desiredColumnsOf (tableColumnNames (parsedRows req))) in
    code answer = 200
    /\ dataOf answer =
       map (project selected) (numbered 1 (map (storedCells columns) (parsedRows req)))
    /\ (forall i r column,
          nth_error (parsedRows req) i = Some r ->
          In column columns ->
          sanitize column <> "id" ->
          sanitize column <> "createdAt" -> sanitize column <> "updatedAt" ->
          (forall column', In column' columns -> sanitize column' = sanitize column ->
                           column' = column) ->
          exists record,
            nth_error (dataOf answer) i = Some record
            /\ cellOf record "id" = Generated (Z.of_nat i + 1)
            /\ cellOf record (sanitize column) = Written (writtenFor (get r column))).
Proof.
  intros rt req w q s Hw Hcode columns Hkeys Hread Hpage Hsize Hs answer selected.
  destruct (upload_then_read_table req w Hw Hcode) as (first & rest & Hrows & Htable).
  subst columns selected. rewrite Hrows in *. cbn [hd] in *.
  set (selected := map sanitize (desiredColumnsOf (tableColumnNames (first :: rest)))).
  specialize (Htable Hkeys Hread).
  assert (Hsel : desiredColumnsOf (tableColumnNames (first :: rest)) <> []) by discriminate.
  assert (Hanswer : answer =
            mkResponse 200
              (Page (map (project selected)
                         (numbered 1 (map (storedCells (keys first)) (first :: rest))))
                    (Integer (ceilDiv (Z.of_nat (List.length (first :: rest))) s))
                    (Z.of_nat (List.length (first :: rest))))).
  { unfold answer.
    rewrite (api_data_page q _ _ 0 s Htable Hsel); rewrite ?Hpage, ?Hsize;
      cbn [records columnNames]; try reflexivity; try lia.
    - cbn [Z.to_nat skipn]. rewrite length_numbered, length_map.
      rewrite firstn_all2 by (rewrite length_numbered, length_map; lia).
      reflexivity.
    - rewrite length_numbered, length_map. lia.
    - apply selected_columns_exist. }
  rewrite Hanswer. unfold dataOf. cbn [payload code].
  split; [reflexivity|]. split; [reflexivity|].
  intros i r column Hr Hc Hid Hca Hua Hinj.
  rewrite nth_error_map, nth_error_numbered, nth_error_map, Hr. cbn [option_map].
  eexists. split; [reflexivity|].
  split.
  - rewrite cellOf_project by (apply selected_columns_id). cbn [cellOf String.eqb Ascii.eqb Bool.eqb].
    f_equal. lia.
  - rewrite cellOf_project by (now apply selected_column).
    cbn [cellOf]. destruct (String.eqb_spec "id" (sanitize column)) as [E|_];
      [now elim Hid|].
    now apply cellOf_storedCells.
Qed.

Lemma upload_then_read_witness :
  let answer := fst (api_data (rt := Node.runtime) (mkPageQuery None None)
                       (snd (api_upload (Node.flagUpload true) emptyWorld))) in
  code answer = 200
  /\ dataOf answer = [[("id", Generated 1); ("ok", Written (SqlWord "true"))]].
Proof.
  intro answer.
  destruct (upload_then_read Node.runtime (Node.flagUpload true) emptyWorld
              (mkPageQuery None None) 10 consistent_emptyWorld eq_refl
              ltac:(discriminate)
              ltac:(intros r column [<-|[]] [<-|[]]; reflexivity)
              eq_refl eq_refl ltac:(vm_compute; split; [discriminate|reflexivity]))
    as (Hcode & Hdata & _).
  split; [exact Hcode|exact Hdata].
Defined.

Lemma filter_nil_existsb {A : Type} (p : A -> bool) (l : list A) :
  filter p l = [] -> existsb p l = false.
Proof.
  induction l as [|x l IH]; simpl; [reflexivity|].
  destruct (p x); simpl; [discriminate|exact IH].
Qed.

Lemma filter_cons_existsb {A : Type} (p : A -> bool) (l : list A) (x : A) (xs : list A) :
  filter p l = x :: xs -> existsb p l = true.
Proof.
  intro H. destruct (existsb p l) eqn:E; [reflexivity|].
  apply existsb_false_filter in E. congruence.
Qed.

Section EmptyUpload.
Context {rt : JsRuntime}.

Lemma api_upload_empty_csv (req : UploadRequest) (w : World) (f : File)
    (url blob analysis : string) :
  consistent w ->
  file req = Some f ->
  (datasetRows w <> [] -> destroyResolves req = true) ->
  uploadAnswer req = Some ("data.csv", url) ->
  blobAnswer req = Some blob ->
  analysisAnswer req = Some analysis ->
  parsedRows req = [] ->
  fst (api_upload req w) =
    mkResponse 500
      (ErrorObject
         (Thrown (Error "User data is empty, cannot infer schema for dynamic table creation.")))
  /\ datasetRows (snd (api_upload req w)) = [mkUploadedFile "data.csv" url (originalname f)]
  /\ dataTable (snd (api_upload req w)) = None.
Proof.
  intros [H1 H2] Hfile Hd Hup Hblob Hai Hrows. unfold_handlers. run_handler.
  all: durable_state; metadata_rows.
  all: try congruence.
  all: repeat match goal with
         | H : Some _ = Some _ |- _ => inversion H; clear H; subst
         | H : (_, _) = (_, _) |- _ => inversion H; clear H; subst
         end.
  all: try (exfalso; apply H2; congruence).
  all: try match goal with
         | H : existsb _ (filter _ _) = true |- _ =>
             exfalso;
             change (existsb isDataCsv
                       (filter (fun f => negb (isDataCsv f)) (uploadedFile w)) = true) in H;
             rewrite (filter_nil_existsb _ _ (filter_evicted _)) in H; discriminate
         | H : existsb _ (uploadedFile _) = true,
           H' : filter isDataCsv (uploadedFile _) = [] |- _ =>
             exfalso; change (existsb isDataCsv (uploadedFile w) = true) in H;
             rewrite (filter_nil_existsb _ _ H') in H; discriminate
         end.
  all: repeat match goal with
         | H : context [isDataCsv (mkUploadedFile "data.csv" _ _)] |- _ =>
             change (isDataCsv (mkUploadedFile "data.csv" ?u ?o)) with true in H
         | |- context [isDataCsv (mkUploadedFile "data.csv" ?u ?o)] =>
             change (isDataCsv (mkUploadedFile "data.csv" u o)) with true
         end.
  all: try discriminate.
  all: try match goal with
         | H : generateDynamicCreateTableSql _ (parsedRows _) _ = _ |- _ =>
             rewrite Hrows in H; cbn in H; inversion H; clear H; subst
         end.
  all: try (repeat split; reflexivity).
  all: try (exfalso;
            match type of Hd with
            | _ -> ?a = ?b => assert (X : a = b) by (apply Hd; discriminate); congruence
            end).
  repeat split. destruct (dataTable w); [exfalso; now apply H2|reflexivity].
Qed.

End EmptyUpload.

(** X16.  The upload of a CSV with no data row is not all-or-nothing:
    the handler stores the blob and writes the metadata row, then fails
    on the empty row list with status 500.  It leaves the metadata row
    and no table, so [GET /api/check-table] answers [true] while
    [GET /api/data] answers 404. *)
Theorem upload_of_empty_csv :
  forall (rt : JsRuntime) (req : UploadRequest) (w : World) (f : File)
         (url blob analysis : string),
    consistent w ->
    file req = Some f ->
    (datasetRows w <> [] -> destroyResolves req = true) ->
    uploadAnswer req = Some ("data.csv", url) ->
    blobAnswer req = Some blob ->
    analysisAnswer req = Some analysis ->
    parsedRows req = [] ->
    let w' := snd (api_upload req w) in
    fst (api_upload req w) =
      mkResponse 500
        (ErrorObject
           (Thrown (Error "User data is empty, cannot infer schema for dynamic table creation.")))
    /\ datasetRows w' = [mkUploadedFile "data.csv" url (originalname f)]
    /\ dataTable w' = None
    /\ fst (api_check_table w') = mkResponse 200 (Status true)
    /\ (forall q, code (fst (api_data q w')) = 404).
Proof.
  intros rt req w f url blob analysis Hw Hfile Hd Hup Hblob Hai Hrows w'.
  destruct (api_upload_empty_csv req w f url blob analysis Hw Hfile Hd Hup Hblob Hai Hrows)
    as (Hr & Hm & Ht).
  fold w' in Hm, Ht. repeat split; try assumption.
  - rewrite api_check_table_answer. simpl.
    unfold datasetRows in Hm. now rewrite (filter_cons_existsb _ _ _ _ Hm).
  - intro q. now rewrite (api_data_absent q w' Ht).
Qed.

Lemma upload_of_empty_csv_witness :
  let req := mkUploadRequest (rt := Node.runtime)
               (Some (mkFile "empty.csv" "text/csv" "a,b")) true
               (Some ("data.csv", "https://res.cloudinary.com/demo/raw/upload/data.csv"))
               [] (Some "a,b") (Some "{}") (fun _ => true) in
  let w' := snd (api_upload req emptyWorld) in
  code (fst (api_upload req emptyWorld)) = 500
  /\ fst (api_check_table w') = mkResponse 200 (Status true)
  /\ code (fst (api_data (mkPageQuery None None) w')) = 404.
Proof.
  intros req w'.
  destruct (upload_of_empty_csv Node.runtime req emptyWorld
              (mkFile "empty.csv" "text/csv" "a,b")
              "https://res.cloudinary.com/demo/raw/upload/data.csv" "a,b" "{}"
              consistent_emptyWorld eq_refl (fun _ => eq_refl) eq_refl eq_refl eq_refl eq_refl)
    as (Hr & _ & _ & Hc & Hd).
  split; [now rewrite Hr|]. split; [exact Hc|apply Hd].
Defined.

(** X17.  [DELETE /api/table] always leaves the catalog without the
    ["data"] table and the metadata table without a row for the dataset,
    and touches no other metadata row.  It answers 200 exactly when the
    blob store removed the blob or there was no dataset row; on an absent
    dataset it is a successful no-op.  After it, whatever it answered,
    [GET /api/check-table] answers [false] and [GET /api/data] answers
    404. *)
Theorem delete_leaves_no_dataset :
  forall (rt : JsRuntime) (destroys : bool) (w : World),
    let w' := snd (api_delete_table destroys w) in
    dataTable w' = None
    /\ datasetRows w' = []
    /\ uploadedFile w' = filter (fun f => negb (isDataCsv f)) (uploadedFile w)
    /\ (code (fst (api_delete_table destroys w)) = 200
        <-> destroys = true \/ datasetRows w = [])
    /\ (datasetRows w = [] -> dataTable w = None ->
        code (fst (api_delete_table destroys w)) = 200 /\ sameDurable w w')
    /\ fst (api_check_table w') = mkResponse 200 (Status false)
    /\ (forall q, code (fst (api_data q w')) = 404).
Proof.
  intros rt destroys w w'.
  destruct (api_delete_table_after destroys w) as (Ht & Hd & Hu & Hc & _).
  fold w' in Ht, Hd, Hu.
  repeat match goal with |- _ /\ _ => split end; try assumption.
  - intros Hnone Htable. split; [apply Hc; now right|].
    unfold sameDurable. rewrite Hu, Ht. unfold datasetRows in Hnone.
    rewrite (filter_none_evicted _ Hnone). repeat split; [congruence|].
    unfold w'. unfold_handlers. cbn -[filter]. rewrite Hnone. reflexivity.
  - rewrite api_check_table_answer. simpl.
    unfold datasetRows in Hd. now rewrite (filter_nil_existsb _ _ Hd).
  - intro q. now rewrite (api_data_absent q w' Ht).
Qed.

(** ** The Sequelize server: what an upload leaves behind *)

Section SequelizeFacts.
Context {rt : JsRuntime}.

Lemma sequelize_upload_rejected
    (proc : Sequelize.Process) (req : Sequelize.UploadRequest) (w : World)
    (firstRow : row) (rest processed : list row) (analysis : string) :
  Sequelize.hasFile req = true ->
  Sequelize.analysisAnswer req = Some analysis ->
  Sequelize.parsedRows req = firstRow :: rest ->
  Sequelize.syncResolves req = true ->
  Sequelize.processedUserData (firstRow :: rest) = Ok processed ->
  Sequelize.bulkCreateResolves req = false ->
  Sequelize.api_upload proc req w =
  ((mkResponse 500 (ErrorObject (DatabaseError "bulkCreate")),
    Sequelize.mkProcess (Some (keys firstRow))),
   mkWorld (uploadedFile w) None (blobs w) (journal w)).
Proof.
  intros Hfile Hai Hrows Hsync Hprocessed Hbulk.
  unfold Sequelize.api_upload, tryCatch, Sequelize.sync, Sequelize.bulkCreate,
    Sequelize.drop, axios, ret, fail, bindM.
  rewrite Hfile, Hai, Hrows, Hsync, Hbulk. cbn -[Sequelize.processedUserData].
  destruct (dataTable w) eqn:E; rewrite Hprocessed; cbn; rewrite ?E; reflexivity.
Qed.

Lemma sequelize_upload_accepted
    (proc : Sequelize.Process) (req : Sequelize.UploadRequest) (w : World)
    (firstRow : row) (rest processed : list row) (analysis : string) :
  Sequelize.hasFile req = true ->
  Sequelize.analysisAnswer req = Some analysis ->
  Sequelize.parsedRows req = firstRow :: rest ->
  Sequelize.syncResolves req = true ->
  Sequelize.processedUserData (firstRow :: rest) = Ok processed ->
  Sequelize.bulkCreateResolves req = true ->
  Sequelize.api_upload proc req w =
  ((mkResponse 200 (Analysis analysis), Sequelize.mkProcess (Some (keys firstRow))),
   mkWorld (uploadedFile w)
           (Some (match dataTable w with
                  | Some t =>
                      mkTable (columnNames t)
                        (List.app (records t) (map Sequelize.bound processed))
                  | None =>
                      mkTable ("id" :: List.app (keys firstRow) ["createdAt"; "updatedAt"])
                        (map Sequelize.bound processed)
                  end))
           (blobs w) (journal w)).
Proof.
  intros Hfile Hai Hrows Hsync Hprocessed Hbulk.
  unfold Sequelize.api_upload, tryCatch, Sequelize.sync, Sequelize.bulkCreate,
    Sequelize.drop, axios, ret, fail, bindM.
  rewrite Hfile, Hai, Hrows, Hsync, Hbulk. cbn -[Sequelize.processedUserData].
  destruct (dataTable w) eqn:E; rewrite Hprocessed; cbn; rewrite ?E; reflexivity.
Qed.

(** When the pre-processing of the rows throws, the outer [catch]
    answers: the handle is set and the table that [sync] made stays. *)
Lemma sequelize_upload_preprocessing_throws
    (proc : Sequelize.Process) (req : Sequelize.UploadRequest) (w : World)
    (firstRow : row) (rest : list row) (analysis : string) (e : exn) :
  Sequelize.hasFile req = true ->
  Sequelize.analysisAnswer req = Some analysis ->
  Sequelize.parsedRows req = firstRow :: rest ->
  Sequelize.syncResolves req = true ->
  Sequelize.processedUserData (firstRow :: rest) = Throw e ->
  fst (Sequelize.api_upload proc req w) =
    (mkResponse 500 (ErrorObject (Thrown e)), Sequelize.mkProcess (Some (keys firstRow)))
  /\ dataTable (snd (Sequelize.api_upload proc req w)) =
     Some (match dataTable w with
           | Some t => t
           | None => mkTable ("id" :: List.app (keys firstRow) ["createdAt"; "updatedAt"]) []
           end).
Proof.
  intros Hfile Hai Hrows Hsync Hprocessed.
  unfold Sequelize.api_upload, tryCatch, Sequelize.sync, axios, ret, fail, bindM.
  rewrite Hfile, Hai, Hrows, Hsync. cbn -[Sequelize.processedUserData].
  destruct (dataTable w) eqn:E; rewrite Hprocessed; cbn; rewrite ?E; split; reflexivity.
Qed.

End SequelizeFacts.

(** X18.  On the Sequelize server, an upload whose rows are
    pre-processed and whose [bulkCreate] is rejected drops the table but
    keeps the model handle it has just assigned to [DataTable]: the next
    [GET /api/data] of the process passes the handle test, queries the
    dropped table and answers 500 "Failed to fetch data", not 404.  (When
    the pre-processing throws, the handle is set as well and the table
    is not dropped.) *)
Theorem sequelize_handle_outlives_the_table :
  forall (rt : JsRuntime) (proc : Sequelize.Process) (req : Sequelize.UploadRequest)
         (w : World) (firstRow : row) (rest : list row) (analysis : string) (q : PageQuery),
    Sequelize.hasFile req = true ->
    Sequelize.analysisAnswer req = Some analysis ->
    Sequelize.parsedRows req = firstRow :: rest ->
    Sequelize.syncResolves req = true ->
    Sequelize.bulkCreateResolves req = false ->
    let after := Sequelize.api_upload proc req w in
    Sequelize.DataTable (snd (fst after)) = Some (keys firstRow)
    /\ ((exists processed, Sequelize.processedUserData (firstRow :: rest) = Ok processed) ->
        dataTable (snd after) = None
        /\ fst (Sequelize.api_data (snd (fst after)) q (snd after)) =
           mkResponse 500 (ErrorText "Failed to fetch data"))
    /\ (forall e, Sequelize.processedUserData (firstRow :: rest) = Throw e ->
        fst (fst after) = mkResponse 500 (ErrorObject (Thrown e))
        /\ dataTable (snd after) <> None).
Proof.
  intros rt proc req w firstRow rest analysis q Hfile Hai Hrows Hsync Hbulk after.
  unfold after.
  destruct (Sequelize.processedUserData (firstRow :: rest)) as [processed|e] eqn:Ep.
  - rewrite (sequelize_upload_rejected proc req w firstRow rest processed analysis
               Hfile Hai Hrows Hsync Ep Hbulk).
    split; [reflexivity|]. split; [intros _; split; reflexivity|]. intros e He. discriminate.
  - destruct (sequelize_upload_preprocessing_throws proc req w firstRow rest analysis e
                Hfile Hai Hrows Hsync Ep) as [Hr Ht].
    rewrite Hr. split; [reflexivity|]. split; [intros [processed H]; discriminate|].
    intros e' He'. injection He' as <-. split; [reflexivity|]. rewrite Ht. discriminate.
Qed.

Lemma sequelize_handle_outlives_the_table_witness :
  let req := Sequelize.mkUploadRequest (rt := Node.runtime) true
               [[("a", JBoolean true)]] (Some "{}") true false in
  let after := Sequelize.api_upload Sequelize.freshProcess req emptyWorld in
  Sequelize.DataTable (snd (fst after)) = Some ["a"]
  /\ dataTable (snd after) = None
  /\ fst (Sequelize.api_data (snd (fst after)) (mkPageQuery None None) (snd after)) =
     mkResponse 500 (ErrorText "Failed to fetch data").
Proof.
  intros req after.
  destruct (sequelize_handle_outlives_the_table Node.runtime Sequelize.freshProcess
              (Sequelize.mkUploadRequest true [[("a", JBoolean true)]] (Some "{}") true false)
              emptyWorld [("a", JBoolean true)] [] "{}" (mkPageQuery None None)
              eq_refl eq_refl eq_refl eq_refl eq_refl) as (Hhandle & Hdrop & _).
  split; [exact Hhandle|]. apply Hdrop. now eexists.
Defined.

(** X19.  The Sequelize server never evicts: an accepted upload creates
    the table only when the catalog has none, and otherwise appends the
    coerced rows to the table that is there, under its old columns.
    The records it adds are the rows of [processedUserData].  When the
    pre-processing throws instead, the answer is 500 and a table that
    was there is left as it was. *)
Theorem sequelize_upload_appends :
  forall (rt : JsRuntime) (proc : Sequelize.Process) (req : Sequelize.UploadRequest)
         (w : World) (firstRow : row) (rest : list row) (analysis : string),
    Sequelize.hasFile req = true ->
    Sequelize.analysisAnswer req = Some analysis ->
    Sequelize.parsedRows req = firstRow :: rest ->
    Sequelize.syncResolves req = true ->
    Sequelize.bulkCreateResolves req = true ->
    let after := Sequelize.api_upload proc req w in
    (forall processed,
        Sequelize.processedUserData (firstRow :: rest) = Ok processed ->
        fst (fst after) = mkResponse 200 (Analysis analysis)
        /\ (forall t, dataTable w = Some t ->
              dataTable (snd after) =
              Some (mkTable (columnNames t)
                      (List.app (records t) (map Sequelize.bound processed))))
        /\ (dataTable w = None ->
              dataTable (snd after) =
              Some (mkTable ("id" :: List.app (keys firstRow) ["createdAt"; "updatedAt"])
                      (map Sequelize.bound processed))))
    /\ (forall e,
          Sequelize.processedUserData (firstRow :: rest) = Throw e ->
          fst (fst after) = mkResponse 500 (ErrorObject (Thrown e))
          /\ (forall t, dataTable w = Some t -> dataTable (snd after) = Some t)).
Proof.
  intros rt proc req w firstRow rest analysis Hfile Hai Hrows Hsync Hbulk after.
  unfold after. split.
  - intros processed Hp.
    rewrite (sequelize_upload_accepted proc req w firstRow rest processed analysis
               Hfile Hai Hrows Hsync Hp Hbulk).
    cbn [fst snd dataTable]. split; [reflexivity|]. split.
    + intros t Ht. now rewrite Ht.
    + intro Ht. now rewrite Ht.
  - intros e He.
    destruct (sequelize_upload_preprocessing_throws proc req w firstRow rest analysis e
                Hfile Hai Hrows Hsync He) as [Hr Ht].
    rewrite Hr. split; [reflexivity|]. intros t Hw. now rewrite Ht, Hw.
Qed.

Lemma sequelize_upload_appends_witness :
  let req := Sequelize.mkUploadRequest (rt := Node.runtime) true
               [[("b", JString "x")]] (Some "{}") true true in
  let w := mkWorld [] (Some (mkTable ["id"; "a"; "createdAt"; "updatedAt"]
                               [[("a", Bound (JBoolean true))]])) [] [] in
  dataTable (snd (Sequelize.api_upload Sequelize.freshProcess req w)) =
  Some (mkTable ["id"; "a"; "createdAt"; "updatedAt"]
          [[("a", Bound (JBoolean true))]; [("b", Bound (JString "x"))]]).
Proof.
  intros req w.
  exact (proj1 (proj2 (proj1 (sequelize_upload_appends Node.runtime Sequelize.freshProcess
                                req w [("b", JString "x")] [] "{}"
                                eq_refl eq_refl eq_refl eq_refl eq_refl)
                             [[("b", JString "x")]] eq_refl))
           (mkTable ["id"; "a"; "createdAt"; "updatedAt"] [[("a", Bound (JBoolean true))]])
           eq_refl).
Defined.

(** ** The routes that forward the stored file *)

Section ForwardingFacts.
Context {rt : JsRuntime}.

Lemma api_display_cards_run (blobAnswer analysisAnswer : option string) (w : World) :
  api_display_cards blobAnswer analysisAnswer w =
  (match datasetRows w with
   | [] => (200, EmptySummary)
   | _ :: _ =>
       match blobAnswer, analysisAnswer with
       | Some _, Some data => (200, Forwarded data)
       | _, _ => (500, CardsError UpstreamError)
       end
   end,
   withJournal w (List.app (journal w) [SelectUploadedFile])).
Proof.
  unfold api_display_cards, tryCatch, selectUploadedFile, axios, sent, withJournal,
    ret, fail, bindM, datasetRows.
  cbn -[filter]. destruct (filter isDataCsv (uploadedFile w)); [reflexivity|].
  destruct blobAnswer, analysisAnswer; reflexivity.
Qed.

Lemma forwardStoredFile_run (blobAnswer analysisAnswer : option string) (w : World) :
  forwardStoredFile blobAnswer analysisAnswer w =
  (match datasetRows w with
   | [] => inr (Thrown (TypeError "Cannot read properties of undefined (reading 'secureUrl')"))
   | _ :: _ =>
       match blobAnswer, analysisAnswer with
       | Some _, Some data => inl (mkResponse 200 (Analysis data))
       | _, _ => inr UpstreamError
       end
   end,
   withJournal w (List.app (journal w) [SelectUploadedFile])).
Proof.
  unfold forwardStoredFile, selectUploadedFile, axios, sent, withJournal,
    ret, fail, bindM, datasetRows.
  cbn -[filter]. destruct (filter isDataCsv (uploadedFile w)); [reflexivity|].
  destruct blobAnswer, analysisAnswer; reflexivity.
Qed.

End ForwardingFacts.

(** X20.  [GET /api/display-cards] answers the fixed empty summary,
    with status 200 and whatever the collaborators would answer, exactly
    when the metadata table has no row for the dataset; in particular it
    does so after every [DELETE /api/table].  With a dataset row it
    answers the analysis service's data when both collaborators answer and
    500 otherwise.  It never changes the durable state. *)
Theorem display_cards_summary :
  forall (rt : JsRuntime) (blobAnswer analysisAnswer : option string) (w : World),
    let answered := api_display_cards blobAnswer analysisAnswer w in
    (fst answered = (200, EmptySummary) <-> datasetRows w = [])
    /\ (datasetRows w <> [] ->
        fst answered = match blobAnswer, analysisAnswer with
                       | Some _, Some data => (200, Forwarded data)
                       | _, _ => (500, CardsError UpstreamError)
                       end)
    /\ sameDurable w (snd answered)
    /\ (forall destroys,
          fst (api_display_cards blobAnswer analysisAnswer
                 (snd (api_delete_table destroys w))) = (200, EmptySummary)).
Proof.
  intros rt blobAnswer analysisAnswer w answered. unfold answered.
  rewrite api_display_cards_run. cbn [fst snd].
  split; [|split; [|split]].
  - destruct (datasetRows w) as [|f fs]; [split; reflexivity|].
    split; [|discriminate]. destruct blobAnswer, analysisAnswer; discriminate.
  - destruct (datasetRows w) as [|f fs]; [intro H; now elim H|reflexivity].
  - repeat split.
  - intro destroys. rewrite api_display_cards_run. cbn [fst].
    destruct (api_delete_table_after destroys w) as (_ & Hd & _). now rewrite Hd.
Qed.

(** X21.  [POST /api/smart-question-examples] and
    [POST /api/question-answer] have no guard and no [try]: without a
    metadata row for the dataset they raise a [TypeError] on
    [uploadedFile[0].secureUrl] and send no response; with one they
    answer 200 with the service's data when both collaborators answer,
    and send no response otherwise.  They never change the durable
    state. *)
Theorem question_routes_need_a_dataset :
  forall (rt : JsRuntime) (question : string) (blobAnswer analysisAnswer : option string)
         (w : World),
    let examples := api_smart_question_examples blobAnswer analysisAnswer w in
    let answer := api_question_answer question blobAnswer analysisAnswer w in
    answer = examples
    /\ (datasetRows w = [] ->
        fst examples =
        inr (Thrown (TypeError "Cannot read properties of undefined (reading 'secureUrl')")))
    /\ ((exists r, fst examples = inl r) <->
        datasetRows w <> [] /\ blobAnswer <> None /\ analysisAnswer <> None)
    /\ (forall r, fst examples = inl r ->
          exists data, analysisAnswer = Some data /\ r = mkResponse 200 (Analysis data))
    /\ sameDurable w (snd examples).
Proof.
  intros rt question blobAnswer analysisAnswer w examples answer.
  unfold answer, examples, api_question_answer, api_smart_question_examples.
  rewrite forwardStoredFile_run. cbn [fst snd].
  split; [reflexivity|]. split; [|split; [|split]].
  - intro H. now rewrite H.
  - destruct (datasetRows w) as [|f fs].
    + split; [intros [r Hr]; discriminate|]. intros [H _]. now elim H.
    + destruct blobAnswer, analysisAnswer; split;
        try (intros [r Hr]; discriminate);
        try (intros (_ & Hb & Ha); congruence).
      * intros _. repeat split; discriminate.
      * intros _. now eexists.
  - intros r. destruct (datasetRows w) as [|f fs]; [discriminate|].
    destruct blobAnswer, analysisAnswer; try discriminate.
    intro H. inversion H. now eexists.
  - repeat split.
Qed.

(** ** More on coercion and on a failed replacement *)

(** X22.  A coerced cell is a fixed point of the coercion of its type:
    coercing it again returns it unchanged.  The one exception is the
    empty string, which a text column can get from an object whose text
    is empty and which a second coercion would turn into [null]. *)
Theorem coercion_is_idempotent :
  forall (rt : JsRuntime) (inferredType : Sequelize.DataType) (value coerced : jsval),
    Sequelize.coerce inferredType value = Ok coerced ->
    coerced <> JString "" ->
    Sequelize.coerce inferredType coerced = Ok coerced.
Proof.
  intros rt t v c Hc Hne.
  destruct (coerce_null_or_canonical t v c Hc) as [->|E]; [reflexivity|].
  destruct c as [| |s|n|b|[d|]|o]; destruct t; simpl in E; try discriminate;
    unfold Sequelize.coerce; simpl.
  - destruct (String.eqb_spec s "") as [->|_]; [now elim Hne|reflexivity].
  - destruct (String.eqb_spec s "") as [->|_]; [now elim Hne|reflexivity].
  - destruct (String.eqb_spec s "") as [->|_]; [now elim Hne|reflexivity].
  - apply negb_true_iff in E. now rewrite E.
  - reflexivity.
  - reflexivity.
Qed.

Lemma coercion_is_idempotent_witness :
  Sequelize.coerce (rt := Node.runtime) Sequelize.DECIMAL (JNumber (number_of_Z 42)) =
  Ok (JNumber (number_of_Z 42)).
Proof.
  refine (coercion_is_idempotent Node.runtime Sequelize.DECIMAL (JString "42")
            (JNumber (number_of_Z 42)) eq_refl _).
  discriminate.
Defined.

Section FailedReplace.
Context {rt : JsRuntime}.

Lemma api_upload_store_fails (req : UploadRequest) (w : World) (f : File) :
  file req = Some f ->
  destroyResolves req = true ->
  uploadAnswer req = None ->
  fst (api_upload req w) = mkResponse 500 (ErrorObject StorageError)
  /\ (datasetRows w <> [] ->
      datasetRows (snd (api_upload req w)) = []
      /\ dataTable (snd (api_upload req w)) = None
      /\ ~ In "data.csv" (blobs (snd (api_upload req w))))
  /\ (datasetRows w = [] -> sameDurable w (snd (api_upload req w))).
Proof.
  intros Hfile Hd Hup. unfold_handlers. run_handler.
  all: durable_state; metadata_rows; unfold sameDurable; cbn [uploadedFile dataTable blobs].
  all: try congruence.
  all: repeat split; try reflexivity; try (intro H; now elim H); try discriminate.
  all: try match goal with
           | H : filter isDataCsv (uploadedFile ?w) = ?u :: _ |- _ =>
               assert (Eu : publicId u = "data.csv");
               [ assert (Hin : In u (filter isDataCsv (uploadedFile w)))
                   by (rewrite H; now left);
                 apply filter_In in Hin; destruct Hin as [_ Hin];
                 now apply String.eqb_eq in Hin
               | rewrite Eu in * ]
           end.
  all: try (exfalso; match goal with H : ?x <> ?x |- _ => now elim H end).
  all: intro Hin; apply filter_In in Hin; destruct Hin as [_ Hin];
       rewrite String.eqb_refl in Hin; discriminate.
Qed.

End FailedReplace.

(** X23.  Replacing is evict-then-admit with no way back: when a
    dataset is present and the blob store accepts the removal of the old
    blob but rejects the new file, the upload answers 500 and the old
    dataset is gone: no metadata row, no table, no blob.  Without a
    previous dataset the same failure leaves the durable state as it
    was. *)
Theorem failed_replace_loses_the_dataset :
  forall (rt : JsRuntime) (req : UploadRequest) (w : World) (f : File),
    file req = Some f ->
    destroyResolves req = true ->
    uploadAnswer req = None ->
    let w' := snd (api_upload req w) in
    fst (api_upload req w) = mkResponse 500 (ErrorObject StorageError)
    /\ (datasetRows w <> [] ->
        datasetRows w' = [] /\ dataTable w' = None /\ ~ In "data.csv" (blobs w')
        /\ fst (api_check_table w') = mkResponse 200 (Status false))
    /\ (datasetRows w = [] -> sameDurable w w').
Proof.
  intros rt req w f Hfile Hd Hup w'.
  destruct (api_upload_store_fails req w f Hfile Hd Hup) as (Hr & Hlost & Hsame).
  split; [exact Hr|]. split; [|exact Hsame].
  intro Hpresent. destruct (Hlost Hpresent) as (Hm & Ht & Hb). fold w' in Hm, Ht, Hb.
  repeat split; try assumption.
  rewrite api_check_table_answer. simpl.
  unfold datasetRows in Hm. now rewrite (filter_nil_existsb _ _ Hm).
Qed.

Lemma failed_replace_loses_the_dataset_witness :
  let w := snd (api_upload (rt := Node.runtime) (Node.flagUpload true) emptyWorld) in
  let req := mkUploadRequest (Some (mkFile "next.csv" "text/csv" "x")) true None
               [[("x", JBoolean false)]] None None (fun _ => true) in
  fst (api_upload req w) = mkResponse 500 (ErrorObject StorageError)
  /\ dataTable (snd (api_upload req w)) = None
  /\ fst (api_check_table (snd (api_upload req w))) = mkResponse 200 (Status false).
Proof.
  intros w req.
  destruct (failed_replace_loses_the_dataset Node.runtime req w
              (mkFile "next.csv" "text/csv" "x") eq_refl eq_refl eq_refl)
    as (Hr & Hlost & _).
  destruct (Hlost ltac:(discriminate)) as (_ & Ht & _ & Hc).
  split; [exact Hr|]. split; [exact Ht|exact Hc].
Defined.
